(** * GitHub contributions tracker: a shallow embedding and its properties

    The development follows [src/github_contributions_tracker/tracker.py],
    [bedrock_summarizer.py] and [cli.py].

    Conventions of the embedding.
    - A Python [str] is a [string] (its UTF-8 bytes).  Slices and lengths
      agree with Python's on ASCII data (hashes, URLs, the fixed headings).
    - A [datetime] is its wall-clock microsecond count together with an
      optional fixed UTC offset ([None] for a naive value).  The counts are
      unbounded integers.
    - The PyGithub client, the Bedrock runtime, [strftime], [dateutil] and
      [json.loads] are outside the repository: they are operations of an
      interface, each one a transition of the remote world that returns a
      value or raises.
    - [print] and [time.sleep] have no effect on any returned value and are
      left out. *)

From Stdlib Require Import List String Ascii ZArith Lia Bool Arith.
From Stdlib Require Import Permutation Sorted DecimalString.
Import ListNotations.

#[local] Open Scope list_scope.
#[local] Open Scope string_scope.

(** In this file [++] joins strings and [+++] joins lists. *)
Infix "+++" := (@List.app _) (right associativity, at level 60).

(* ===================================================================== *)
(** ** Python strings *)
(* ===================================================================== *)

Module PyStr.

(** [s[:n]] *)
Fixpoint take (n : nat) (s : string) : string :=
  match n, s with
  | S k, String c s' => String c (take k s')
  | _, _ => EmptyString
  end.

(** [s[n:]] *)
Fixpoint drop (n : nat) (s : string) : string :=
  match n, s with
  | S k, String _ s' => drop k s'
  | _, _ => s
  end.

(** [s.split(sep)] for a one-character separator: never empty. *)
Fixpoint split (sep : ascii) (s : string) : list string :=
  match s with
  | EmptyString => [EmptyString]
  | String c s' =>
      if Ascii.eqb c sep then EmptyString :: split sep s'
      else match split sep s' with
           | h :: t => String c h :: t
           | [] => [String c EmptyString]
           end
  end.

(** [s.split(sep, 1)]: the text before the first separator and, when there
    is one, the text after it. *)
Fixpoint split1 (sep : ascii) (s : string) : string * option string :=
  match s with
  | EmptyString => (EmptyString, None)
  | String c s' =>
      if Ascii.eqb c sep then (EmptyString, Some s')
      else let (h, t) := split1 sep s' in (String c h, t)
  end.

(** [sub in s] *)
Fixpoint contains (sub s : string) : bool :=
  prefix sub s ||
  match s with
  | EmptyString => false
  | String _ s' => contains sub s'
  end.

(** [s.find(sub, start)] for a non-negative [start]. *)
Definition find (sub s : string) (start : Z) : Z :=
  match index (Z.to_nat start) sub s with
  | Some n => Z.of_nat n
  | None => (-1)%Z
  end.

(** [s.replace(old, new)] for a non-empty [old]: every occurrence, left to
    right, without overlap.  [skip] counts the characters of the current
    occurrence that are still to be dropped. *)
Fixpoint replace_from (old new : string) (skip : nat) (s : string) : string :=
  match s with
  | EmptyString => EmptyString
  | String c s' =>
      match skip with
      | S k => replace_from old new k s'
      | O =>
          if prefix old s
          then new ++ replace_from old new (String.length old - 1) s'
          else String c (replace_from old new O s')
      end
  end.

Definition replace (old new s : string) : string :=
  replace_from old new O s.

Definition lower_ascii (c : ascii) : ascii :=
  let n := nat_of_ascii c in
  if (65 <=? n)%nat && (n <=? 90)%nat then ascii_of_nat (n + 32) else c.

(** [s.lower()] on the ASCII letters. *)
Fixpoint lower (s : string) : string :=
  match s with
  | EmptyString => EmptyString
  | String c s' => String (lower_ascii c) (lower s')
  end.

(** [sep.join(l)] *)
Definition join (sep : string) (l : list string) : string :=
  String.concat sep l.

(** [c * n] *)
Fixpoint repeat (c : ascii) (n : nat) : string :=
  match n with
  | O => EmptyString
  | S k => String c (repeat c k)
  end.

(** [str(n)] for a length *)
Definition of_nat (n : nat) : string :=
  NilEmpty.string_of_uint (Nat.to_uint n).

(** [sorted(l)] on strings: insertion into an ascending list. *)
Fixpoint insert_sorted (x : string) (l : list string) : list string :=
  match l with
  | [] => [x]
  | y :: l' => if String.leb x y then x :: l else y :: insert_sorted x l'
  end.

Fixpoint sorted (l : list string) : list string :=
  match l with
  | [] => []
  | x :: l' => insert_sorted x (sorted l')
  end.

End PyStr.

Definition nl : string := String (ascii_of_nat 10) EmptyString.
Definition slash : ascii := "/"%char.
Definition newline : ascii := ascii_of_nat 10.


(* ===================================================================== *)
(** ** Exceptions and results *)
(* ===================================================================== *)

(** The exception classes the code tells apart: [cli.parse_date] catches
    [ValueError] only, every other handler catches [Exception]. *)
Inductive ExnClass :=
| ValueError | TypeError | AttributeError | ArgumentTypeError | OtherError.

(** An exception with [str(e)]. *)
Record Exn := mkExn { exn_class : ExnClass; exn_str : string }.

(** The result of a call that returns or raises. *)
Inductive Res (A : Type) : Type :=
| Ok (a : A)
| Raise (e : Exn).
Arguments Ok {A} a.
Arguments Raise {A} e.

(* ===================================================================== *)
(** ** datetime *)
(* ===================================================================== *)

Module PyTime.

(** [wall]: microseconds of the wall-clock fields since the epoch;
    [utcoffset]: microseconds east of UTC, [None] when [tzinfo is None]. *)
Record datetime := mkDatetime { wall : Z; utcoffset : option Z }.

Definition day : Z := 86400000000.

(** [timedelta(days=n)] *)
Definition timedelta_days (n : Z) : Z := n * day.

(** [d + delta] *)
Definition add (d : datetime) (delta : Z) : datetime :=
  mkDatetime (wall d + delta) (utcoffset d).

(** [d.replace(tzinfo=timezone.utc)] *)
Definition replace_tzinfo_utc (d : datetime) : datetime :=
  mkDatetime (wall d) (Some 0%Z).

Definition aware (d : datetime) : bool :=
  match utcoffset d with Some _ => true | None => false end.

Definition cant_compare : Exn :=
  mkExn TypeError "can't compare offset-naive and offset-aware datetimes".

(** [a < b]: naive values compare their wall clocks, aware values their
    UTC instants, a mixed pair raises [TypeError]. *)
Definition lt (a b : datetime) : Res bool :=
  match utcoffset a, utcoffset b with
  | None, None => Ok (wall a <? wall b)%Z
  | Some oa, Some ob => Ok (wall a - oa <? wall b - ob)%Z
  | _, _ => Raise cant_compare
  end.

(** [a >= b] *)
Definition ge (a b : datetime) : Res bool :=
  match utcoffset a, utcoffset b with
  | None, None => Ok (wall b <=? wall a)%Z
  | Some oa, Some ob => Ok (wall b - ob <=? wall a - oa)%Z
  | _, _ => Raise cant_compare
  end.

(** [min(a, b)]: the first argument unless the second is smaller. *)
Definition min (a b : datetime) : Res datetime :=
  match lt b a with
  | Ok true => Ok b
  | Ok false => Ok a
  | Raise e => Raise e
  end.

(** The position of a value on its own time line: the UTC instant of an
    aware value, the wall clock of a naive one. *)
Definition instant (d : datetime) : Z :=
  match utcoffset d with
  | Some o => (wall d - o)%Z
  | None => wall d
  end.

(** Both aware or both naive: the pairs [<] accepts. *)
Definition comparable (a b : datetime) : bool :=
  Bool.eqb (aware a) (aware b).

End PyTime.
Export PyTime (datetime).

(* ===================================================================== *)
(** ** Computations over a state that may raise *)
(* ===================================================================== *)

(** A computation reads and writes a state [S] and returns or raises; the
    state written before an exception stays written, as for a Python object
    mutated before a [raise].  [None] is reserved for a loop that used up
    its iteration budget. *)
Definition M (S A : Type) : Type := S -> option (Res A * S).

Definition ret {S A} (a : A) : M S A := fun s => Some (Ok a, s).

Definition raise {S A} (e : Exn) : M S A := fun s => Some (Raise e, s).

Definition out_of_fuel {S A} : M S A := fun _ => None.

Definition bind {S A B} (m : M S A) (k : A -> M S B) : M S B :=
  fun s =>
    match m s with
    | Some (Ok a, s') => k a s'
    | Some (Raise e, s') => Some (Raise e, s')
    | None => None
    end.

(** [try: body  except Exception as e: handler(e)] *)
Definition try_except {S A} (body : M S A) (handler : Exn -> M S A) : M S A :=
  fun s =>
    match body s with
    | Some (Raise e, s') => handler e s'
    | r => r
    end.

(** A pure call that returns or raises. *)
Definition lift {S A} (r : Res A) : M S A := fun s => Some (r, s).

Declare Scope py_scope.
Delimit Scope py_scope with py.
Notation "x <- m ;; k" := (bind m (fun x => k))
  (at level 61, m at next level, right associativity) : py_scope.
Notation "' pat <- m ;; k" := (bind m (fun x => match x with pat => k end))
  (at level 61, pat pattern, m at next level, right associativity) : py_scope.
Notation "m ;;; k" := (bind m (fun _ => k))
  (at level 61, right associativity) : py_scope.
#[local] Open Scope py_scope.

(** [for x in l: body(x)] *)
Fixpoint for_each {S A} (l : list A) (body : A -> M S unit) : M S unit :=
  match l with
  | [] => ret tt
  | x :: l' => body x ;;; for_each l' body
  end.

Definition get_state {S} : M S S := fun s => Some (Ok s, s).
Definition modify {S} (f : S -> S) : M S unit := fun s => Some (Ok tt, f s).

(* ===================================================================== *)
(** ** Data model *)
(* ===================================================================== *)

(** The [commit_data] dictionaries: keys ['repo'], ['sha'], ['message'],
    ['date'], ['url']. *)
Record CommitRecord := mkCommit {
  c_repo : string;
  c_sha : string;
  c_message : string;
  c_date : datetime;
  c_url : string
}.

(** The repository dictionaries: keys ['name'], ['url'], ['private']. *)
Record RepositoryRecord := mkRepo {
  r_name : string;
  r_url : string;
  r_private : bool
}.

(** The [contributions] dictionary.  The three reserved lists are created
    empty and no code path appends to them. *)
Record Contributions := mkContributions {
  commits : list CommitRecord;
  pull_requests : list unit;
  issues : list unit;
  reviews : list unit;
  repositories : list RepositoryRecord
}.

Definition empty_contributions : Contributions :=
  mkContributions [] [] [] [] [].

Definition append_commit (cd : CommitRecord) (c : Contributions) : Contributions :=
  mkContributions (commits c +++ [cd]) (pull_requests c) (issues c) (reviews c)
                  (repositories c).

Definition append_repository (r : RepositoryRecord) (c : Contributions) : Contributions :=
  mkContributions (commits c) (pull_requests c) (issues c) (reviews c)
                  (repositories c +++ [r]).

(* ===================================================================== *)
(** ** The remote platform as seen through PyGithub *)
(* ===================================================================== *)

(** A [github.Commit] as far as the code reads it: [commit.sha],
    [commit.commit.message], [commit.commit.author.date], [commit.html_url]. *)
Record GitCommit := mkGitCommit {
  gc_sha : string;
  gc_message : string;
  gc_author_date : datetime;
  gc_html_url : string
}.

(** A [github.Repository]: [name], [full_name], [html_url], [private]. *)
Record Repository := mkRepository {
  name : string;
  full_name : string;
  html_url : string;
  private : bool
}.

(** A [PaginatedList]: what [totalCount] answers, the items an iteration
    yields, and the exception that interrupts the iteration after them, if
    one does. *)
Record PaginatedList (A : Type) := mkPaginated {
  totalCount : Res nat;
  items : list A;
  broken : option Exn
}.
Arguments mkPaginated {A}.
Arguments totalCount {A}.
Arguments items {A}.
Arguments broken {A}.

(** One node of the commit history the GraphQL query asks for.  [author_login]
    is [None] when [author], [author.user] or [author.user.login] is missing
    or null. *)
Record HistoryNode := mkNode {
  oid : string;
  messageHeadline : string;
  committedDate : string;
  node_url : string;
  author_login : option string
}.

(** The part of a GraphQL answer the code walks through: a truthy ["errors"]
    entry, then [data.repository], [defaultBranchRef], [target] and
    [history.nodes], each of which may be missing or null. *)
Record Target := mkTarget { history : option (list HistoryNode) }.
Record BranchRef := mkBranchRef { target : option Target }.
Record RepositoryData := mkRepositoryData { defaultBranchRef : option BranchRef }.
Record Document := mkDocument {
  errors : bool;
  data_repository : option RepositoryData
}.

(** The third component of the [(status, headers, body)] triple. *)
Inductive ResponseBody :=
| BodyStr (s : string)
| BodyDict (d : Document)
| BodyOther.

(** What [requestJson] hands back, by the run-time types the code tests. *)
Inductive RequestResult :=
| ResTuple (status_code : Z) (response_body : ResponseBody)
| ResInt (n : Z)
| ResDict (d : Document)
| ResOther.

(** The variables of the GraphQL commit query. *)
Record Variables := mkVariables {
  v_owner : string;
  v_repo : string;
  v_since : string;
  v_until : string
}.

(** The library calls the code relies on.  [set_order] is the iteration
    order of a Python [set] of strings, given the order in which its elements
    were first inserted; [str_strip] is [str.strip()]. *)
Class Library := {
  strftime_date : datetime -> string;
  strftime_iso : datetime -> string;
  json_loads : string -> Res Document;
  date_parser_parse : string -> Res datetime;
  str_strip : string -> string;
  set_order : list string -> list string;
  set_order_perm : forall l, Permutation (set_order l) l
}.

(** The PyGithub client of a tracker, with [self.user.login].  [W] is the
    state of the remote platform; every request is a transition on it. *)
Class GitHub (W : Type) := {
  login : string;
  search_commits : string -> W -> Res (PaginatedList GitCommit) * W;
  get_repo : string -> W -> Res Repository * W;
  get_commits : Repository -> datetime -> datetime -> nat ->
                W -> Res (PaginatedList GitCommit) * W;
  get_repos : W -> Res (PaginatedList Repository) * W;
  requestJson : Variables -> W -> Res RequestResult * W
}.

(** A Python [set] of strings: its elements in order of first insertion. *)
Definition set_mem (x : string) (s : list string) : bool :=
  existsb (String.eqb x) s.

Definition set_add (x : string) (s : list string) : list string :=
  if set_mem x s then s else (s +++ [x]).

(** Iterating a [PaginatedList] to the end, as a comprehension does. *)
Definition iterate {A} (pl : PaginatedList A) : Res (list A) :=
  match broken pl with
  | None => Ok (items pl)
  | Some e => Raise e
  end.

(** [url_parts = html_url.split('/')] and, when there are at least five
    parts, [f"{url_parts[3]}/{url_parts[4]}"]. *)
Definition repo_name_of_url (commit_html_url : string) : option string :=
  let url_parts := PyStr.split slash commit_html_url in
  if (5 <=? List.length url_parts)%nat
  then Some (nth 3 url_parts EmptyString ++ "/" ++ nth 4 url_parts EmptyString)
  else None.

(** [repo_commits[repo_name].append(x)], creating the entry on first use; the
    dictionary keeps its keys in insertion order. *)
Fixpoint group_append {A} (repo_name : string) (x : A)
  (repo_commits : list (string * list A)) : list (string * list A) :=
  match repo_commits with
  | [] => [(repo_name, [x])]
  | (k, l) :: rest =>
      if String.eqb k repo_name then (k, l +++ [x]) :: rest
      else (k, l) :: group_append repo_name x rest
  end.

(** [repo_commits[repo_name]] *)
Fixpoint group_lookup {A} (repo_name : string) (repo_commits : list (string * list A))
  : list A :=
  match repo_commits with
  | [] => []
  | (k, l) :: rest =>
      if String.eqb k repo_name then l else group_lookup repo_name rest
  end.

(** [commit.commit.message.split('\n')[0]] *)
Definition first_line (message : string) : string :=
  hd EmptyString (PyStr.split newline message).

(* ===================================================================== *)
(** ** class GitHubContributionsTracker *)
(* ===================================================================== *)

Section Tracker.

Context {LIB : Library} {W : Type} {GH : GitHub W}.

(** The state a strategy works on: the remote platform and the
    [contributions] dictionary the strategy fills in place. *)
Record Frame := mkFrame { world : W; contributions : Contributions }.

(** A request to the platform, from code that holds no dictionary. *)
Definition request {A} (op : W -> Res A * W) : M W A :=
  fun w => Some (op w).

(** A computation on the platform alone, run inside a strategy. *)
Definition in_world {A} (m : M W A) : M Frame A :=
  fun f =>
    match m (world f) with
    | Some (r, w') => Some (r, mkFrame w' (contributions f))
    | None => None
    end.

(** [contributions[...].append(...)] and the like. *)
Definition update (g : Contributions -> Contributions) : M Frame unit :=
  fun f => Some (Ok tt, mkFrame (world f) (g (contributions f))).

Definition read : M Frame Contributions :=
  fun f => Some (Ok (contributions f), f).

(** A strategy: start from the empty dictionary and run the body.  The
    body answers [Some c] for an early [return c] and [None] when control
    reaches the final [return contributions]. *)
Definition returning (body : M Frame (option Contributions)) : M W Contributions :=
  fun w =>
    match body (mkFrame w empty_contributions) with
    | Some (Ok (Some c), f) => Some (Ok c, world f)
    | Some (Ok None, f) => Some (Ok (contributions f), world f)
    | Some (Raise e, f) => Some (Raise e, world f)
    | None => None
    end.

(** [for x in paginated: body(x)]: the items, then the interruption. *)
Definition for_paginated {S A} (pl : PaginatedList A) (body : A -> M S unit)
  : M S unit :=
  for_each (items pl) body ;;;
  match broken pl with
  | Some e => raise e
  | None => ret tt
  end.

(** [f'author:{self.user.login} committer-date:{start}..{end}'] *)
Definition commit_query (start_date_str end_date_str : string) : string :=
  "author:" ++ login ++ " committer-date:" ++ start_date_str ++ ".."
    ++ end_date_str.

(** *** _get_repos_with_contributions *)

(** The loop that fills [repos_with_contributions] from the search hits. *)
Definition collect_repo_names (found : list GitCommit) : list string :=
  fold_left
    (fun repos commit =>
       match repo_name_of_url (gc_html_url commit) with
       | Some repo_name => set_add repo_name repos
       | None => repos
       end)
    found [].

(** The loop that fills [filtered_repos] / [public_repos]: a repository
    that cannot be fetched is skipped. *)
Fixpoint keep_public (names filtered : list string) : M W (list string) :=
  match names with
  | [] => ret filtered
  | repo_name :: rest =>
      filtered' <-
        try_except
          (repo <- request (get_repo repo_name) ;;
           ret (if negb (private repo)
                then set_add repo_name filtered
                else filtered))
          (fun _ => ret filtered) ;;
      keep_public rest filtered'
  end.

(** The [except] branch: every repository of the account.  The listing is
    iterated once, by the first comprehension that reads it. *)
Definition all_repo_names (include_private : bool) : M W (list string) :=
  repos <- request get_repos ;;
  repos <- lift (iterate repos) ;;
  let repos :=
    if negb include_private
    then filter (fun repo => negb (private repo)) repos
    else repos in
  ret (map full_name repos).

Definition _get_repos_with_contributions
  (start_date end_date : datetime) (include_private : bool)
  : M W (list string) :=
  let start_date_str := strftime_date start_date in
  let end_date_str := strftime_date end_date in
  try_except
    (commits <- request (search_commits (commit_query start_date_str end_date_str)) ;;
     _ <- lift (totalCount commits) ;;
     found <- lift (iterate commits) ;;
     let repos_with_contributions := collect_repo_names found in
     if negb include_private then
       filtered_repos <- keep_public (set_order repos_with_contributions) [] ;;
       ret (set_order filtered_repos)
     else
       ret (set_order repos_with_contributions))
    (fun _ => all_repo_names include_private).

(** *** _fetch_contributions_conservative *)

Definition commit_data (repo : string) (commit : GitCommit) : CommitRecord :=
  mkCommit repo
           (PyStr.take 7 (gc_sha commit))
           (first_line (gc_message commit))
           (gc_author_date commit)
           (gc_html_url commit).

Definition repository_data (repo : Repository) : RepositoryRecord :=
  mkRepo (name repo) (html_url repo) (private repo).

(** [any(r['name'] == name for r in contributions['repositories'])] *)
Definition repo_exists (name : string) (c : Contributions) : bool :=
  existsb (fun r => String.eqb (r_name r) name) (repositories c).

(** The body of [for repo_name in repos_with_contributions[:10]]. *)
Definition conservative_repo
  (current_date chunk_end : datetime) (repo_name : string) : M Frame unit :=
  try_except
    (repo <- in_world (request (get_repo repo_name)) ;;
     commits <- in_world (request (get_commits repo current_date chunk_end 30)) ;;
     for_paginated commits
       (fun commit =>
          update (append_commit (commit_data (name repo) commit))) ;;;
     c <- read ;;
     if negb (repo_exists (name repo) c)
     then update (append_repository (repository_data repo))
     else ret tt)
    (fun _ => ret tt).

(** The body of the [while] loop, up to [current_date = chunk_end]. *)
Definition conservative_chunk
  (current_date chunk_end : datetime) (include_private : bool) : M Frame unit :=
  try_except
    (repos_with_contributions <-
       in_world (_get_repos_with_contributions current_date chunk_end include_private) ;;
     match repos_with_contributions with
     | [] => ret tt
     | _ => for_each (firstn 10 repos_with_contributions)
                     (conservative_repo current_date chunk_end)
     end)
    (fun _ => ret tt).

Definition chunk_size : Z := PyTime.timedelta_days 7.

(** [while current_date < end_date: ...]; [fuel] bounds the number of
    tests of the loop condition. *)
Fixpoint conservative_loop
  (fuel : nat) (current_date end_date : datetime) (include_private : bool)
  : M Frame unit :=
  match fuel with
  | O => out_of_fuel
  | S fuel' =>
      again <- lift (PyTime.lt current_date end_date) ;;
      if again : bool then
        chunk_end <- lift (PyTime.min (PyTime.add current_date chunk_size) end_date) ;;
        conservative_chunk current_date chunk_end include_private ;;;
        conservative_loop fuel' chunk_end end_date include_private
      else ret tt
  end.

(** One test per chunk and a last one that ends the loop. *)
Definition loop_budget (start_date end_date : datetime) : nat :=
  S (Z.to_nat ((PyTime.instant end_date - PyTime.instant start_date) / chunk_size + 1)).

Definition _fetch_contributions_conservative
  (start_date end_date : datetime) (include_private : bool)
  : M W Contributions :=
  returning
    (conservative_loop (loop_budget start_date end_date)
                       start_date end_date include_private ;;;
     ret None).

(** *** _fetch_contributions_bulk_search *)

(** ["403" in str(e) or "rate limit" in str(e).lower()] *)
Definition rate_limited (e : Exn) : bool :=
  PyStr.contains "403" (exn_str e)
  || PyStr.contains "rate limit" (PyStr.lower (exn_str e)).

Definition group_by_repo (found : list GitCommit) : list (string * list GitCommit) :=
  fold_left
    (fun repo_commits commit =>
       match repo_name_of_url (gc_html_url commit) with
       | Some repo_name => group_append repo_name commit repo_commits
       | None => repo_commits
       end)
    found [].

Definition unpack_error : Exn :=
  mkExn ValueError "not enough values to unpack (expected 2, got 1)".

(** [owner, repo = repo_name.split('/', 1)] *)
Definition owner_repo {S} (repo_name : string) : M S (string * string) :=
  match PyStr.split1 slash repo_name with
  | (owner, Some repo) => ret (owner, repo)
  | (_, None) => raise unpack_error
  end.

Definition bulk_body
  (start_date end_date : datetime) (include_private : bool)
  : M Frame (option Contributions) :=
  let start_date_str := strftime_date start_date in
  let end_date_str := strftime_date end_date in
  searched <-
    try_except
      (commits <- in_world (request (search_commits
                              (commit_query start_date_str end_date_str))) ;;
       ret (inl commits))
      (fun e =>
         if rate_limited e then
           c <- in_world (_fetch_contributions_conservative
                            start_date end_date include_private) ;;
           ret (inr c)
         else raise e) ;;
  match searched with
  | inr c => ret (Some c)
  | inl commits =>
      found <- lift (iterate commits) ;;
      let repo_commits := group_by_repo found in
      for_each repo_commits
        (fun '(repo_name, repo_commit_list) =>
           '(_, repo) <- owner_repo repo_name ;;
           for_each (firstn 50 repo_commit_list)
             (fun commit =>
                update (append_commit
                          (mkCommit repo
                                    (PyStr.take 7 (gc_sha commit))
                                    (first_line (gc_message commit))
                                    (gc_author_date commit)
                                    (gc_html_url commit))))) ;;;
      let all_repos := map fst repo_commits in
      all_repos <-
        (if negb include_private
         then in_world (keep_public (set_order all_repos) [])
         else ret all_repos) ;;
      for_each (set_order all_repos)
        (fun repo_name =>
           '(_, repo) <- owner_repo repo_name ;;
           update (append_repository
                     (mkRepo repo ("https://github.com/" ++ repo_name) false))) ;;;
      ret None
  end.

Definition _fetch_contributions_bulk_search
  (start_date end_date : datetime) (include_private : bool)
  : M W Contributions :=
  try_except
    (returning (bulk_body start_date end_date include_private))
    (fun _ => _fetch_contributions_conservative start_date end_date include_private).

(** *** _fetch_contributions_graphql *)

Definition not_a_dict : Exn :=
  mkExn AttributeError "object has no attribute 'get'".

(** The run-time type tests on the answer of [requestJson]: the dictionary
    the rest of the loop body reads, or [None] for [continue]. *)
Definition unwrap_result (commits_result : RequestResult)
  : M Frame (option Document) :=
  match commits_result with
  | ResTuple status_code response_body =>
      if negb (status_code =? 200)%Z then ret None
      else
        match response_body with
        | BodyStr s =>
            try_except (d <- lift (json_loads s) ;; ret (Some d))
                       (fun _ => ret None)
        | BodyDict d => ret (Some d)
        | BodyOther => raise not_a_dict
        end
  | ResInt _ => ret None
  | ResDict d => ret (Some d)
  | ResOther => ret None
  end.

(** The body of [for commit in commits_data]. *)
Definition graphql_node (repo : string) (commit : HistoryNode) : M Frame unit :=
  match author_login commit with
  | None => ret tt
  | Some author_login =>
      if String.eqb author_login EmptyString then ret tt
      else if negb (String.eqb author_login login) then ret tt
      else
        date <- lift (date_parser_parse (committedDate commit)) ;;
        update (append_commit
                  (mkCommit repo
                            (PyStr.take 7 (oid commit))
                            (messageHeadline commit)
                            date
                            (node_url commit)))
  end.

(** The [try] block under "Process commits if we have valid data";
    [false] stands for [continue], [true] for reaching its end. *)
Definition graphql_commits (repo : string) (commits_result : Document)
  : M Frame bool :=
  try_except
    (match data_repository commits_result with
     | None => ret false
     | Some repo_data =>
         match defaultBranchRef repo_data with
         | None => ret false
         | Some default_branch =>
             match target default_branch with
             | None => ret false
             | Some tgt =>
                 match history tgt with
                 | None => ret false
                 | Some commits_data =>
                     for_each commits_data (graphql_node repo) ;;;
                     ret true
                 end
             end
         end
     end)
    (fun _ => ret false).

(** The body of [for repo_name in batch]. *)
Definition graphql_repo (start_date_str end_date_str repo_name : string)
  : M Frame unit :=
  try_except
    ('(owner, repo) <- owner_repo repo_name ;;
     let variables := mkVariables owner repo start_date_str end_date_str in
     answered <-
       try_except
         (r <- in_world (request (requestJson variables)) ;; ret (Some r))
         (fun _ => ret None) ;;
     match answered with
     | None => ret tt
     | Some commits_result =>
         unwrapped <- unwrap_result commits_result ;;
         match unwrapped with
         | None => ret tt
         | Some commits_result =>
             if errors commits_result then ret tt
             else
               reached <- graphql_commits repo commits_result ;;
               if reached : bool then
                 update (append_repository
                           (mkRepo repo ("https://github.com/" ++ repo_name) false))
               else ret tt
         end
     end)
    (fun _ => ret tt).

Definition batch_size : nat := 5.

(** [range(0, n, batch_size)] *)
Definition batch_starts (n : nat) : list nat :=
  map (fun k => k * batch_size)%nat (seq 0 ((n + batch_size - 1) / batch_size)).

(** The two nested [for] loops over the batches. *)
Definition graphql_batches
  (repos_with_contributions : list string) (start_date_str end_date_str : string)
  : M Frame unit :=
  for_each (batch_starts (List.length repos_with_contributions))
    (fun i =>
       let batch := firstn batch_size (skipn i repos_with_contributions) in
       for_each batch (graphql_repo start_date_str end_date_str)).

Definition _fetch_contributions_graphql
  (repos_with_contributions : list string) (start_date end_date : datetime)
  : M W Contributions :=
  let start_date_str := strftime_iso start_date in
  let end_date_str := strftime_iso end_date in
  returning
    (graphql_batches repos_with_contributions start_date_str end_date_str ;;;
     c <- read ;;
     match commits c with
     | [] =>
         let include_private := existsb r_private (repositories c) in
         c' <- in_world (_fetch_contributions_conservative
                           start_date end_date include_private) ;;
         ret (Some c')
     | _ :: _ => ret None
     end).

(** *** get_contributions *)

(** [for commit in commits:] with its counter and [break]. *)
Fixpoint first_commits (repo : Repository) (rest : list GitCommit)
  (interrupted : option Exn) (commit_count : nat) : M Frame unit :=
  match rest with
  | [] =>
      match interrupted with
      | Some e => raise e
      | None => ret tt
      end
  | commit :: rest' =>
      if (50 <=? commit_count)%nat then ret tt
      else
        let commit_date := gc_author_date commit in
        let commit_date :=
          if PyTime.aware commit_date then commit_date
          else PyTime.replace_tzinfo_utc commit_date in
        update (append_commit
                  (mkCommit (name repo)
                            (PyStr.take 7 (gc_sha commit))
                            (first_line (gc_message commit))
                            commit_date
                            (gc_html_url commit))) ;;;
        first_commits repo rest' interrupted (S commit_count)
  end.

(** The body of [for i, repo_name in enumerate(repos_with_contributions, 1)]. *)
Definition enumerate_repo (start_date end_date : datetime) (repo_name : string)
  : M Frame unit :=
  try_except
    (repo <- in_world (request (get_repo repo_name)) ;;
     commits <- in_world (request (get_commits repo start_date end_date 100)) ;;
     total <- lift (totalCount commits) ;;
     (if (0 <? total)%nat
      then first_commits repo (items commits) (broken commits) 0
      else ret tt) ;;;
     update (append_repository (repository_data repo)))
    (fun _ => ret tt).

(** [limit] is [None] or an integer; [limit and limit > 0] guards the slice. *)
Definition apply_limit (limit : option Z) (repos : list string) : list string :=
  match limit with
  | Some n => if (0 <? n)%Z then firstn (Z.to_nat n) repos else repos
  | None => repos
  end.

Definition get_contributions
  (start_date end_date : datetime)
  (include_private optimize : bool) (limit : option Z)
  (skip_reviews use_graphql use_bulk use_conservative : bool)
  : M W Contributions :=
  repos_with_contributions <-
    (if optimize
     then _get_repos_with_contributions start_date end_date include_private
     else all_repo_names include_private) ;;
  let repos_with_contributions := apply_limit limit repos_with_contributions in
  if use_conservative then
    _fetch_contributions_conservative start_date end_date include_private
  else if use_bulk then
    _fetch_contributions_bulk_search start_date end_date include_private
  else if use_graphql then
    _fetch_contributions_graphql repos_with_contributions start_date end_date
  else
    returning
      (for_each repos_with_contributions (enumerate_repo start_date end_date) ;;;
       ret None).

End Tracker.

Arguments Frame W : clear implicits.

(* ===================================================================== *)
(** ** Reports *)
(* ===================================================================== *)

Module Report.

Definition private_markdown : string := "🔒 Private".
Definition public_markdown : string := "🌐 Public".

Definition commit_line_markdown (commit : CommitRecord) : string :=
  "- **" ++ c_repo commit ++ "**: " ++ c_message commit
    ++ " (" ++ c_sha commit ++ ")".

Definition commit_line_plain (commit : CommitRecord) : string :=
  "- " ++ c_repo commit ++ ": " ++ c_message commit
    ++ " (" ++ c_sha commit ++ ")".

Definition repo_line_markdown (repo : RepositoryRecord) : string :=
  let visibility := if r_private repo then private_markdown else public_markdown in
  "- **" ++ r_name repo ++ "** (" ++ visibility ++ ")".

Definition repo_line_plain (repo : RepositoryRecord) : string :=
  let visibility := if r_private repo then "Private" else "Public" in
  "- " ++ r_name repo ++ " (" ++ visibility ++ ")".

(** [if xs: summary.append(header...); for x in xs: ...; summary.append("")] *)
Definition section {A} (xs : list A) (header : list string) (line : A -> string)
  : list string :=
  match xs with
  | [] => []
  | _ :: _ => header +++ map line xs +++ [EmptyString]
  end.

(** The list [summary] of [generate_summary] before it is joined. *)
Definition summary_lines (contributions : Contributions) (format_type : string)
  : list string :=
  let total_commits := List.length (commits contributions) in
  let total_repos := List.length (repositories contributions) in
  if String.eqb format_type "markdown" then
    ["# GitHub Contributions Summary" ++ nl;
      "## Overview";
      "- **Total Commits**: " ++ PyStr.of_nat total_commits;
      "- **Repositories with Contributions**: " ++ PyStr.of_nat total_repos ++ nl]
     +++ section (commits contributions) ["## Commits"] commit_line_markdown
     +++ section (repositories contributions)
           ["## Repositories with Contributions"] repo_line_markdown
  else
    ["GITHUB CONTRIBUTIONS SUMMARY";
      PyStr.repeat "="%char 40;
      EmptyString;
      "OVERVIEW";
      PyStr.repeat "-"%char 10;
      "Total Commits: " ++ PyStr.of_nat total_commits;
      "Repositories with Contributions: " ++ PyStr.of_nat total_repos;
      EmptyString]
     +++ section (commits contributions)
           ["COMMITS"; PyStr.repeat "-"%char 10] commit_line_plain
     +++ section (repositories contributions)
           ["REPOSITORIES WITH CONTRIBUTIONS"; PyStr.repeat "-"%char 32]
           repo_line_plain.

Definition generate_summary (contributions : Contributions) (format_type : string)
  : string :=
  PyStr.join nl (summary_lines contributions format_type).

(** *** _generate_low_level_tasks *)

Definition no_commits_section : string :=
  "## Low-Level Tasks" ++ nl ++ nl
    ++ "No commits found in the specified time period.".

(** The dictionary [repo_commits]: the commits of each repository name, in
    order of first appearance. *)
Definition commits_by_repo (cs : list CommitRecord)
  : list (string * list CommitRecord) :=
  fold_left (fun repo_commits commit =>
               group_append (c_repo commit) commit repo_commits)
            cs [].

Definition low_level_commit_line (commit : CommitRecord) : string :=
  "    Commit: " ++ c_sha commit ++ " - " ++ c_message commit.

(** The lines one repository adds to [low_level_section]. *)
Definition low_level_repo (repo_commits : list (string * list CommitRecord))
  (repo_name : string) : list string :=
  ("  Repository: " ++ repo_name)
    :: map low_level_commit_line (group_lookup repo_name repo_commits)
    +++ [EmptyString].

Definition _generate_low_level_tasks (contributions : Contributions) : string :=
  match commits contributions with
  | [] => no_commits_section
  | _ :: _ =>
      let repo_commits := commits_by_repo (commits contributions) in
      let low_level_section :=
        ["## Low-Level Tasks" ++ nl]
          +++ flat_map (low_level_repo repo_commits)
                (PyStr.sorted (map fst repo_commits)) in
      PyStr.join nl low_level_section
  end.

(** *** generate_repos_only_summary *)

Definition repos_only_line_markdown (repo : RepositoryRecord) : string :=
  repo_line_markdown repo ++ " - " ++ r_url repo.

Definition repos_only_line_plain (repo : RepositoryRecord) : string :=
  repo_line_plain repo ++ " - " ++ r_url repo.

Definition repos_only_lines (contributions : Contributions) (format_type : string)
  : list string :=
  let total_repos := List.length (repositories contributions) in
  if String.eqb format_type "markdown" then
    ["# Repositories with Contributions" ++ nl;
      "**Total Repositories**: " ++ PyStr.of_nat total_repos ++ nl]
     +++ section (repositories contributions)
           ["## Repository List"] repos_only_line_markdown
  else
    ["REPOSITORIES WITH CONTRIBUTIONS";
      PyStr.repeat "="%char 40;
      EmptyString;
      "Total Repositories: " ++ PyStr.of_nat total_repos;
      EmptyString]
     +++ section (repositories contributions)
           ["REPOSITORY LIST"; PyStr.repeat "-"%char 15]
           repos_only_line_plain.

Definition generate_repos_only_summary
  (contributions : Contributions) (format_type : string) : string :=
  PyStr.join nl (repos_only_lines contributions format_type).

(** *** The insertion step of generate_bedrock_summary *)

Definition high_level_heading : string := "## High-Level Tasks Completed".
Definition overview_heading : string := "## Overview".

Definition insert_low_level_tasks (bedrock_summary low_level_section : string)
  : string :=
  if PyStr.contains high_level_heading bedrock_summary then
    PyStr.replace high_level_heading
      (low_level_section ++ nl ++ nl ++ high_level_heading)
      bedrock_summary
  else if PyStr.contains overview_heading bedrock_summary then
    let overview_end :=
      PyStr.find "##" bedrock_summary
                 (PyStr.find overview_heading bedrock_summary 0 + 1) in
    if (overview_end =? -1)%Z then
      bedrock_summary ++ nl ++ nl ++ low_level_section
    else
      PyStr.take (Z.to_nat overview_end) bedrock_summary
        ++ nl ++ nl ++ low_level_section ++ nl ++ nl
        ++ PyStr.drop (Z.to_nat overview_end) bedrock_summary
  else
    bedrock_summary ++ nl ++ nl ++ low_level_section.

End Report.

(* ===================================================================== *)
(** ** class BedrockSummarizer *)
(* ===================================================================== *)

(** The Bedrock runtime client.  [invoke_model region model_id max_tokens
    prompt] sends the request and reads
    [response_body['content'][0]['text']]; a failure at any of these steps is
    the exception it raises. *)
Class BedrockRuntime (B : Type) := {
  invoke_model : string -> string -> nat -> string -> B -> Res string * B
}.

Section Bedrock.

Context {LIB : Library} {B : Type} {BR : BedrockRuntime B}.

Record BedrockSummarizer := mkSummarizer {
  model_id : string;
  region : string;
  max_tokens : nat
}.

Definition prompt_head : string :=
"Hi, would you create a more succinct summary based on this list of contributions?

".

Definition prompt_tail : string :=
"

I would like a comprehensive summary that follows this exact format:

# GitHub Contributions Summary - High-Level Tasks

## Overview
- **Total Commits**: [number]
- **Repositories with Contributions**: [number]
- **Time Period**: Based on contributions from [date range]

## High-Level Tasks Completed

### 1. **[Category Name]**
- [Task description 1]
- [Task description 2]
- [Task description 3]

### 2. **[Category Name]**
- [Task description 1]
- [Task description 2]
- [Task description 3]

[Continue with more categories as needed...]

## Key Achievements
- **[Achievement 1]**: [description]
- **[Achievement 2]**: [description]
- **[Achievement 3]**: [description]

## Impact
- [Impact statement 1]
- [Impact statement 2]
- [Impact statement 3]

Please analyze the contributions and group them into logical high-level categories. Focus on the main themes and patterns in the work, not individual commits. Make it professional and strategic, highlighting the key accomplishments and their business impact.".

Definition create_summary_prompt (contributions_list : string) : string :=
  prompt_head ++ contributions_list ++ prompt_tail.

Definition error_summary (e : Exn) (contributions_list : string) : string :=
  "Error generating summary: " ++ exn_str e ++ nl ++ nl
    ++ "Original contributions:" ++ nl ++ contributions_list.

Definition summarize_contributions
  (self : BedrockSummarizer) (contributions_list : string) : M B string :=
  let prompt := create_summary_prompt contributions_list in
  try_except
    (fun b =>
       match invoke_model (region self) (model_id self) (max_tokens self) prompt b with
       | (Ok text, b') => Some (Ok (str_strip text), b')
       | (Raise e, b') => Some (Raise e, b')
       end)
    (fun e => ret (error_summary e contributions_list)).

(** [GitHubContributionsTracker.generate_bedrock_summary] *)
Definition generate_bedrock_summary
  (contributions : Contributions) (model_id region : string) : M B string :=
  let regular_summary := Report.generate_summary contributions "markdown" in
  let summarizer := mkSummarizer model_id region 2000 in
  bedrock_summary <- summarize_contributions summarizer regular_summary ;;
  let low_level_section := Report._generate_low_level_tasks contributions in
  ret (Report.insert_low_level_tasks bedrock_summary low_level_section).

End Bedrock.

(* ===================================================================== *)
(** ** cli.py *)
(* ===================================================================== *)

Section Cli.

Context {LIB : Library}.

(** [parse_date]: only a [ValueError] of the parser is turned into an
    [ArgumentTypeError]. *)
Definition parse_date (date_str : string) : Res datetime :=
  match date_parser_parse date_str with
  | Ok parsed_date =>
      Ok (if PyTime.aware parsed_date then parsed_date
          else PyTime.replace_tzinfo_utc parsed_date)
  | Raise e =>
      match exn_class e with
      | ValueError =>
          Raise (mkExn ArgumentTypeError ("Invalid date format: " ++ date_str))
      | _ => Raise e
      end
  end.

End Cli.

(* ===================================================================== *)
(** ** Notions used to state the properties *)
(* ===================================================================== *)

(** The pairs [(current_date, chunk_end)] that the [while] loop of the
    Conservative strategy goes through, in order. *)
Fixpoint chunk_ranges (fuel : nat) (current_date end_date : datetime)
  : list (datetime * datetime) :=
  match fuel with
  | O => []
  | S fuel' =>
      match PyTime.lt current_date end_date with
      | Ok true =>
          match PyTime.min (PyTime.add current_date chunk_size) end_date with
          | Ok chunk_end =>
              (current_date, chunk_end) :: chunk_ranges fuel' chunk_end end_date
          | Raise _ => []
          end
      | _ => []
      end
  end.

Definition date_chunks (start_date end_date : datetime) : list (datetime * datetime) :=
  chunk_ranges (loop_budget start_date end_date) start_date end_date.

(** Where the chunk that starts at [current_date] ends. *)
Definition next_end (end_date current_date : datetime) : datetime :=
  if (PyTime.instant end_date <? PyTime.instant current_date + chunk_size)%Z
  then end_date
  else PyTime.add current_date chunk_size.

(** Enough budget for the loop that starts at [current_date]. *)
Definition enough (end_date : datetime) (fuel : nat) (current_date : datetime) : Prop :=
  (0 < fuel)%nat /\
  ((PyTime.instant current_date < PyTime.instant end_date)%Z ->
   ((PyTime.instant end_date - PyTime.instant current_date) / chunk_size + 2
    <= Z.of_nat fuel)%Z).

(** The instant [t] lies in the half-open chunk. *)
Definition in_chunk (t : Z) (chunk : datetime * datetime) : bool :=
  (PyTime.instant (fst chunk) <=? t)%Z && (t <? PyTime.instant (snd chunk))%Z.

Definition chunk_width (chunk : datetime * datetime) : Z :=
  (PyTime.instant (snd chunk) - PyTime.instant (fst chunk))%Z.

(** Each chunk starts where the one before it ends. *)
Fixpoint consecutive (chunks : list (datetime * datetime)) : Prop :=
  match chunks with
  | a :: ((b :: _) as rest) => snd a = fst b /\ consecutive rest
  | _ => True
  end.

(** A property of the dictionary a strategy is filling. *)
Definition holds {W} (J : Contributions -> Prop) (f : Frame W) : Prop :=
  J (contributions f).

(** The three reserved lists are empty. *)
Definition reserved_empty (c : Contributions) : Prop :=
  pull_requests c = [] /\ issues c = [] /\ reviews c = [].

(** Every commit record has [PC], every repository record has [PR], and the
    reserved lists are empty. *)
Definition kept (PC : CommitRecord -> Prop) (PR : RepositoryRecord -> Prop)
  (c : Contributions) : Prop :=
  Forall PC (commits c) /\ Forall PR (repositories c) /\ reserved_empty c.

(** No proper non-empty suffix of [p] is a prefix of [p]: two occurrences of
    [p] in a text cannot overlap. *)
Definition border_free (p : string) : bool :=
  forallb (fun k => negb (prefix (PyStr.drop k p) p))
          (seq 1 (String.length p - 1)).

(** No occurrence of [p] starts inside [a] when [a] is followed by
    [p ++ rest]. *)
Definition no_early_match (p a rest : string) : Prop :=
  forall a1 a2, a = a1 ++ a2 -> a2 <> EmptyString ->
                prefix p (a2 ++ p ++ rest) = false.

(** What one repository contributes to the Low-Level Tasks section: its
    header line, one line for each of its commits in the order of the commit
    list, and an empty line. *)
Definition repo_block (cs : list CommitRecord) (repo_name : string) : list string :=
  ("  Repository: " ++ repo_name)
    :: map Report.low_level_commit_line
         (filter (fun c => String.eqb (c_repo c) repo_name) cs)
    +++ [EmptyString].

(** The order of [sorted] on strings. *)
Definition lexicographic (a b : string) : Prop := String.leb a b = true.

(** The record the enumeration of [get_contributions] builds: as
    [commit_data], with a naive author date turned into a UTC date. *)
Definition utc_commit_data (repo : string) (commit : GitCommit) : CommitRecord :=
  mkCommit repo
           (PyStr.take 7 (gc_sha commit))
           (first_line (gc_message commit))
           (if PyTime.aware (gc_author_date commit) then gc_author_date commit
            else PyTime.replace_tzinfo_utc (gc_author_date commit))
           (gc_html_url commit).

(** The character [c] does not occur in [s]. *)
Fixpoint free_of (c : ascii) (s : string) : bool :=
  match s with
  | EmptyString => true
  | String d s' => negb (Ascii.eqb d c) && free_of c s'
  end.

(** The message of a commit record holds no line break. *)
Definition single_line (c : CommitRecord) : Prop :=
  free_of newline (c_message c) = true.

(** The date of a commit record carries a zone. *)
Definition zone_aware (c : CommitRecord) : Prop :=
  PyTime.aware (c_date c) = true.

(** The deduplication key of the specification. *)
Definition dedup_key (c : CommitRecord) : string * string := (c_repo c, c_sha c).

Definition short_hash_7 (c : CommitRecord) : Prop := String.length (c_sha c) = 7%nat.

Definition public_record (r : RepositoryRecord) : Prop := r_private r = false.

Definition names_distinct (c : Contributions) : Prop :=
  NoDup (map r_name (repositories c)).

Definition full_hash (h : string) : Prop := (7 <= String.length h)%nat.

Definition document_nodes (d : Document) : list HistoryNode :=
  match data_repository d with
  | Some {| defaultBranchRef := Some {| target := Some {| history := Some nodes |} |} |} =>
      nodes
  | _ => []
  end.

Definition result_documents {LIB : Library} (r : RequestResult) : list Document :=
  match r with
  | ResTuple _ (BodyStr s) =>
      match json_loads s with Ok d => [d] | Raise _ => [] end
  | ResTuple _ (BodyDict d) => [d]
  | ResDict d => [d]
  | _ => []
  end.

(** Every hash the platform reports has at least seven characters. *)
Definition platform_hashes_full {LIB : Library} {W : Type} {GH : GitHub W} : Prop :=
  (forall q w pl w',
      search_commits q w = (Ok pl, w') ->
      Forall (fun commit => full_hash (gc_sha commit)) (items pl))
  /\ (forall repo a b n w pl w',
      get_commits repo a b n w = (Ok pl, w') ->
      Forall (fun commit => full_hash (gc_sha commit)) (items pl))
  /\ (forall v w r w',
      requestJson v w = (Ok r, w') ->
      Forall (fun d => Forall (fun node => full_hash (oid node)) (document_nodes d))
             (result_documents r)).

(** The part of [owner/repo] after the first slash. *)
Definition repo_part (repo_name : string) : string :=
  match PyStr.split1 slash repo_name with
  | (_, Some repo) => repo
  | (_, None) => EmptyString
  end.

(** The commit records of the bulk strategy for the hits of its search:
    repository by repository in order of first appearance, the first fifty
    hits of each. *)
Definition bulk_commit_records (found : list GitCommit) : list CommitRecord :=
  flat_map (fun entry =>
              map (commit_data (repo_part (fst entry))) (firstn 50 (snd entry)))
           (group_by_repo found).

Definition bulk_repository_record (repo_name : string) : RepositoryRecord :=
  mkRepo (repo_part repo_name) ("https://github.com/" ++ repo_name) false.

(** A commit record built from a history node whose author is the user:
    the first seven characters of the node's hash, its headline, its URL, and
    the date read from its [committedDate]. *)
Definition own_node_record {LIB : Library} {W : Type} {GH : GitHub W}
  (record : CommitRecord) : Prop :=
  exists node date,
    author_login node = Some login
    /\ date_parser_parse (committedDate node) = Ok date
    /\ record = mkCommit (c_repo record) (PyStr.take 7 (oid node))
                         (messageHeadline node) date (node_url node).

(* ===================================================================== *)
(** ** Sample platforms *)
(* ===================================================================== *)

Module Samples.

Definition utc (days : Z) : datetime :=
  PyTime.mkDatetime (days * PyTime.day) (Some 0%Z).

Definition naive (days : Z) : datetime :=
  PyTime.mkDatetime (days * PyTime.day) None.

Definition lib : Library := {|
  strftime_date d := "day" ++ PyStr.of_nat (Z.to_nat (PyTime.wall d / PyTime.day));
  strftime_iso d := "day" ++ PyStr.of_nat (Z.to_nat (PyTime.wall d / PyTime.day)) ++ "T00:00:00Z";
  json_loads _ := Raise (mkExn ValueError "Expecting value");
  date_parser_parse s :=
    if String.eqb s "2024-01-02T00:00:00Z" then Ok (utc 1)
    else if String.eqb s "2024-01-02" then Ok (naive 1)
    else Raise (mkExn ValueError "Unknown string format");
  str_strip s := s;
  set_order l := l;
  set_order_perm l := Permutation_refl l
|}.

Definition hash1 : string := "1234567890abcdef1234567890abcdef12345678".

(** What distinguishes one sample platform from another. *)
Record Scenario := mkScenario {
  search_error : option Exn;
  dates : Z -> datetime;
  listed : nat;
  node_author : option string
}.

Definition usual : Scenario := mkScenario None utc 1 (Some "alice").

(** The client reports author dates without a zone. *)
Definition zoneless : Scenario := mkScenario None naive 1 (Some "alice").

(** The commit search is refused. *)
Definition refused : Scenario :=
  mkScenario (Some (mkExn OtherError "403 API rate limit exceeded"))
             utc 1 (Some "alice").

(** Every commit in the history is somebody else's. *)
Definition others : Scenario := mkScenario None utc 1 (Some "mallory").

(** The platform lists 31 commits for a repository in a week. *)
Definition busy : Scenario := mkScenario None utc 31 (Some "alice").

Definition page {A} (l : list A) : PaginatedList A :=
  mkPaginated (Ok (List.length l)) l None.

Definition commit_in (sc : Scenario) (repo_full_name : string) : GitCommit :=
  mkGitCommit hash1
              ("Fix bug" ++ nl ++ nl ++ "Details")
              (dates sc 1)
              ("https://github.com/" ++ repo_full_name ++ "/commit/" ++ hash1).

Definition alice_proj : Repository :=
  mkRepository "proj" "alice/proj" "https://github.com/alice/proj" false.

Definition bob_proj : Repository :=
  mkRepository "proj" "bob/proj" "https://github.com/bob/proj" true.

Definition node (sc : Scenario) : HistoryNode :=
  mkNode hash1 "Fix bug" "2024-01-02T00:00:00Z"
         ("https://github.com/alice/proj/commit/" ++ hash1) (node_author sc).

Definition answer (sc : Scenario) : Document :=
  mkDocument false
    (Some (mkRepositoryData
             (Some (mkBranchRef (Some (mkTarget (Some [node sc]))))))).

(** A platform with the repository [alice/proj] (public) and its fork
    [bob/proj] (private), both holding the commit [hash1].  The state
    counts the requests served. *)
Definition github (sc : Scenario) : GitHub nat := {|
  login := "alice";
  search_commits _ w :=
    (match search_error sc with
     | Some e => Raise e
     | None => Ok (page [commit_in sc "alice/proj"; commit_in sc "bob/proj"])
     end, S w);
  get_repo repo_name w :=
    (if String.eqb repo_name "alice/proj" then Ok alice_proj
     else if String.eqb repo_name "bob/proj" then Ok bob_proj
     else Raise (mkExn OtherError "404 Not Found"), S w);
  get_commits repo _ _ _ w :=
    (Ok (page (List.repeat (commit_in sc (full_name repo)) (listed sc))), S w);
  get_repos w := (Ok (page [alice_proj; bob_proj]), S w);
  requestJson _ w := (Ok (ResTuple 200 (BodyDict (answer sc))), S w)
|}.

Definition forbidden : Exn :=
  mkExn OtherError "403 API rate limit exceeded".

(** A Bedrock runtime that is out of reach. *)
Definition silent : BedrockRuntime unit := {|
  invoke_model _ _ _ _ b :=
    (Raise (mkExn OtherError "Unable to locate credentials"), b)
|}.

(** A Bedrock runtime that answers with a fixed text. *)
Definition fluent (text : string) : BedrockRuntime unit := {|
  invoke_model _ _ _ _ b := (Ok text, b)
|}.

Definition sample_commits : list CommitRecord :=
  [mkCommit "zebra" "abc1234" "Fix z" (utc 1) "https://github.com/o/zebra/commit/abc1234";
   mkCommit "alpha" "def5678" "Add a" (utc 2) "https://github.com/o/alpha/commit/def5678";
   mkCommit "zebra" "0123456" "More z" (utc 3) "https://github.com/o/zebra/commit/0123456"].

Definition sample_contributions : Contributions :=
  mkContributions sample_commits [] [] []
    [mkRepo "zebra" "https://github.com/o/zebra" false;
     mkRepo "alpha" "https://github.com/o/alpha" false].

(** A parser that reads one string without a zone and one with a zone. *)
Definition two_dates : Library := {|
  strftime_date := @strftime_date lib;
  strftime_iso := @strftime_iso lib;
  json_loads := @json_loads lib;
  date_parser_parse s :=
    if String.eqb s "2024-01-02" then Ok (naive 1)
    else if String.eqb s "2024-01-10T00:00:00Z" then Ok (utc 9)
    else Raise (mkExn ValueError "Unknown string format");
  str_strip := @str_strip lib;
  set_order := @set_order lib;
  set_order_perm := @set_order_perm lib
|}.

(** The platform of [refused], where the account cannot be listed either. *)
Definition unlisted : GitHub nat := {|
  login := "alice";
  search_commits := @search_commits nat (github refused);
  get_repo := @get_repo nat (github refused);
  get_commits := @get_commits nat (github refused);
  get_repos w := (Raise forbidden, S w);
  requestJson := @requestJson nat (github refused)
|}.

End Samples.

(* ===================================================================== *)
(** * Reasoning about computations *)
(* ===================================================================== *)

(** [wp m Q E s]: run from [s], [m] ends within its iteration budget, either
    returning [a] in a state with [Q a] or raising [e] in a state with
    [E e]. *)
Definition wp {S A} (m : M S A) (Q : A -> S -> Prop) (E : Exn -> S -> Prop)
  : S -> Prop :=
  fun s =>
    match m s with
    | Some (Ok a, s') => Q a s'
    | Some (Raise e, s') => E e s'
    | None => False
    end.

Section WpRules.

Context {S : Type}.

Lemma wp_ret {A} (a : A) (Q : A -> S -> Prop) E s :
  Q a s -> wp (ret a) Q E s.
Proof. exact (fun H => H). Qed.

Lemma wp_raise {A} e (Q : A -> S -> Prop) (E : Exn -> S -> Prop) s :
  E e s -> wp (raise e) Q E s.
Proof. exact (fun H => H). Qed.

Lemma wp_lift {A} (r : Res A) (Q : A -> S -> Prop) (E : Exn -> S -> Prop) s :
  match r with Ok a => Q a s | Raise e => E e s end -> wp (lift r) Q E s.
Proof. destruct r; exact (fun H => H). Qed.

Lemma wp_bind {A B} (m : M S A) (k : A -> M S B) Q E s :
  wp m (fun a s' => wp (k a) Q E s') E s -> wp (bind m k) Q E s.
Proof.
  unfold wp, bind. destruct (m s) as [[[a|e] s']|]; auto.
Qed.

Lemma wp_try {A} (body : M S A) handler Q E s :
  wp body Q (fun e s' => wp (handler e) Q E s') s ->
  wp (try_except body handler) Q E s.
Proof.
  unfold wp, try_except. destruct (body s) as [[[a|e] s']|]; auto.
Qed.

Lemma wp_mono {A} (m : M S A) (Q Q' : A -> S -> Prop) (E E' : Exn -> S -> Prop) s :
  wp m Q E s ->
  (forall a s', Q a s' -> Q' a s') ->
  (forall e s', E e s' -> E' e s') ->
  wp m Q' E' s.
Proof.
  unfold wp. destruct (m s) as [[[a|e] s']|]; auto.
Qed.

(** A [for] loop keeps what each round keeps, whether the loop runs to its
    end or a round raises. *)
Lemma wp_for_each {A} (l : list A) (body : A -> M S unit)
  (I : S -> Prop) (E : Exn -> S -> Prop) :
  (forall x s, In x l -> I s -> wp (body x) (fun _ => I) E s) ->
  forall s, I s -> wp (for_each l body) (fun _ => I) E s.
Proof.
  induction l as [|x l IH]; intros Hbody s Hs; simpl.
  - exact Hs.
  - apply wp_bind.
    eapply wp_mono; [apply Hbody; [left; reflexivity | exact Hs] | | auto].
    intros u s' Hs'. apply IH; auto.
    intros y t Hy. apply Hbody. right; exact Hy.
Qed.

(** What [wp] says about a run, read backwards. *)
Lemma wp_inv {A} (m : M S A) Q E s :
  wp m Q E s ->
  exists r s', m s = Some (r, s') /\
               match r with Ok a => Q a s' | Raise e => E e s' end.
Proof.
  unfold wp. destruct (m s) as [[r s']|]; [|contradiction].
  intros H. exists r, s'. split; [reflexivity | destruct r; exact H].
Qed.

End WpRules.

Section FrameRules.

Context {LIB : Library} {W : Type} {GH : GitHub W}.

(** A request changes the platform and leaves the dictionary alone. *)
Lemma wp_in_world {A} (m : M W A) (R : A -> Prop)
  (Q : A -> Frame W -> Prop) (E : Exn -> Frame W -> Prop) (f : Frame W) :
  wp m (fun a _ => R a) (fun _ _ => True) (world f) ->
  (forall a w', R a -> Q a (mkFrame w' (contributions f))) ->
  (forall e w', E e (mkFrame w' (contributions f))) ->
  wp (in_world m) Q E f.
Proof.
  unfold wp, in_world. destruct (m (world f)) as [[[a|e] w']|]; auto.
Qed.

Lemma wp_request {A} (op : W -> Res A * W) (Q : A -> W -> Prop) E w :
  match op w with
  | (Ok a, w') => Q a w'
  | (Raise e, w') => E e w'
  end ->
  wp (request op) Q E w.
Proof. unfold wp, request. destruct (op w) as [[a|e] w']; auto. Qed.

Lemma wp_update g (Q : unit -> Frame W -> Prop) E f :
  Q tt (mkFrame (world f) (g (contributions f))) -> wp (update g) Q E f.
Proof. exact (fun H => H). Qed.

Lemma wp_read (Q : Contributions -> Frame W -> Prop) E f :
  Q (contributions f) f -> wp read Q E f.
Proof. exact (fun H => H). Qed.

(** A strategy returns the dictionary its body leaves behind. *)
Lemma returning_inv (body : M (Frame W) (option Contributions))
  (Q : Contributions -> Prop) w :
  wp body
     (fun r f => match r with Some c => Q c | None => Q (contributions f) end)
     (fun _ _ => False)
     (mkFrame w empty_contributions) ->
  exists c w', returning body w = Some (Ok c, w') /\ Q c.
Proof.
  unfold wp, returning.
  destruct (body _) as [[[[c|]|e] f]|]; try contradiction; eauto.
Qed.

End FrameRules.

(* ===================================================================== *)
(** * Properties of the Conservative strategy *)
(* ===================================================================== *)

Module PyTimeFacts.
Import PyTime.

Lemma lt_comparable a b :
  comparable a b = true -> lt a b = Ok (instant a <? instant b)%Z.
Proof.
  unfold comparable, aware, lt, instant.
  destruct (utcoffset a), (utcoffset b); simpl; congruence.
Qed.

Lemma lt_incomparable a b :
  comparable a b = false -> lt a b = Raise cant_compare.
Proof.
  unfold comparable, aware, lt.
  destruct (utcoffset a), (utcoffset b); simpl; congruence.
Qed.

Lemma min_comparable a b :
  comparable a b = true ->
  min a b = Ok (if (instant b <? instant a)%Z then b else a).
Proof.
  unfold comparable, aware, min, lt, instant.
  destruct (utcoffset a), (utcoffset b); simpl; try congruence;
    intros _; match goal with |- context [(?x <? ?y)%Z] => destruct (x <? y)%Z end;
    reflexivity.
Qed.

Lemma instant_add d x : instant (add d x) = (instant d + x)%Z.
Proof. unfold instant, add; simpl. destruct (utcoffset d); lia. Qed.

Lemma comparable_add a x b : comparable (add a x) b = comparable a b.
Proof. reflexivity. Qed.

Lemma comparable_refl a : comparable a a = true.
Proof. unfold comparable. destruct (aware a); reflexivity. Qed.

Lemma chunk_size_pos : (0 < timedelta_days 7)%Z.
Proof. reflexivity. Qed.

End PyTimeFacts.

Section ConservativeFacts.

Context {LIB : Library} {W : Type} {GH : GitHub W}.

Lemma wp_remote {A} (op : W -> Res A * W) Q E (f : Frame W) :
  (forall r w', op (world f) = (r, w') ->
     match r with
     | Ok a => Q a (mkFrame w' (contributions f))
     | Raise e => E e (mkFrame w' (contributions f))
     end) ->
  wp (in_world (request op)) Q E f.
Proof.
  intros H. unfold wp, in_world, request.
  destruct (op (world f)) as [r w'] eqn:Hop.
  specialize (H r w' eq_refl). destruct r; exact H.
Qed.

Lemma wp_for_paginated {A} (pl : PaginatedList A) (body : A -> M (Frame W) unit)
  (I : Frame W -> Prop) (E : Exn -> Frame W -> Prop) :
  (forall x s, In x (items pl) -> I s -> wp (body x) (fun _ => I) E s) ->
  (forall e s, I s -> E e s) ->
  forall s, I s -> wp (for_paginated pl body) (fun _ => I) E s.
Proof.
  intros Hbody HE s Hs. unfold for_paginated. apply wp_bind.
  eapply wp_mono; [apply wp_for_each; eauto | | auto].
  intros u s' Hs'. destruct (broken pl); [apply wp_raise | apply wp_ret]; auto.
Qed.

(** Discovery always ends: it returns a list or raises. *)
Lemma keep_public_ends names filtered w :
  wp (keep_public names filtered) (fun _ _ => True) (fun _ _ => True) w.
Proof.
  revert filtered w. induction names as [|n names IH]; intros filtered w; simpl.
  - exact I.
  - apply wp_bind, wp_try, wp_bind, wp_request.
    destruct (get_repo n w) as [[repo|e] w1].
    + apply wp_ret, IH.
    + apply wp_ret, IH.
Qed.

Lemma all_repo_names_ends include_private w :
  wp (all_repo_names include_private) (fun _ _ => True) (fun _ _ => True) w.
Proof.
  unfold all_repo_names. apply wp_bind, wp_request.
  destruct (get_repos w) as [[repos|e] w1]; [|exact I].
  apply wp_bind, wp_lift. destruct (iterate repos); exact I.
Qed.

Lemma get_repos_with_contributions_ends start_date end_date include_private w :
  wp (_get_repos_with_contributions start_date end_date include_private)
     (fun _ _ => True) (fun _ _ => True) w.
Proof.
  unfold _get_repos_with_contributions. apply wp_try, wp_bind, wp_request.
  destruct (search_commits _ w) as [[commits|e] w1];
    [|apply all_repo_names_ends].
  apply wp_bind, wp_lift.
  destruct (totalCount commits); [|apply all_repo_names_ends].
  apply wp_bind, wp_lift.
  destruct (iterate commits); [|apply all_repo_names_ends].
  destruct include_private; simpl.
  - exact I.
  - apply wp_bind. eapply wp_mono; [apply keep_public_ends | |].
    + intros; exact I.
    + intros; apply all_repo_names_ends.
Qed.

Variable J : Contributions -> Prop.
Variable G : GitCommit -> Prop.

Hypothesis listed_good :
  forall repo a b n w pl w',
    get_commits repo a b n w = (Ok pl, w') -> Forall G (items pl).
Hypothesis keeps_commit :
  forall c repo commit,
    J c -> G commit -> J (append_commit (commit_data (name repo) commit) c).
Hypothesis keeps_repository :
  forall c repo,
    J c -> repo_exists (name repo) c = false ->
    J (append_repository (repository_data repo) c).

Lemma conservative_repo_wp current_date chunk_end repo_name E f :
  holds J f ->
  wp (conservative_repo current_date chunk_end repo_name) (fun _ => holds J) E f.
Proof.
  intros Hf. unfold conservative_repo. apply wp_try.
  apply wp_bind, wp_remote. intros [repo|e] w1 Hrepo; [|exact Hf].
  apply wp_bind, wp_remote. intros [commits|e] w2 Hcommits; [|exact Hf].
  simpl contributions. apply wp_bind.
  eapply wp_mono with (Q := fun _ => holds J).
  - apply wp_for_paginated; [| |exact Hf].
    + intros commit s Hin Hs. apply wp_update. apply keeps_commit; [exact Hs|].
      eapply Forall_forall; [eapply listed_good; eauto | exact Hin].
    + intros e s Hs. exact Hs.
  - intros u s Hs. apply wp_bind, wp_read.
    destruct (repo_exists (name repo) (contributions s)) eqn:Hex; simpl.
    + exact Hs.
    + apply wp_update. apply keeps_repository; assumption.
  - intros e s Hs. exact Hs.
Qed.

Lemma conservative_chunk_wp current_date chunk_end include_private E f :
  holds J f ->
  wp (conservative_chunk current_date chunk_end include_private)
     (fun _ => holds J) E f.
Proof.
  intros Hf. unfold conservative_chunk. apply wp_try, wp_bind.
  eapply wp_in_world with (R := fun _ => True).
  - apply get_repos_with_contributions_ends.
  - intros repos w' _. destruct repos as [|r repos]; [exact Hf|].
    eapply wp_mono with (Q := fun _ => holds J) (E := fun _ => holds J).
    + apply wp_for_each; [|exact Hf].
      intros x s _ Hs. apply conservative_repo_wp. exact Hs.
    + auto.
    + intros e s Hs. exact Hs.
  - intros e w'. exact Hf.
Qed.

Lemma conservative_loop_wp include_private end_date fuel :
  forall current_date f,
    holds J f ->
    (0 < fuel)%nat ->
    ((PyTime.instant current_date < PyTime.instant end_date)%Z ->
     ((PyTime.instant end_date - PyTime.instant current_date) / chunk_size + 2
      <= Z.of_nat fuel)%Z) ->
    wp (conservative_loop fuel current_date end_date include_private)
       (fun _ => holds J)
       (fun _ _ => PyTime.comparable current_date end_date = false) f.
Proof.
  induction fuel as [|fuel IH]; intros current_date f Hf Hpos Hfuel; [lia|].
  simpl. apply wp_bind, wp_lift.
  destruct (PyTime.comparable current_date end_date) eqn:Hcmp.
  2:{ rewrite (PyTimeFacts.lt_incomparable _ _ Hcmp). reflexivity. }
  rewrite (PyTimeFacts.lt_comparable _ _ Hcmp).
  destruct (Z.ltb_spec (PyTime.instant current_date) (PyTime.instant end_date))
    as [Hlt|Hge]; [|exact Hf].
  specialize (Hfuel Hlt).
  apply wp_bind, wp_lift.
  rewrite PyTimeFacts.min_comparable
    by (rewrite PyTimeFacts.comparable_add; exact Hcmp).
  rewrite PyTimeFacts.instant_add.
  pose proof PyTimeFacts.chunk_size_pos as Hcs. fold chunk_size in Hcs.
  set (d := (PyTime.instant end_date - PyTime.instant current_date)%Z) in *.
  assert (Hd : (0 <= d / chunk_size)%Z) by (apply Z.div_pos; lia).
  apply wp_bind.
  eapply wp_mono;
    [apply conservative_chunk_wp with (E := fun _ _ => False); exact Hf | | ].
  2:{ intros e s' []. }
  intros u s' Hs'.
  destruct (Z.ltb_spec (PyTime.instant end_date)
                       (PyTime.instant current_date + chunk_size)) as [Hlast|Hmore].
  - eapply wp_mono; [apply IH; [exact Hs' | lia | lia] | auto | ].
    intros e s'' Hbad. rewrite PyTimeFacts.comparable_refl in Hbad. discriminate.
  - eapply wp_mono; [apply IH; [exact Hs' | lia | ] | auto | ].
    + rewrite PyTimeFacts.instant_add. intros Hlt'.
      replace (PyTime.instant end_date - (PyTime.instant current_date + chunk_size))%Z
        with (d + (-1) * chunk_size)%Z by (unfold d; lia).
      rewrite Z.div_add by lia. lia.
    + intros e s'' Hbad. rewrite PyTimeFacts.comparable_add in Hbad. congruence.
Qed.

Lemma wp_returning (body : M (Frame W) (option Contributions))
  (Q : Contributions -> Prop) (E : Exn -> Prop) w :
  wp body
     (fun r f => match r with Some c => Q c | None => Q (contributions f) end)
     (fun e _ => E e)
     (mkFrame w empty_contributions) ->
  wp (returning body) (fun c _ => Q c) (fun e _ => E e) w.
Proof.
  unfold wp, returning.
  destruct (body _) as [[[[c|]|e] f]|]; auto.
Qed.

Lemma loop_budget_enough start_date end_date :
  (0 < loop_budget start_date end_date)%nat /\
  ((PyTime.instant start_date < PyTime.instant end_date)%Z ->
   ((PyTime.instant end_date - PyTime.instant start_date) / chunk_size + 2
    <= Z.of_nat (loop_budget start_date end_date))%Z).
Proof.
  unfold loop_budget. split; [lia|]. intros Hlt.
  pose proof PyTimeFacts.chunk_size_pos as Hcs. fold chunk_size in Hcs.
  assert (0 <= (PyTime.instant end_date - PyTime.instant start_date) / chunk_size)%Z
    by (apply Z.div_pos; lia).
  lia.
Qed.

(** The strategy ends; it raises only when its two dates cannot be
    compared, and what it returns has every property the appends keep. *)
Lemma conservative_wp start_date end_date include_private w :
  J empty_contributions ->
  wp (_fetch_contributions_conservative start_date end_date include_private)
     (fun c _ => J c)
     (fun _ _ => PyTime.comparable start_date end_date = false) w.
Proof.
  intros Hempty. unfold _fetch_contributions_conservative.
  apply wp_returning with (E := fun _ => PyTime.comparable start_date end_date = false).
  destruct (loop_budget_enough start_date end_date) as [Hpos Hfuel].
  apply wp_bind.
  eapply wp_mono;
    [apply conservative_loop_wp; [exact Hempty | exact Hpos | exact Hfuel] | | auto].
  intros u s Hs. exact Hs.
Qed.

Lemma conservative_returns start_date end_date include_private w :
  J empty_contributions ->
  PyTime.comparable start_date end_date = true ->
  exists c w',
    _fetch_contributions_conservative start_date end_date include_private w
    = Some (Ok c, w') /\ J c.
Proof.
  intros Hempty Hcmp.
  destruct (wp_inv _ _ _ _ (conservative_wp start_date end_date include_private w Hempty))
    as (r & w' & Hrun & Hpost).
  destruct r as [c|e]; [eauto | congruence].
Qed.

Lemma conservative_result start_date end_date include_private w c w' :
  J empty_contributions ->
  _fetch_contributions_conservative start_date end_date include_private w
  = Some (Ok c, w') ->
  J c.
Proof.
  intros Hempty Hrun.
  pose proof (conservative_wp start_date end_date include_private w Hempty) as H.
  unfold wp in H. rewrite Hrun in H. exact H.
Qed.

End ConservativeFacts.

Section ConservativeClaims.

Context {LIB : Library} {W : Type} {GH : GitHub W}.

Lemma names_distinct_append c repo :
  names_distinct c ->
  repo_exists (name repo) c = false ->
  names_distinct (append_repository (repository_data repo) c).
Proof.
  unfold names_distinct, repo_exists. simpl. intros Hnd Hex.
  rewrite map_app. simpl.
  apply NoDup_app; [exact Hnd | repeat constructor; intros [] | ].
  intros x Hx [Heq|[]]. subst x.
  apply in_map_iff in Hx. destruct Hx as (r & Hr & Hin).
  assert (Htrue : existsb (fun r0 => String.eqb (r_name r0) (name repo))
                          (repositories c) = true).
  { apply existsb_exists. exists r. split; [exact Hin|].
    rewrite Hr. apply String.eqb_refl. }
  congruence.
Qed.


End ConservativeClaims.


(* ===================================================================== *)
(** * The weekly chunks *)
(* ===================================================================== *)

Lemma last_cons_default {A} (l : list A) (x d d' : A) :
  last (x :: l) d = last (x :: l) d'.
Proof.
  revert x. induction l as [|y l IH]; intros x; [reflexivity|].
  change (last (y :: l) d = last (y :: l) d'). apply IH.
Qed.

Section Chunks.

Variable end_date : datetime.

Lemma chunk_ranges_step fuel current_date :
  PyTime.comparable current_date end_date = true ->
  chunk_ranges (S fuel) current_date end_date
  = if (PyTime.instant current_date <? PyTime.instant end_date)%Z
    then (current_date, next_end end_date current_date)
           :: chunk_ranges fuel (next_end end_date current_date) end_date
    else [].
Proof.
  intros Hcmp. simpl.
  rewrite (PyTimeFacts.lt_comparable _ _ Hcmp).
  destruct (PyTime.instant current_date <? PyTime.instant end_date)%Z; [|reflexivity].
  rewrite PyTimeFacts.min_comparable
    by (rewrite PyTimeFacts.comparable_add; exact Hcmp).
  rewrite PyTimeFacts.instant_add. reflexivity.
Qed.

Lemma next_end_comparable current_date :
  PyTime.comparable current_date end_date = true ->
  PyTime.comparable (next_end end_date current_date) end_date = true.
Proof.
  intros Hcmp. unfold next_end.
  destruct (_ <? _)%Z; [apply PyTimeFacts.comparable_refl|].
  rewrite PyTimeFacts.comparable_add. exact Hcmp.
Qed.

Lemma next_end_instant current_date :
  PyTime.instant (next_end end_date current_date)
  = Z.min (PyTime.instant current_date + chunk_size) (PyTime.instant end_date).
Proof.
  unfold next_end.
  destruct (Z.ltb_spec (PyTime.instant end_date)
                       (PyTime.instant current_date + chunk_size));
    [|rewrite PyTimeFacts.instant_add]; lia.
Qed.

Lemma enough_next fuel current_date :
  enough end_date (S fuel) current_date ->
  (PyTime.instant current_date < PyTime.instant end_date)%Z ->
  enough end_date fuel (next_end end_date current_date).
Proof.
  intros [_ Hfuel] Hlt. specialize (Hfuel Hlt).
  pose proof PyTimeFacts.chunk_size_pos as Hcs. fold chunk_size in Hcs.
  assert (Hd : (0 <= (PyTime.instant end_date - PyTime.instant current_date)
                      / chunk_size)%Z) by (apply Z.div_pos; lia).
  unfold enough. rewrite next_end_instant.
  destruct (Z.min_spec (PyTime.instant current_date + chunk_size)
                       (PyTime.instant end_date)) as [[Hm ->]|[Hm ->]].
  - split; [|intros _].
    + assert (1 <= (PyTime.instant end_date - PyTime.instant current_date)
                   / chunk_size)%Z
        by (apply Z.div_le_lower_bound; lia).
      lia.
    + replace (PyTime.instant end_date - (PyTime.instant current_date + chunk_size))%Z
        with ((PyTime.instant end_date - PyTime.instant current_date)
              + (-1) * chunk_size)%Z by lia.
      rewrite Z.div_add by lia. lia.
  - split; [lia | intros Hbad; lia].
Qed.

Lemma chunk_ranges_covers fuel :
  forall current_date,
    PyTime.comparable current_date end_date = true ->
    enough end_date fuel current_date ->
    forall t,
      List.length (filter (in_chunk t) (chunk_ranges fuel current_date end_date))
      = if (PyTime.instant current_date <=? t)%Z && (t <? PyTime.instant end_date)%Z
        then 1%nat else 0%nat.
Proof.
  induction fuel as [|fuel IH]; intros current_date Hcmp Hen t.
  - destruct Hen as [Hpos _]. lia.
  - rewrite chunk_ranges_step by exact Hcmp.
    destruct (Z.ltb_spec (PyTime.instant current_date) (PyTime.instant end_date))
      as [Hlt|Hge].
    + simpl filter. unfold in_chunk at 1. simpl fst. simpl snd.
      pose proof (IH _ (next_end_comparable _ Hcmp) (enough_next _ _ Hen Hlt) t) as Hrest.
      pose proof (next_end_instant current_date) as Hne.
      pose proof PyTimeFacts.chunk_size_pos as Hcs. fold chunk_size in Hcs.
      destruct (Z.leb_spec (PyTime.instant current_date) t);
        destruct (Z.ltb_spec t (PyTime.instant (next_end end_date current_date)));
        destruct (Z.leb_spec (PyTime.instant (next_end end_date current_date)) t);
        destruct (Z.ltb_spec t (PyTime.instant end_date));
        simpl in *; try rewrite Hrest; try reflexivity; lia.
    + simpl.
      destruct (Z.leb_spec (PyTime.instant current_date) t);
        destruct (Z.ltb_spec t (PyTime.instant end_date)); simpl; try reflexivity; lia.
Qed.

Lemma chunk_ranges_consecutive fuel :
  forall current_date,
    PyTime.comparable current_date end_date = true ->
    consecutive (chunk_ranges fuel current_date end_date)
    /\ (forall chunk rest,
           chunk_ranges fuel current_date end_date = chunk :: rest ->
           fst chunk = current_date).
Proof.
  induction fuel as [|fuel IH]; intros current_date Hcmp.
  - simpl. split; [exact I | discriminate].
  - rewrite chunk_ranges_step by exact Hcmp.
    destruct (_ <? _)%Z; [|split; [exact I | discriminate]].
    destruct (IH _ (next_end_comparable _ Hcmp)) as [Hcons Hfirst].
    split.
    + simpl. destruct (chunk_ranges fuel (next_end end_date current_date) end_date)
        as [|b rest] eqn:Hrest; [exact I|].
      split; [|exact Hcons]. simpl. symmetry. eapply Hfirst. reflexivity.
    + intros chunk rest [= <- _]. reflexivity.
Qed.

Lemma chunk_ranges_widths fuel :
  forall current_date,
    PyTime.comparable current_date end_date = true ->
    Forall (fun chunk => (0 < chunk_width chunk <= chunk_size)%Z)
           (chunk_ranges fuel current_date end_date)
    /\ Forall (fun chunk => chunk_width chunk = chunk_size)
              (removelast (chunk_ranges fuel current_date end_date)).
Proof.
  induction fuel as [|fuel IH]; intros current_date Hcmp.
  - simpl. split; constructor.
  - rewrite chunk_ranges_step by exact Hcmp.
    destruct (Z.ltb_spec (PyTime.instant current_date) (PyTime.instant end_date))
      as [Hlt|Hge]; [|split; constructor].
    destruct (IH _ (next_end_comparable _ Hcmp)) as [Hall Hinit].
    pose proof (next_end_instant current_date) as Hne.
    pose proof PyTimeFacts.chunk_size_pos as Hcs. fold chunk_size in Hcs.
    split.
    + constructor; [|exact Hall]. unfold chunk_width. simpl. lia.
    + destruct (chunk_ranges fuel (next_end end_date current_date) end_date)
        as [|b rest] eqn:Hrest; [constructor|].
      change (removelast ((current_date, next_end end_date current_date) :: b :: rest))
        with ((current_date, next_end end_date current_date) :: removelast (b :: rest)).
      constructor; [|exact Hinit].
      (* a further chunk exists, so this one was not cut short *)
      unfold chunk_width. simpl.
      destruct fuel as [|fuel']; [discriminate Hrest|].
      rewrite chunk_ranges_step in Hrest by (apply next_end_comparable; exact Hcmp).
      destruct (Z.ltb_spec (PyTime.instant (next_end end_date current_date))
                           (PyTime.instant end_date)); [lia | discriminate].
Qed.

Lemma chunk_ranges_last fuel :
  forall current_date,
    PyTime.comparable current_date end_date = true ->
    enough end_date fuel current_date ->
    forall chunk rest,
      chunk_ranges fuel current_date end_date = chunk :: rest ->
      PyTime.instant (snd (last (chunk :: rest) chunk)) = PyTime.instant end_date.
Proof.
  induction fuel as [|fuel IH]; intros current_date Hcmp Hen chunk rest Heq.
  - discriminate.
  - rewrite chunk_ranges_step in Heq by exact Hcmp.
    destruct (Z.ltb_spec (PyTime.instant current_date) (PyTime.instant end_date))
      as [Hlt|Hge]; [|discriminate].
    injection Heq as <- <-.
    pose proof (enough_next _ _ Hen Hlt) as Hen'.
    destruct (chunk_ranges fuel (next_end end_date current_date) end_date)
      as [|b rest'] eqn:Hrest.
    + simpl.
      (* no further chunk: the loop condition failed at [next_end] *)
      destruct fuel as [|fuel']; [destruct Hen'; lia|].
      rewrite chunk_ranges_step in Hrest by (apply next_end_comparable; exact Hcmp).
      pose proof (next_end_instant current_date).
      destruct (Z.ltb_spec (PyTime.instant (next_end end_date current_date))
                           (PyTime.instant end_date)); [discriminate | lia].
    + change (last ((current_date, next_end end_date current_date) :: b :: rest')
                   (current_date, next_end end_date current_date))
        with (last (b :: rest') (current_date, next_end end_date current_date)).
      rewrite (last_cons_default rest' b _ b).
      eapply IH; [apply next_end_comparable; exact Hcmp | exact Hen' | exact Hrest].
Qed.

End Chunks.

Section ChunkedLoop.

Context {LIB : Library} {W : Type} {GH : GitHub W}.

(** The loop runs the chunk body once for each pair of [chunk_ranges], in
    order, and ends within its budget. *)
Lemma conservative_loop_chunks include_private end_date fuel :
  forall current_date,
    PyTime.comparable current_date end_date = true ->
    enough end_date fuel current_date ->
    forall f : Frame W,
      conservative_loop fuel current_date end_date include_private f
      = for_each (chunk_ranges fuel current_date end_date)
          (fun chunk => conservative_chunk (fst chunk) (snd chunk) include_private) f.
Proof.
  induction fuel as [|fuel IH]; intros current_date Hcmp Hen f.
  - destruct Hen as [Hpos _]. lia.
  - rewrite chunk_ranges_step by exact Hcmp.
    simpl conservative_loop. unfold bind at 1, lift at 1.
    rewrite (PyTimeFacts.lt_comparable _ _ Hcmp).
    destruct (Z.ltb_spec (PyTime.instant current_date) (PyTime.instant end_date))
      as [Hlt|Hge]; [|reflexivity].
    unfold bind at 1, lift at 1.
    rewrite PyTimeFacts.min_comparable
      by (rewrite PyTimeFacts.comparable_add; exact Hcmp).
    rewrite PyTimeFacts.instant_add. fold (next_end end_date current_date).
    simpl for_each. unfold bind. simpl fst. simpl snd.
    destruct (conservative_chunk current_date (next_end end_date current_date)
                include_private f) as [[[u|e] f']|]; try reflexivity.
    apply IH; [apply next_end_comparable; exact Hcmp | apply enough_next; assumption].
Qed.


End ChunkedLoop.


(* ===================================================================== *)
(** * One repository in one chunk *)
(* ===================================================================== *)

Section ConservativeRepo.

Context {LIB : Library} {W : Type} {GH : GitHub W}.

(** A loop of appends adds its records at the end, in order. *)
Lemma for_each_append_commit {A} (g : A -> CommitRecord) (l : list A) :
  forall f : Frame W,
    for_each l (fun x => update (append_commit (g x))) f
    = Some (Ok tt,
            mkFrame (world f)
              (mkContributions (commits (contributions f) +++ map g l)
                 (pull_requests (contributions f)) (issues (contributions f))
                 (reviews (contributions f)) (repositories (contributions f)))).
Proof.
  induction l as [|x l IH]; intros [w c]; simpl.
  - unfold ret. rewrite app_nil_r. destruct c; reflexivity.
  - unfold bind, update. simpl. rewrite IH. simpl.
    rewrite <- app_assoc. reflexivity.
Qed.


End ConservativeRepo.



(* ===================================================================== *)
(** * What every strategy keeps *)
(* ===================================================================== *)

Lemma group_append_Forall {A} (P : A -> Prop) repo_name x
  (repo_commits : list (string * list A)) :
  P x ->
  Forall (fun entry => Forall P (snd entry)) repo_commits ->
  Forall (fun entry => Forall P (snd entry)) (group_append repo_name x repo_commits).
Proof.
  intros Hx. induction repo_commits as [|[k l] rest IH]; intros Hall; simpl.
  - repeat constructor. exact Hx.
  - inversion Hall as [|? ? Hl Hrest]; subst.
    destruct (String.eqb k repo_name).
    + constructor; [|exact Hrest]. simpl in *. apply Forall_app. auto.
    + constructor; [exact Hl | apply IH; exact Hrest].
Qed.

Lemma In_firstn {A} (x : A) n l : In x (firstn n l) -> In x l.
Proof.
  rewrite <- (firstn_skipn n l) at 2. intros H. apply in_or_app. left. exact H.
Qed.

Lemma In_skipn {A} (x : A) n l : In x (skipn n l) -> In x l.
Proof.
  rewrite <- (firstn_skipn n l) at 2. intros H. apply in_or_app. right. exact H.
Qed.

Section StrategyInvariants.

Context {LIB : Library} {W : Type} {GH : GitHub W}.

Lemma group_by_repo_Forall (P : GitCommit -> Prop) found :
  Forall P found ->
  Forall (fun entry => Forall P (snd entry)) (group_by_repo found).
Proof.
  unfold group_by_repo.
  assert (Hgen : forall acc,
             Forall (fun entry => Forall P (snd entry)) acc ->
             Forall P found ->
             Forall (fun entry => Forall P (snd entry))
               (fold_left
                  (fun repo_commits commit =>
                     match repo_name_of_url (gc_html_url commit) with
                     | Some repo_name => group_append repo_name commit repo_commits
                     | None => repo_commits
                     end) found acc)).
  { induction found as [|c found IH]; intros acc Hacc Hfound; simpl; [exact Hacc|].
    inversion Hfound; subst. apply IH; [|assumption].
    destruct (repo_name_of_url _); [apply group_append_Forall|]; assumption. }
  intros Hfound. apply Hgen; [constructor | exact Hfound].
Qed.

Lemma wp_owner_repo {S} repo_name (Q : string * string -> S -> Prop) E s :
  (forall owner repo, Q (owner, repo) s) ->
  (forall e, E e s) ->
  wp (owner_repo repo_name) Q E s.
Proof.
  intros HQ HE. unfold owner_repo.
  destruct (PyStr.split1 slash repo_name) as [owner [repo|]];
    [apply wp_ret, HQ | apply wp_raise, HE].
Qed.

(** The property of commit records, of repository records, and of the
    commits and history nodes the platform hands out. *)
Variable PC : CommitRecord -> Prop.
Variable PR : RepositoryRecord -> Prop.
Variable G : GitCommit -> Prop.
Variable GN : HistoryNode -> Prop.

#[local] Abbreviation keeps := (kept PC PR).

Hypothesis searched_good :
  forall q w pl w', search_commits q w = (Ok pl, w') -> Forall G (items pl).
Hypothesis listed_good :
  forall repo a b n w pl w',
    get_commits repo a b n w = (Ok pl, w') -> Forall G (items pl).
Hypothesis answered_good :
  forall v w r w',
    requestJson v w = (Ok r, w') ->
    Forall (fun d => Forall GN (document_nodes d)) (result_documents r).
Hypothesis built_from_commit :
  forall repo commit, G commit -> PC (commit_data repo commit).
Hypothesis built_with_utc :
  forall repo commit,
    G commit ->
    PC (mkCommit repo (PyStr.take 7 (gc_sha commit)) (first_line (gc_message commit))
          (if PyTime.aware (gc_author_date commit) then gc_author_date commit
           else PyTime.replace_tzinfo_utc (gc_author_date commit))
          (gc_html_url commit)).
Hypothesis built_from_node :
  forall repo node date,
    GN node ->
    PC (mkCommit repo (PyStr.take 7 (oid node)) (messageHeadline node) date
          (node_url node)).
Hypothesis built_from_repository : forall repo, PR (repository_data repo).
Hypothesis built_public :
  forall repo repo_name, PR (mkRepo repo ("https://github.com/" ++ repo_name) false).

Lemma kept_empty : keeps empty_contributions.
Proof. repeat split; constructor. Qed.

Lemma kept_append_commit c cd : keeps c -> PC cd -> keeps (append_commit cd c).
Proof.
  intros (Hc & Hr & Hres) Hcd. split; [|split; [exact Hr | exact Hres]]. simpl.
  apply Forall_app. split; [exact Hc | repeat constructor; exact Hcd].
Qed.

Lemma kept_append_repository c r : keeps c -> PR r -> keeps (append_repository r c).
Proof.
  intros (Hc & Hr & Hres) Hrd. split; [exact Hc|]. split; [|exact Hres]. simpl.
  apply Forall_app. split; [exact Hr | repeat constructor; exact Hrd].
Qed.

(** Conservative. *)
Lemma conservative_kept start_date end_date include_private w :
  wp (_fetch_contributions_conservative start_date end_date include_private)
     (fun c _ => keeps c) (fun _ _ => True) w.
Proof.
  eapply wp_mono;
    [apply (conservative_wp keeps G listed_good) | auto | auto].
  - intros c repo commit Hc Hg. apply kept_append_commit; auto.
  - intros c repo Hc _. apply kept_append_repository; auto.
  - apply kept_empty.
Qed.

(** Bulk search: what its own loops leave in the dictionary, and what the
    inner handler returns. *)
Lemma bulk_body_kept (Qc : Contributions -> Prop)
  start_date end_date include_private w :
  (forall w0,
      wp (_fetch_contributions_conservative start_date end_date include_private)
         (fun c _ => Qc c) (fun _ _ => True) w0) ->
  wp (bulk_body start_date end_date include_private)
     (fun r f => match r with Some c => Qc c | None => holds keeps f end)
     (fun _ _ => True)
     (mkFrame w empty_contributions).
Proof.
  intros Hcons. unfold bulk_body.
  apply wp_bind, wp_try, wp_bind, wp_remote.
  intros [commits|e] w1 Hsearch.
  - apply wp_ret. apply wp_bind, wp_lift. unfold iterate.
    destruct (broken commits); [exact I|].
    pose proof (group_by_repo_Forall G _ (searched_good _ _ _ _ Hsearch)) as Hgroups.
    apply wp_bind.
    eapply wp_mono with (Q := fun _ => holds keeps) (E := fun _ _ => True);
      [ | | auto].
    + apply wp_for_each; [|apply kept_empty].
      intros [repo_name repo_commit_list] s Hin Hs.
      apply wp_bind, wp_owner_repo; [|trivial]. intros owner repo.
      eapply wp_mono with (Q := fun _ => holds keeps) (E := fun _ _ => True);
        [ | auto | auto].
      apply wp_for_each; [|exact Hs].
      intros commit s' Hcommit Hs'. apply wp_update. apply kept_append_commit; [exact Hs'|].
      apply (built_from_commit repo commit).
      rewrite Forall_forall in Hgroups. specialize (Hgroups _ Hin). simpl in Hgroups.
      rewrite Forall_forall in Hgroups. apply Hgroups.
      eapply In_firstn. exact Hcommit.
    + intros u s Hs. apply wp_bind.
      assert (Hrest : forall all_repos (s' : Frame W),
                 holds keeps s' ->
                 wp (for_each (set_order all_repos)
                       (fun repo_name =>
                          ' (_, repo) <- owner_repo repo_name ;;
                          update (append_repository
                                    (mkRepo repo ("https://github.com/" ++ repo_name) false))) ;;;
                     ret None)
                    (fun r f => match r with Some c => Qc c | None => holds keeps f end)
                    (fun _ _ => True) s').
      { intros all_repos s' Hs'. apply wp_bind.
        eapply wp_mono with (Q := fun _ => holds keeps) (E := fun _ _ => True);
          [ | | auto].
        - apply wp_for_each; [|exact Hs'].
          intros repo_name s'' _ Hs''.
          apply wp_bind, wp_owner_repo; [|trivial]. intros owner repo.
          apply wp_update. apply kept_append_repository; [exact Hs''|apply built_public].
        - intros u' s'' Hs''. exact Hs''. }
      destruct include_private; simpl.
      * apply wp_ret. apply Hrest. exact Hs.
      * eapply wp_in_world with (R := fun _ => True).
        -- apply keep_public_ends.
        -- intros all_repos w' _. apply Hrest. exact Hs.
        -- trivial.
  - destruct (rate_limited e).
    + apply wp_bind. eapply wp_in_world with (R := Qc).
      * eapply wp_mono; [apply Hcons | auto | auto].
      * intros c w' Hc. apply wp_ret. apply wp_ret. exact Hc.
      * trivial.
    + apply wp_raise. exact I.
Qed.

Lemma bulk_search_kept start_date end_date include_private w :
  wp (_fetch_contributions_bulk_search start_date end_date include_private)
     (fun c _ => keeps c) (fun _ _ => True) w.
Proof.
  unfold _fetch_contributions_bulk_search. apply wp_try.
  eapply wp_mono.
  - apply wp_returning with (Q := keeps) (E := fun _ => True).
    eapply wp_mono; [apply (bulk_body_kept keeps) | | auto].
    + intros w0. apply conservative_kept.
    + intros [c|] f H; exact H.
  - auto.
  - intros e w' _. eapply wp_mono; [apply conservative_kept | auto | auto].
Qed.

(** GraphQL. *)
Lemma graphql_node_kept repo node (s : Frame W) :
  GN node ->
  holds keeps s ->
  wp (graphql_node repo node) (fun _ => holds keeps) (fun _ => holds keeps) s.
Proof.
  intros Hnode Hs. unfold graphql_node.
  destruct (author_login node) as [author|]; [|exact Hs].
  destruct (String.eqb author EmptyString); [exact Hs|].
  destruct (negb (String.eqb author login)); [exact Hs|].
  apply wp_bind, wp_lift.
  destruct (date_parser_parse (committedDate node)) as [date|e]; [|exact Hs].
  apply wp_update. apply kept_append_commit; [exact Hs|].
  apply built_from_node. exact Hnode.
Qed.

Lemma graphql_commits_kept repo d E (s : Frame W) :
  Forall GN (document_nodes d) ->
  holds keeps s ->
  wp (graphql_commits repo d) (fun _ => holds keeps) E s.
Proof.
  intros Hnodes Hs. unfold graphql_commits. apply wp_try.
  destruct d as [errs [[[[[[[nodes|]]|]]|]]|]]; simpl; try exact Hs.
  apply wp_bind.
  eapply wp_mono with (Q := fun _ => holds keeps) (E := fun _ => holds keeps).
  - apply wp_for_each; [|exact Hs].
    intros node s' Hin Hs'. apply graphql_node_kept; [|exact Hs'].
    simpl in Hnodes. rewrite Forall_forall in Hnodes. apply Hnodes. exact Hin.
  - intros u s' Hs'. exact Hs'.
  - intros e s' Hs'. exact Hs'.
Qed.

Lemma unwrap_result_documents r (J : Frame W -> Prop) (s : Frame W) :
  J s ->
  wp (unwrap_result r)
     (fun o s' => J s' /\
                  match o with
                  | Some d => In d (result_documents r)
                  | None => True
                  end)
     (fun _ s' => J s') s.
Proof.
  intros Hs. destruct r as [status body|n|d|]; simpl.
  - destruct (negb (status =? 200)%Z); [split; [exact Hs|exact I]|].
    destruct body as [str|d|]; simpl.
    + apply wp_try, wp_bind, wp_lift.
      destruct (json_loads str) as [d|e]; simpl.
      * split; [exact Hs | left; reflexivity].
      * split; [exact Hs | exact I].
    + split; [exact Hs | left; reflexivity].
    + exact Hs.
  - split; [exact Hs | exact I].
  - split; [exact Hs | left; reflexivity].
  - split; [exact Hs | exact I].
Qed.

Lemma graphql_repo_kept start_date_str end_date_str repo_name E (s : Frame W) :
  holds keeps s ->
  wp (graphql_repo start_date_str end_date_str repo_name)
     (fun _ => holds keeps) E s.
Proof.
  intros Hs. unfold graphql_repo. apply wp_try.
  apply wp_bind, wp_owner_repo; [|intros e; exact Hs]. intros owner repo.
  apply wp_bind, wp_try, wp_bind, wp_remote.
  intros [r|e] w1 Hanswer; [|exact Hs].
  apply wp_ret. apply wp_bind.
  eapply wp_mono; [apply (unwrap_result_documents r (holds keeps)); exact Hs | |].
  2:{ intros e s' Hs'. exact Hs'. }
  intros [d|] s' [Hs' Hd]; [|exact Hs'].
  destruct (errors d); [exact Hs'|].
  apply wp_bind.
  eapply wp_mono with (E := fun _ => holds keeps);
    [apply graphql_commits_kept; [|exact Hs'] | |].
  - pose proof (answered_good _ _ _ _ Hanswer) as Hdocs.
    rewrite Forall_forall in Hdocs. apply Hdocs. exact Hd.
  - intros [|] s'' Hs''; [|exact Hs''].
    apply wp_update. apply kept_append_repository; [exact Hs''|apply built_public].
  - intros e s'' Hs''. exact Hs''.
Qed.

Lemma graphql_batches_kept repos start_date_str end_date_str E (s : Frame W) :
  holds keeps s ->
  wp (graphql_batches repos start_date_str end_date_str) (fun _ => holds keeps) E s.
Proof.
  intros Hs. unfold graphql_batches.
  apply wp_for_each; [|exact Hs].
  intros i s' _ Hs'. apply wp_for_each; [|exact Hs'].
  intros repo_name s'' _ Hs''. apply graphql_repo_kept. exact Hs''.
Qed.

Lemma graphql_kept repos start_date end_date w :
  wp (_fetch_contributions_graphql repos start_date end_date)
     (fun c _ => keeps c) (fun _ _ => True) w.
Proof.
  unfold _fetch_contributions_graphql.
  apply wp_returning with (Q := keeps) (E := fun _ => True).
  apply wp_bind.
  eapply wp_mono; [apply graphql_batches_kept with (E := fun _ _ => True);
                   apply kept_empty | | auto].
  intros u s Hs. apply wp_bind, wp_read.
  destruct (commits (contributions s)); [|exact Hs].
  apply wp_bind. eapply wp_in_world with (R := keeps).
  - eapply wp_mono; [apply conservative_kept | auto | auto].
  - intros c w' Hc. exact Hc.
  - trivial.
Qed.

(** Enumeration. *)
Lemma first_commits_kept repo interrupted rest :
  forall commit_count (s : Frame W),
    Forall G rest ->
    holds keeps s ->
    wp (first_commits repo rest interrupted commit_count)
       (fun _ => holds keeps) (fun _ => holds keeps) s.
Proof.
  induction rest as [|commit rest IH]; intros commit_count s Hrest Hs;
    cbn [first_commits].
  - destruct interrupted; exact Hs.
  - destruct (50 <=? commit_count)%nat; [exact Hs|].
    inversion Hrest; subst.
    apply wp_bind, wp_update. apply IH; [assumption|].
    apply kept_append_commit; [exact Hs|]. apply built_with_utc. assumption.
Qed.

Lemma enumerate_repo_kept start_date end_date repo_name E (s : Frame W) :
  holds keeps s ->
  wp (enumerate_repo start_date end_date repo_name) (fun _ => holds keeps) E s.
Proof.
  intros Hs. unfold enumerate_repo. apply wp_try.
  apply wp_bind, wp_remote. intros [repo|e] w1 Hrepo; [|exact Hs].
  apply wp_bind, wp_remote. intros [listing|e] w2 Hlisting; [|exact Hs].
  apply wp_bind, wp_lift. destruct (totalCount listing) as [total|e]; [|exact Hs].
  apply wp_bind.
  assert (Hadd : forall s' : Frame W,
             holds keeps s' ->
             wp (update (append_repository (repository_data repo)))
                (fun _ => holds keeps)
                (fun _ s'' => wp (ret tt) (fun _ => holds keeps) E s'') s').
  { intros s' Hs'. apply wp_update.
    apply kept_append_repository; [exact Hs'|apply built_from_repository]. }
  destruct (0 <? total)%nat.
  - eapply wp_mono;
      [apply first_commits_kept; [eapply listed_good; exact Hlisting | exact Hs] | |].
    + intros u s' Hs'. apply Hadd. exact Hs'.
    + intros e s' Hs'. exact Hs'.
  - apply wp_ret. apply Hadd. exact Hs.
Qed.

Lemma enumeration_kept start_date end_date repos w :
  wp (returning (for_each repos (enumerate_repo start_date end_date) ;;; ret None))
     (fun c _ => keeps c) (fun _ _ => False) w.
Proof.
  apply wp_returning with (Q := keeps) (E := fun _ => False).
  apply wp_bind.
  eapply wp_mono with (Q := fun _ => holds keeps) (E := fun _ _ => False);
    [ | | auto].
  - apply wp_for_each; [|apply kept_empty].
    intros repo_name s _ Hs. apply enumerate_repo_kept. exact Hs.
  - intros u s Hs. exact Hs.
Qed.

Lemma get_contributions_kept
  start_date end_date include_private optimize limit
  skip_reviews use_graphql use_bulk use_conservative w :
  wp (get_contributions start_date end_date include_private optimize limit
        skip_reviews use_graphql use_bulk use_conservative)
     (fun c _ => keeps c) (fun _ _ => True) w.
Proof.
  unfold get_contributions. apply wp_bind.
  eapply wp_mono with (Q := fun _ _ => True) (E := fun _ _ => True);
    [ | | auto].
  - destruct optimize;
      [apply get_repos_with_contributions_ends | apply all_repo_names_ends].
  - intros repos w1 _.
    destruct use_conservative; [apply conservative_kept|].
    destruct use_bulk; [apply bulk_search_kept|].
    destruct use_graphql; [apply graphql_kept|].
    eapply wp_mono; [apply enumeration_kept | auto | intros e s' []].
Qed.

End StrategyInvariants.

(* ===================================================================== *)
(** * Short hashes and the deduplication key *)
(* ===================================================================== *)

Lemma take_length n s :
  String.length (PyStr.take n s) = Nat.min n (String.length s).
Proof.
  revert s. induction n as [|n IH]; intros [|c s]; simpl; try reflexivity.
  rewrite IH. reflexivity.
Qed.

Lemma take_7_full h : full_hash h -> String.length (PyStr.take 7 h) = 7%nat.
Proof. unfold full_hash. intros H. rewrite take_length. lia. Qed.

Section ShortHash.

Context {LIB : Library} {W : Type} {GH : GitHub W}.


End ShortHash.

Lemma sample_hashes_full sc :
  platform_hashes_full (LIB := Samples.lib) (GH := Samples.github sc).
Proof.
  assert (Hfull : full_hash Samples.hash1) by (unfold full_hash; simpl; lia).
  repeat split.
  - intros q w pl w'. simpl.
    destruct (Samples.search_error sc); intros Heq; [discriminate|].
    injection Heq as <- _. repeat first [exact Hfull | constructor].
  - intros repo a b n w pl w'. simpl. intros [= <- _]. simpl.
    apply Forall_forall. intros x Hx. apply repeat_spec in Hx. subst x. exact Hfull.
  - intros v w r w'. simpl. intros [= <- _]. simpl.
    repeat first [exact Hfull | constructor].
Qed.



(* ===================================================================== *)
(** * Fallbacks *)
(* ===================================================================== *)

Section Fallbacks.

Context {LIB : Library} {W : Type} {GH : GitHub W}.

(** With dates it cannot compare, the Conservative strategy raises at the
    first test of its loop, before any request. *)
Lemma conservative_incomparable start_date end_date include_private (w : W) :
  PyTime.comparable start_date end_date = false ->
  _fetch_contributions_conservative start_date end_date include_private w
  = Some (Raise PyTime.cant_compare, w).
Proof.
  intros Hcmp. unfold _fetch_contributions_conservative, returning, loop_budget.
  simpl. unfold bind, lift. rewrite (PyTimeFacts.lt_incomparable _ _ Hcmp).
  reflexivity.
Qed.

(** A run of the Conservative strategy that raised can be repeated from the
    state it left, with the same outcome. *)
Lemma conservative_raise_again start_date end_date include_private (w : W) e w' :
  _fetch_contributions_conservative start_date end_date include_private w
  = Some (Raise e, w') ->
  _fetch_contributions_conservative start_date end_date include_private w'
  = Some (Raise e, w').
Proof.
  intros Hrun.
  pose proof (conservative_wp (fun _ => True) (fun _ => True)
                (fun _ _ _ _ _ _ _ _ => proj2 (Forall_forall _ _) (fun _ _ => I))
                (fun _ _ _ _ _ => I) (fun _ _ _ _ => I)
                start_date end_date include_private w I) as Hwp.
  unfold wp in Hwp. rewrite Hrun in Hwp.
  rewrite (conservative_incomparable _ _ _ w Hwp) in Hrun.
  injection Hrun as <- <-.
  apply conservative_incomparable. exact Hwp.
Qed.

(** C4. When the commit search of the bulk strategy raises, rate limit or
    not, and whenever anything else raises inside the strategy, the result is
    the one the Conservative strategy gives on the same dates and flag, run
    from the empty dictionary in the state of the platform after the
    failure. *)
Theorem bulk_search_failure_is_conservative
  (start_date end_date : datetime) (include_private : bool) (w : W) :
  (forall e w1,
      search_commits
        (commit_query (strftime_date start_date) (strftime_date end_date)) w
      = (Raise e, w1) ->
      _fetch_contributions_bulk_search start_date end_date include_private w
      = _fetch_contributions_conservative start_date end_date include_private w1)
  /\ (forall e w1,
      returning (bulk_body start_date end_date include_private) w
      = Some (Raise e, w1) ->
      _fetch_contributions_bulk_search start_date end_date include_private w
      = _fetch_contributions_conservative start_date end_date include_private w1).
Proof.
  split.
  - intros e w1 Hsearch.
    unfold _fetch_contributions_bulk_search, try_except at 1, returning, bulk_body.
    unfold bind at 1, try_except at 1, bind at 1, in_world at 1, request.
    simpl world. rewrite Hsearch.
    destruct (rate_limited e).
    + unfold bind at 1, in_world. simpl world.
      destruct (_fetch_contributions_conservative start_date end_date
                  include_private w1) as [[[c|e'] w2]|] eqn:Hcons; simpl.
      * reflexivity.
      * eapply conservative_raise_again. exact Hcons.
      * reflexivity.
    + simpl. reflexivity.
  - intros e w1 Hbody.
    unfold _fetch_contributions_bulk_search, try_except. rewrite Hbody. reflexivity.
Qed.

End Fallbacks.

(** The platform answers the commit search with "403 API rate limit
    exceeded". *)
Lemma bulk_search_failure_is_conservative_witness :
  _fetch_contributions_bulk_search
    (LIB := Samples.lib) (GH := Samples.github Samples.refused)
    (Samples.utc 0) (Samples.utc 10) true 0%nat
  = _fetch_contributions_conservative
      (LIB := Samples.lib) (GH := Samples.github Samples.refused)
      (Samples.utc 0) (Samples.utc 10) true 1%nat.
Proof.
  exact (proj1 (bulk_search_failure_is_conservative
                  (LIB := Samples.lib) (GH := Samples.github Samples.refused)
                  (Samples.utc 0) (Samples.utc 10) true 0%nat)
               (mkExn OtherError "403 API rate limit exceeded") 1%nat eq_refl).
Defined.

(* ===================================================================== *)
(** * The GraphQL strategy and the visibility flag *)
(* ===================================================================== *)

Lemma append_assoc (a b c : string) : (a ++ b) ++ c = a ++ (b ++ c).
Proof. induction a as [|x a IH]; simpl; [reflexivity | rewrite IH; reflexivity]. Qed.

Lemma no_private_record (l : list RepositoryRecord) :
  Forall public_record l -> existsb r_private l = false.
Proof.
  induction 1 as [|r l Hr _ IH]; simpl; [reflexivity|].
  unfold public_record in Hr. rewrite Hr, IH. reflexivity.
Qed.

Section GraphQL.

Context {LIB : Library} {W : Type} {GH : GitHub W}.

(** The batches always run to their end; the repository records they leave
    are all marked public; and the strategy then returns the dictionary, or
    the result of the Conservative strategy when the dictionary holds no
    commit. *)
Lemma graphql_run (repos : list string) (start_date end_date : datetime) (w : W) :
  exists f,
    graphql_batches repos (strftime_iso start_date) (strftime_iso end_date)
      (mkFrame w empty_contributions)
    = Some (Ok tt, f)
    /\ Forall public_record (repositories (contributions f))
    /\ _fetch_contributions_graphql repos start_date end_date w
       = match commits (contributions f) with
         | [] => _fetch_contributions_conservative start_date end_date false (world f)
         | _ :: _ => Some (Ok (contributions f), world f)
         end.
Proof.
  pose proof (graphql_batches_kept (fun _ => True) public_record (fun _ => True)
                (fun _ _ _ _ _ => proj2 (Forall_forall _ _)
                   (fun _ _ => proj2 (Forall_forall _ _) (fun _ _ => I)))
                (fun _ _ _ _ => I) (fun _ _ => eq_refl)
                repos (strftime_iso start_date) (strftime_iso end_date)
                (fun _ _ => False) (mkFrame w empty_contributions)
                (kept_empty _ _)) as Hwp.
  apply wp_inv in Hwp. destruct Hwp as ([[]|e] & f & Hrun & Hpost); [|contradiction].
  exists f. split; [exact Hrun|]. destruct Hpost as (_ & Hpublic & _).
  split; [exact Hpublic|].
  unfold _fetch_contributions_graphql, returning, bind at 1.
  rewrite Hrun. unfold bind at 1, read.
  destruct (commits (contributions f)) as [|c cs]; [|reflexivity].
  rewrite (no_private_record _ Hpublic).
  unfold bind, in_world.
  destruct (_fetch_contributions_conservative start_date end_date false (world f))
    as [[[c|e] w']|]; reflexivity.
Qed.

(** C5. The GraphQL strategy processes every batch; if the dictionary then
    holds no commit, its result is the result of the Conservative strategy
    over the whole range, and if it holds at least one commit the dictionary
    itself is returned. *)
Theorem graphql_without_commits_is_conservative
  (repos : list string) (start_date end_date : datetime) (w : W) :
  exists f,
    graphql_batches repos (strftime_iso start_date) (strftime_iso end_date)
      (mkFrame w empty_contributions)
    = Some (Ok tt, f)
    /\ (commits (contributions f) = [] ->
        _fetch_contributions_graphql repos start_date end_date w
        = _fetch_contributions_conservative start_date end_date false (world f))
    /\ (commits (contributions f) <> [] ->
        _fetch_contributions_graphql repos start_date end_date w
        = Some (Ok (contributions f), world f)).
Proof.
  destruct (graphql_run repos start_date end_date w) as (f & Hrun & _ & Hres).
  exists f. split; [exact Hrun|]. split; intros Hc; rewrite Hres.
  - rewrite Hc. reflexivity.
  - destruct (commits (contributions f)); [contradiction|reflexivity].
Qed.

(** C9. Through [get_contributions], whatever [include_private] the caller
    passes, a GraphQL run that collects no commit hands over to the
    Conservative strategy with [include_private = false]. *)
Theorem graphql_fallback_drops_include_private
  (start_date end_date : datetime) (include_private optimize : bool)
  (limit : option Z) (skip_reviews : bool) (w : W)
  (repos : list string) (w1 : W) (f : Frame W) :
  (if optimize
   then _get_repos_with_contributions start_date end_date include_private
   else all_repo_names include_private) w
  = Some (Ok repos, w1) ->
  graphql_batches (apply_limit limit repos)
    (strftime_iso start_date) (strftime_iso end_date)
    (mkFrame w1 empty_contributions)
  = Some (Ok tt, f) ->
  commits (contributions f) = [] ->
  get_contributions start_date end_date include_private optimize limit
    skip_reviews true false false w
  = _fetch_contributions_conservative start_date end_date false (world f).
Proof.
  intros Hdiscovery Hbatches Hnone.
  unfold get_contributions, bind at 1. rewrite Hdiscovery.
  destruct (graphql_run (apply_limit limit repos) start_date end_date w1)
    as (f' & Hrun & _ & Hres).
  rewrite Hbatches in Hrun. injection Hrun as <-.
  rewrite Hres, Hnone. reflexivity.
Qed.

(** C10. The repository records the bulk strategy and the GraphQL strategy
    build themselves are all marked public, and the reports render such
    records with the public glyph and the word Public. *)
Theorem bulk_and_graphql_records_are_public :
  (forall start_date end_date include_private (w : W) f,
      bulk_body start_date end_date include_private (mkFrame w empty_contributions)
      = Some (Ok None, f) ->
      Forall public_record (repositories (contributions f)))
  /\ (forall repos start_date_str end_date_str (w : W) r f,
      graphql_batches repos start_date_str end_date_str
        (mkFrame w empty_contributions)
      = Some (r, f) ->
      Forall public_record (repositories (contributions f)))
  /\ (forall r,
      public_record r ->
      Report.repo_line_markdown r
      = "- **" ++ r_name r ++ "** (" ++ Report.public_markdown ++ ")"
      /\ Report.repo_line_plain r = "- " ++ r_name r ++ " (Public)"
      /\ Report.repos_only_line_markdown r
         = "- **" ++ r_name r ++ "** (" ++ Report.public_markdown ++ ") - " ++ r_url r
      /\ Report.repos_only_line_plain r
         = "- " ++ r_name r ++ " (Public) - " ++ r_url r).
Proof.
  repeat split.
  - intros start_date end_date include_private w f Hrun.
    pose proof (bulk_body_kept (fun _ => True) public_record (fun _ => True)
                  (fun _ _ _ _ _ => proj2 (Forall_forall _ _) (fun _ _ => I))
                  (fun _ _ _ => I) (fun _ _ => eq_refl)
                  (fun _ => True) start_date end_date include_private w) as Hwp.
    assert (Hcons : forall w0,
               wp (_fetch_contributions_conservative start_date end_date include_private)
                  (fun _ _ => True) (fun _ _ => True) w0).
    { intros w0.
      eapply wp_mono;
        [apply (conservative_wp (fun _ => True) (fun _ => True)
                  (fun _ _ _ _ _ _ _ _ => proj2 (Forall_forall _ _) (fun _ _ => I))
                  (fun _ _ _ _ _ => I) (fun _ _ _ _ => I) _ _ _ w0 I)
        | auto | auto]. }
    specialize (Hwp Hcons). unfold wp in Hwp. rewrite Hrun in Hwp.
    exact (proj1 (proj2 Hwp)).
  - intros repos start_date_str end_date_str w r f Hrun.
    pose proof (graphql_batches_kept (fun _ => True) public_record (fun _ => True)
                  (fun _ _ _ _ _ => proj2 (Forall_forall _ _)
                     (fun _ _ => proj2 (Forall_forall _ _) (fun _ _ => I)))
                  (fun _ _ _ _ => I) (fun _ _ => eq_refl)
                  repos start_date_str end_date_str
                  (fun _ _ => False) (mkFrame w empty_contributions)
                  (kept_empty _ _)) as Hwp.
    unfold wp in Hwp. rewrite Hrun in Hwp. destruct r; [|contradiction].
    exact (proj1 (proj2 Hwp)).
  - unfold Report.repo_line_markdown. rewrite H. reflexivity.
  - unfold Report.repo_line_plain. rewrite H. reflexivity.
  - unfold Report.repos_only_line_markdown, Report.repo_line_markdown.
    rewrite H. rewrite !append_assoc. reflexivity.
  - unfold Report.repos_only_line_plain, Report.repo_line_plain.
    rewrite H. rewrite !append_assoc. reflexivity.
Qed.

End GraphQL.

(** Every commit in the history is somebody else's; the caller asked for
    private repositories too. *)
Lemma graphql_fallback_drops_include_private_witness :
  get_contributions (LIB := Samples.lib) (GH := Samples.github Samples.others)
    (Samples.utc 0) (Samples.utc 10) true true None true true false false 0%nat
  = _fetch_contributions_conservative
      (LIB := Samples.lib) (GH := Samples.github Samples.others)
      (Samples.utc 0) (Samples.utc 10) false 3%nat.
Proof.
  eapply (graphql_fallback_drops_include_private
            (LIB := Samples.lib) (GH := Samples.github Samples.others)
            (Samples.utc 0) (Samples.utc 10) true true None true 0%nat
            _ _ (mkFrame 3%nat _)).
  - vm_compute. reflexivity.
  - vm_compute. reflexivity.
  - reflexivity.
Defined.

(** [bob/proj] is private on the platform; the bulk strategy records it as
    public and the report says so. *)
Lemma bulk_and_graphql_records_are_public_witness :
  exists f,
    bulk_body (LIB := Samples.lib) (GH := Samples.github Samples.usual)
      (Samples.utc 0) (Samples.utc 10) true (mkFrame 0%nat empty_contributions)
    = Some (Ok None, f)
    /\ Forall public_record (repositories (contributions f))
    /\ map Report.repo_line_plain (repositories (contributions f))
       = ["- proj (Public)"; "- proj (Public)"].
Proof.
  eexists. split; [vm_compute; reflexivity|]. split.
  - apply (proj1 (bulk_and_graphql_records_are_public
                    (LIB := Samples.lib) (GH := Samples.github Samples.usual))
             (Samples.utc 0) (Samples.utc 10) true 0%nat).
    vm_compute. reflexivity.
  - reflexivity.
Defined.

(* ===================================================================== *)
(** * Commit timestamps *)
(* ===================================================================== *)

(** C3 on a client that reports author dates without a zone: the bulk
    strategy (the default of [get_contributions]) and the Conservative
    strategy store the dates as they come, without a zone; the enumeration
    of [get_contributions] turns them into UTC dates. *)
Lemma zoneless_dates_by_strategy :
  (exists c w',
      get_contributions (LIB := Samples.lib) (GH := Samples.github Samples.zoneless)
        (Samples.utc 0) (Samples.utc 10) true true None true false true false 0%nat
      = Some (Ok c, w')
      /\ map (fun r => PyTime.aware (c_date r)) (commits c) = [false; false])
  /\ (exists c w',
      get_contributions (LIB := Samples.lib) (GH := Samples.github Samples.zoneless)
        (Samples.utc 0) (Samples.utc 7) true true None true false false true 0%nat
      = Some (Ok c, w')
      /\ map (fun r => PyTime.aware (c_date r)) (commits c) = [false; false])
  /\ (exists c w',
      get_contributions (LIB := Samples.lib) (GH := Samples.github Samples.zoneless)
        (Samples.utc 0) (Samples.utc 10) true true None true false false false 0%nat
      = Some (Ok c, w')
      /\ map c_date (commits c) = [Samples.utc 1; Samples.utc 1]).
Proof.
  repeat split; eexists; eexists; (split; [vm_compute; reflexivity|]);
    reflexivity.
Qed.

(* ===================================================================== *)
(** * Facts about strings *)
(* ===================================================================== *)

Module StringFacts.

Lemma append_nil_r s : s ++ EmptyString = s.
Proof. induction s as [|c s IH]; simpl; [reflexivity | rewrite IH; reflexivity]. Qed.

Lemma length_append a b :
  String.length (a ++ b) = (String.length a + String.length b)%nat.
Proof. induction a as [|c a IH]; simpl; [reflexivity | rewrite IH; reflexivity]. Qed.

Lemma take_app a b : PyStr.take (String.length a) (a ++ b) = a.
Proof. induction a as [|c a IH]; simpl; [destruct b|rewrite IH]; reflexivity. Qed.

Lemma drop_app a b : PyStr.drop (String.length a) (a ++ b) = b.
Proof. induction a as [|c a IH]; simpl; [destruct b|rewrite IH]; reflexivity. Qed.

Lemma prefix_app p t : prefix p (p ++ t) = true.
Proof.
  induction p as [|c p IH]; simpl; [destruct t; reflexivity|].
  destruct (ascii_dec c c) as [_|Hne]; [exact IH | contradiction].
Qed.

Lemma prefix_inv p s : prefix p s = true -> exists t, s = p ++ t.
Proof.
  revert s. induction p as [|c p IH]; intros s H.
  - exists s. reflexivity.
  - destruct s as [|d s]; simpl in H; [discriminate|].
    destruct (ascii_dec c d) as [->|]; [|discriminate].
    destruct (IH s H) as [t ->]. exists t. reflexivity.
Qed.

Lemma prefix_nil s : prefix EmptyString s = true.
Proof. destruct s; reflexivity. Qed.

(** Two ways of cutting one string: the shorter head is a prefix of the
    longer one. *)
Lemma append_eq_append x y u v :
  x ++ y = u ++ v ->
  (String.length x <= String.length u)%nat ->
  exists r, u = x ++ r /\ y = r ++ v.
Proof.
  revert u. induction x as [|c x IH]; intros u Heq Hlen.
  - exists u. split; [reflexivity | exact Heq].
  - destruct u as [|d u]; simpl in Hlen; [lia|].
    simpl in Heq. injection Heq as -> Heq.
    destruct (IH u Heq ltac:(lia)) as (r & -> & ->).
    exists r. split; reflexivity.
Qed.

Lemma contains_unfold sub s :
  PyStr.contains sub s
  = prefix sub s
    || match s with
       | EmptyString => false
       | String _ s' => PyStr.contains sub s'
       end.
Proof. destruct s; reflexivity. Qed.

Lemma contains_intro sub a b : PyStr.contains sub (a ++ sub ++ b) = true.
Proof.
  induction a as [|c a IH].
  - rewrite contains_unfold. simpl append. rewrite prefix_app. reflexivity.
  - simpl. rewrite IH. apply orb_true_r.
Qed.

Lemma contains_inv sub s :
  PyStr.contains sub s = true -> exists a b, s = a ++ sub ++ b.
Proof.
  induction s as [|c s IH]; intros H; rewrite contains_unfold in H;
    apply orb_true_iff in H; destruct H as [H|H].
  - apply prefix_inv in H. destruct H as [t Ht]. exists EmptyString, t. exact Ht.
  - discriminate.
  - apply prefix_inv in H. destruct H as [t Ht]. exists EmptyString, t. exact Ht.
  - destruct (IH H) as (a & b & ->). exists (String c a), b. reflexivity.
Qed.

(** [replace]: the characters of a match that are still to be dropped. *)
Lemma replace_from_skip old new x b :
  PyStr.replace_from old new (String.length x) (x ++ b)
  = PyStr.replace_from old new 0 b.
Proof.
  induction x as [|c x IH]; simpl; [destruct b; reflexivity | exact IH].
Qed.

Lemma no_early_match_tail p c a rest :
  no_early_match p (String c a) rest -> no_early_match p a rest.
Proof.
  intros H a1 a2 Heq Hne. apply (H (String c a1) a2); [|exact Hne].
  simpl. rewrite Heq. reflexivity.
Qed.

Lemma replace_first old new a b :
  old <> EmptyString ->
  no_early_match old a b ->
  PyStr.replace old new (a ++ old ++ b) = a ++ new ++ PyStr.replace old new b.
Proof.
  intros Hold. unfold PyStr.replace.
  induction a as [|c a IH]; intros Hfree.
  - destruct old as [|o old']; [contradiction|].
    change (EmptyString ++ String o old' ++ b) with (String o (old' ++ b)).
    cbn [PyStr.replace_from].
    change (String o (old' ++ b)) with (String o old' ++ b).
    rewrite prefix_app.
    replace (String.length (String o old') - 1)%nat with (String.length old')
      by (simpl; lia).
    rewrite replace_from_skip. reflexivity.
  - change (String c a ++ old ++ b) with (String c (a ++ old ++ b)).
    cbn [PyStr.replace_from].
    change (String c (a ++ old ++ b)) with (String c a ++ old ++ b).
    rewrite (Hfree EmptyString (String c a) eq_refl) by discriminate.
    change (String c a ++ old ++ b) with (String c (a ++ old ++ b)).
    rewrite IH by (eapply no_early_match_tail; exact Hfree).
    reflexivity.
Qed.

Lemma index_first p a rest :
  p <> EmptyString ->
  no_early_match p a rest ->
  index 0 p (a ++ p ++ rest) = Some (String.length a).
Proof.
  intros Hp. induction a as [|c a IH]; intros Hfree.
  - destruct p as [|o p']; [contradiction|].
    change (EmptyString ++ String o p' ++ rest) with (String o (p' ++ rest)).
    cbn [index].
    change (String o (p' ++ rest)) with (String o p' ++ rest).
    rewrite prefix_app. reflexivity.
  - change (String c a ++ p ++ rest) with (String c (a ++ p ++ rest)).
    cbn [index].
    change (String c (a ++ p ++ rest)) with (String c a ++ p ++ rest).
    rewrite (Hfree EmptyString (String c a) eq_refl) by discriminate.
    change (String c a ++ p ++ rest) with (String c (a ++ p ++ rest)).
    rewrite IH by (eapply no_early_match_tail; exact Hfree).
    reflexivity.
Qed.

Lemma index_absent p s :
  p <> EmptyString -> PyStr.contains p s = false -> index 0 p s = None.
Proof.
  intros Hp. induction s as [|c s IH]; intros H.
  - destruct p; [contradiction | reflexivity].
  - rewrite contains_unfold in H. apply orb_false_iff in H.
    destruct H as [Hpre Hrest]. cbn [index].
    rewrite Hpre, (IH Hrest). reflexivity.
Qed.

Lemma index_after a n p s :
  index (String.length a + n) p (a ++ s)
  = match index n p s with
    | Some m => Some (String.length a + m)%nat
    | None => None
    end.
Proof.
  induction a as [|c a IH]; simpl.
  - destruct (index n p s); reflexivity.
  - rewrite IH. destruct (index n p s); reflexivity.
Qed.

(** A pattern none of whose proper suffixes is also a prefix cannot start
    in [a] and run into the copy that follows [a]. *)
Lemma border_free_no_early_match p a rest :
  border_free p = true ->
  PyStr.contains p a = false ->
  no_early_match p a rest.
Proof.
  intros Hfree Hnot a1 a2 Ha Hne.
  destruct (prefix p (a2 ++ p ++ rest)) eqn:Hpre; [|reflexivity].
  exfalso. apply prefix_inv in Hpre. destruct Hpre as [t Ht].
  destruct (Nat.le_gt_cases (String.length p) (String.length a2)) as [Hle|Hgt].
  - symmetry in Ht.
    destruct (append_eq_append _ _ _ _ Ht Hle) as (r & Ha2 & _).
    subst a. rewrite Ha2 in Hnot. rewrite contains_intro in Hnot. discriminate.
  - destruct (append_eq_append a2 (p ++ rest) p t Ht ltac:(lia)) as (r & Hp & Hrest).
    assert (Hr : (String.length r <= String.length p)%nat).
    { rewrite Hp, length_append. lia. }
    symmetry in Hrest.
    destruct (append_eq_append r t p rest Hrest Hr) as (r' & Hp' & _).
    assert (Hdrop : PyStr.drop (String.length a2) p = r)
      by (rewrite Hp; apply drop_app).
    assert (Hborder : prefix (PyStr.drop (String.length a2) p) p = true).
    { rewrite Hdrop, Hp'. apply prefix_app. }
    unfold border_free in Hfree. rewrite forallb_forall in Hfree.
    specialize (Hfree (String.length a2)).
    rewrite Hborder in Hfree. simpl in Hfree.
    assert (Hin : In (String.length a2) (seq 1 (String.length p - 1))).
    { apply in_seq. destruct a2; [contradiction|]. simpl in *. lia. }
    specialize (Hfree Hin). discriminate.
Qed.

End StringFacts.

(* ===================================================================== *)
(** * The Low-Level Tasks section *)
(* ===================================================================== *)

Section Insertion.

Import StringFacts.

Lemma high_level_heading_border_free : border_free Report.high_level_heading = true.
Proof. vm_compute. reflexivity. Qed.

Lemma overview_heading_border_free : border_free Report.overview_heading = true.
Proof. vm_compute. reflexivity. Qed.

(** A text with no ["##"] in it and no ["#"] at its end, followed by ["##"]:
    the first ["##"] is the one that follows. *)
Lemma hashes_no_early_match a rest :
  PyStr.contains "##" (a ++ "#") = false ->
  no_early_match "##" a rest.
Proof.
  intros Hnot a1 a2 Ha Hne.
  destruct (prefix "##" (a2 ++ "##" ++ rest)) eqn:Hpre; [|reflexivity].
  exfalso. apply prefix_inv in Hpre. destruct Hpre as [t Ht].
  destruct a2 as [|c [|d a2]]; [contradiction| |].
  - simpl in Ht. injection Ht as -> _.
    subst a. rewrite append_assoc in Hnot.
    change ("#" ++ "#") with ("##" ++ EmptyString) in Hnot.
    rewrite contains_intro in Hnot. discriminate.
  - simpl in Ht. injection Ht as -> -> _.
    subst a. rewrite append_assoc in Hnot.
    change ((String "#"%char (String "#"%char a2)) ++ "#")
      with ("##" ++ (a2 ++ "#")) in Hnot.
    rewrite contains_intro in Hnot. discriminate.
Qed.

(** After ["## Overview"] the search for ["##"] starts on the heading's
    second character; the rest of the heading holds no ["##"]. *)
Lemma contains_hashes_after_heading x :
  PyStr.contains "##" ("# Overview" ++ x) = PyStr.contains "##" x.
Proof.
  change ("# Overview" ++ x)
    with (String "#"%char (String " "%char (String "O"%char (String "v"%char
          (String "e"%char (String "r"%char (String "v"%char (String "i"%char
          (String "e"%char (String "w"%char x)))))))))).
  repeat (rewrite contains_unfold;
          match goal with
          | |- context [prefix "##" (String ?c1 (String ?c2 ?t))] =>
              change (prefix "##" (String c1 (String c2 t))) with false
          | |- context [prefix "##" (String "w"%char x)] =>
              replace (prefix "##" (String "w"%char x)) with false
                by (destruct x; reflexivity)
          end; rewrite orb_false_l).
  reflexivity.
Qed.

Lemma high_level_heading_nonempty : Report.high_level_heading <> EmptyString.
Proof. discriminate. Qed.

Lemma overview_heading_nonempty : Report.overview_heading <> EmptyString.
Proof. discriminate. Qed.

Lemma insert_before_heading a b low :
  PyStr.contains Report.high_level_heading a = false ->
  Report.insert_low_level_tasks (a ++ Report.high_level_heading ++ b) low
  = a ++ (low ++ nl ++ nl ++ Report.high_level_heading)
      ++ PyStr.replace Report.high_level_heading
           (low ++ nl ++ nl ++ Report.high_level_heading) b.
Proof.
  intros Hnot. unfold Report.insert_low_level_tasks.
  rewrite contains_intro.
  apply replace_first; [exact high_level_heading_nonempty|].
  apply border_free_no_early_match;
    [exact high_level_heading_border_free | exact Hnot].
Qed.

(** Where the search for the end of the Overview section starts. *)
Lemma find_overview a x :
  PyStr.contains Report.overview_heading a = false ->
  PyStr.find Report.overview_heading (a ++ Report.overview_heading ++ x) 0
  = Z.of_nat (String.length a).
Proof.
  intros Hnot. unfold PyStr.find. change (Z.to_nat 0) with 0%nat.
  rewrite index_first; [reflexivity | exact overview_heading_nonempty |].
  apply border_free_no_early_match;
    [exact overview_heading_border_free | exact Hnot].
Qed.

Lemma index_hashes_after_overview a x :
  index (Z.to_nat (Z.of_nat (String.length a) + 1)) "##"
        (a ++ Report.overview_heading ++ x)
  = match index 0 "##" ("# Overview" ++ x) with
    | Some m => Some (String.length a + S m)%nat
    | None => None
    end.
Proof.
  replace (Z.to_nat (Z.of_nat (String.length a) + 1))
    with (String.length a + 1)%nat by lia.
  rewrite index_after.
  change (Report.overview_heading ++ x) with (String "#"%char ("# Overview" ++ x)).
  cbn [index]. destruct (index 0 "##" ("# Overview" ++ x)); reflexivity.
Qed.

Lemma insert_after_overview a body rest low :
  PyStr.contains Report.high_level_heading
    (a ++ Report.overview_heading ++ body ++ "##" ++ rest) = false ->
  PyStr.contains Report.overview_heading a = false ->
  PyStr.contains "##" (body ++ "#") = false ->
  Report.insert_low_level_tasks
    (a ++ Report.overview_heading ++ body ++ "##" ++ rest) low
  = (a ++ Report.overview_heading ++ body)
      ++ nl ++ nl ++ low ++ nl ++ nl ++ "##" ++ rest.
Proof.
  intros Hhigh Hover Hbody. unfold Report.insert_low_level_tasks.
  rewrite Hhigh, contains_intro, (find_overview _ _ Hover).
  set (k := (String.length a + S (String.length ("# Overview" ++ body)))%nat).
  assert (Hfind : PyStr.find "##"
                    (a ++ Report.overview_heading ++ body ++ "##" ++ rest)
                    (Z.of_nat (String.length a) + 1)
                  = Z.of_nat k).
  { unfold PyStr.find. rewrite index_hashes_after_overview.
    rewrite <- (append_assoc "# Overview" body ("##" ++ rest)).
    rewrite index_first;
      [ reflexivity | discriminate
      | apply hashes_no_early_match;
        rewrite append_assoc, contains_hashes_after_heading; exact Hbody ]. }
  rewrite Hfind.
  assert (Hk : k = String.length (a ++ Report.overview_heading ++ body)).
  { unfold k. rewrite !length_append. simpl. lia. }
  destruct (Z.eqb_spec (Z.of_nat k) (-1)) as [Hneg|_]; [lia|].
  rewrite Nat2Z.id.
  replace (a ++ Report.overview_heading ++ body ++ "##" ++ rest)
    with ((a ++ Report.overview_heading ++ body) ++ "##" ++ rest)
    by (rewrite !append_assoc; reflexivity).
  rewrite Hk, take_app, drop_app. reflexivity.
Qed.

Lemma insert_at_end_after_overview a body low :
  PyStr.contains Report.high_level_heading
    (a ++ Report.overview_heading ++ body) = false ->
  PyStr.contains Report.overview_heading a = false ->
  PyStr.contains "##" body = false ->
  Report.insert_low_level_tasks (a ++ Report.overview_heading ++ body) low
  = (a ++ Report.overview_heading ++ body) ++ nl ++ nl ++ low.
Proof.
  intros Hhigh Hover Hbody. unfold Report.insert_low_level_tasks.
  rewrite Hhigh.
  replace (PyStr.contains Report.overview_heading
             (a ++ Report.overview_heading ++ body)) with true
    by (symmetry; rewrite <- (append_nil_r body), <- append_assoc;
        rewrite (append_assoc a); apply contains_intro).
  rewrite (find_overview _ _ Hover).
  assert (Hfind : PyStr.find "##" (a ++ Report.overview_heading ++ body)
                    (Z.of_nat (String.length a) + 1)
                  = (-1)%Z).
  { unfold PyStr.find. rewrite index_hashes_after_overview.
    rewrite index_absent;
      [reflexivity | discriminate
      | rewrite contains_hashes_after_heading; exact Hbody]. }
  rewrite Hfind. reflexivity.
Qed.

Lemma insert_at_end s low :
  PyStr.contains Report.high_level_heading s = false ->
  PyStr.contains Report.overview_heading s = false ->
  Report.insert_low_level_tasks s low = s ++ nl ++ nl ++ low.
Proof.
  intros Hhigh Hover. unfold Report.insert_low_level_tasks.
  rewrite Hhigh, Hover. reflexivity.
Qed.

End Insertion.

Section Grouping.

Context {A : Type}.

Lemma group_lookup_append n k (x : A) d :
  group_lookup n (group_append k x d)
  = if String.eqb k n then group_lookup n d +++ [x] else group_lookup n d.
Proof.
  induction d as [|[k' l] d IH]; simpl.
  - destruct (String.eqb k n); reflexivity.
  - destruct (String.eqb_spec k' k) as [->|Hk]; simpl.
    + destruct (String.eqb k n); reflexivity.
    + rewrite IH. destruct (String.eqb_spec k' n) as [->|Hn]; [|reflexivity].
      destruct (String.eqb_spec k n) as [->|]; [contradiction|reflexivity].
Qed.

Lemma group_append_keys n k (x : A) d :
  In n (map fst (group_append k x d)) <-> n = k \/ In n (map fst d).
Proof.
  induction d as [|[k' l] d IH]; simpl.
  - intuition congruence.
  - destruct (String.eqb_spec k' k) as [->|Hk]; simpl; [intuition congruence|].
    rewrite IH. intuition.
Qed.

Lemma group_append_NoDup k (x : A) d :
  NoDup (map fst d) -> NoDup (map fst (group_append k x d)).
Proof.
  induction d as [|[k' l] d IH]; simpl; intros Hnd.
  - repeat constructor. intros [].
  - inversion Hnd as [|? ? Hnotin Hrest]; subst.
    destruct (String.eqb_spec k' k) as [->|Hk]; simpl.
    + constructor; assumption.
    + constructor; [|apply IH; exact Hrest].
      rewrite group_append_keys. intros [->|Hin]; [congruence|contradiction].
Qed.

End Grouping.

Section LowLevelTasks.

Lemma commits_by_repo_from cs :
  forall acc n,
    group_lookup n
      (fold_left (fun repo_commits commit =>
                    group_append (c_repo commit) commit repo_commits) cs acc)
    = group_lookup n acc +++ filter (fun c => String.eqb (c_repo c) n) cs.
Proof.
  induction cs as [|c cs IH]; intros acc n; simpl.
  - rewrite app_nil_r. reflexivity.
  - rewrite IH, group_lookup_append.
    destruct (String.eqb (c_repo c) n); [rewrite <- app_assoc|]; reflexivity.
Qed.

Lemma commits_by_repo_lookup cs n :
  group_lookup n (Report.commits_by_repo cs)
  = filter (fun c => String.eqb (c_repo c) n) cs.
Proof. unfold Report.commits_by_repo. rewrite commits_by_repo_from. reflexivity. Qed.

Lemma commits_by_repo_keys_from cs :
  forall acc,
    NoDup (map fst acc) ->
    let d := fold_left (fun repo_commits commit =>
                          group_append (c_repo commit) commit repo_commits) cs acc in
    NoDup (map fst d)
    /\ forall n, In n (map fst d) <-> In n (map fst acc) \/ In n (map c_repo cs).
Proof.
  induction cs as [|c cs IH]; intros acc Hacc; simpl.
  - split; [exact Hacc | intuition].
  - destruct (IH (group_append (c_repo c) c acc) (group_append_NoDup _ _ _ Hacc))
      as [Hnd Hin].
    split; [exact Hnd|]. intros n. rewrite Hin, group_append_keys. intuition.
Qed.

Lemma commits_by_repo_keys cs :
  NoDup (map fst (Report.commits_by_repo cs))
  /\ forall n, In n (map fst (Report.commits_by_repo cs)) <-> In n (map c_repo cs).
Proof.
  destruct (commits_by_repo_keys_from cs [] (NoDup_nil _)) as [Hnd Hin].
  split; [exact Hnd|]. intros n. rewrite (Hin n). simpl. intuition.
Qed.

(** The order of [sorted]. *)
Lemma lexicographic_trans a b c :
  lexicographic a b -> lexicographic b c -> lexicographic a c.
Proof.
  unfold lexicographic, String.leb.
  revert b c. induction a as [|x a IH]; intros [|y b] [|z c]; simpl;
    try congruence.
  specialize (IH b c).
  unfold Ascii.compare in *.
  destruct (N.compare_spec (N_of_ascii x) (N_of_ascii y)) as [Hxy|Hxy|Hxy];
    destruct (N.compare_spec (N_of_ascii y) (N_of_ascii z)) as [Hyz|Hyz|Hyz];
    destruct (N.compare_spec (N_of_ascii x) (N_of_ascii z)) as [Hxz|Hxz|Hxz];
    try congruence; try lia; auto.
Qed.

Lemma insert_sorted_perm x l : Permutation (PyStr.insert_sorted x l) (x :: l).
Proof.
  induction l as [|y l IH]; simpl; [reflexivity|].
  destruct (String.leb x y); [reflexivity|].
  rewrite IH. apply perm_swap.
Qed.

Lemma sorted_perm l : Permutation (PyStr.sorted l) l.
Proof.
  induction l as [|x l IH]; simpl; [reflexivity|].
  rewrite insert_sorted_perm, IH. reflexivity.
Qed.

Lemma insert_sorted_sorted x l :
  StronglySorted lexicographic l ->
  StronglySorted lexicographic (PyStr.insert_sorted x l).
Proof.
  induction 1 as [|y l Hl IH Hy]; simpl.
  - repeat constructor.
  - destruct (String.leb x y) eqn:Hxy.
    + constructor; [constructor; assumption|].
      constructor; [exact Hxy|].
      rewrite Forall_forall in *. intros z Hz.
      eapply lexicographic_trans; [exact Hxy | apply Hy; exact Hz].
    + constructor; [exact IH|].
      rewrite Forall_forall in *. intros z Hz.
      apply (Permutation_in _ (insert_sorted_perm x l)) in Hz.
      destruct Hz as [<-|Hz]; [|apply Hy; exact Hz].
      destruct (String.leb_total x y) as [H|H]; [congruence | exact H].
Qed.

Lemma sorted_sorted l : StronglySorted lexicographic (PyStr.sorted l).
Proof.
  induction l as [|x l IH]; simpl; [constructor | apply insert_sorted_sorted, IH].
Qed.

(** The section for a non-empty commit list: the heading, then the blocks of
    the repositories in lexicographic order. *)
Lemma low_level_tasks_blocks (c : Contributions) :
  commits c <> [] ->
  let names := PyStr.sorted (map fst (Report.commits_by_repo (commits c))) in
  Report._generate_low_level_tasks c
  = PyStr.join nl
      (("## Low-Level Tasks" ++ nl) :: flat_map (repo_block (commits c)) names)
  /\ StronglySorted lexicographic names
  /\ NoDup names
  /\ (forall n, In n names <-> exists r, In r (commits c) /\ c_repo r = n).
Proof.
  intros Hne names.
  destruct (commits_by_repo_keys (commits c)) as [Hnd Hin].
  repeat split.
  - unfold Report._generate_low_level_tasks.
    destruct (commits c) as [|r rs] eqn:Hcs; [contradiction|].
    fold names. f_equal. simpl. f_equal.
    apply flat_map_ext. intros n.
    unfold Report.low_level_repo, repo_block.
    rewrite commits_by_repo_lookup. reflexivity.
  - apply sorted_sorted.
  - eapply Permutation_NoDup; [symmetry; apply sorted_perm | exact Hnd].
  - intros Hn. apply (Permutation_in _ (sorted_perm _)) in Hn.
    apply Hin in Hn. apply in_map_iff in Hn. destruct Hn as (r & Hr & Hrin).
    exists r. split; assumption.
  - intros (r & Hrin & Hr).
    apply (Permutation_in _ (Permutation_sym (sorted_perm _))).
    apply Hin. apply in_map_iff. exists r. split; assumption.
Qed.

End LowLevelTasks.

Section BedrockSummary.

Context {LIB : Library} {B : Type} {BR : BedrockRuntime B}.

(** The summarizer never raises: a failure of the service becomes the text
    of the summary. *)
Lemma summarize_contributions_returns (self : BedrockSummarizer)
  (contributions_list : string) (b : B) :
  exists summary b',
    summarize_contributions self contributions_list b = Some (Ok summary, b').
Proof.
  unfold summarize_contributions, try_except, ret. cbv zeta.
  destruct (invoke_model (region self) (model_id self) (max_tokens self)
              (create_summary_prompt contributions_list) b) as [[text|e] b'];
    eexists; eexists; reflexivity.
Qed.


End BedrockSummary.


(* ===================================================================== *)
(** * What the strategies return *)
(* ===================================================================== *)

Lemma Forall_True {A} (l : list A) : Forall (fun _ => True) l.
Proof. apply Forall_forall. intros; exact I. Qed.

Section Outcomes.

Context {LIB : Library} {W : Type} {GH : GitHub W}.

Lemma wp_in_world_exact {A} (m : M W A) Q E (f : Frame W) :
  wp m (fun a w' => Q a (mkFrame w' (contributions f)))
       (fun e w' => E e (mkFrame w' (contributions f))) (world f) ->
  wp (in_world m) Q E f.
Proof.
  unfold wp, in_world. destruct (m (world f)) as [[[a|e] w']|]; auto.
Qed.

(** The Conservative strategy ends with a dictionary whose reserved lists are
    empty, or, when its dates cannot be compared, with the [TypeError] of the
    comparison. *)
Lemma conservative_outcome start_date end_date include_private (w : W) :
  wp (_fetch_contributions_conservative start_date end_date include_private)
     (fun c _ => reserved_empty c)
     (fun _ _ => PyTime.comparable start_date end_date = false) w.
Proof.
  apply (conservative_wp reserved_empty (fun _ => True)).
  - intros. apply Forall_True.
  - intros c repo commit Hc _. exact Hc.
  - intros c repo Hc _. exact Hc.
  - repeat split.
Qed.

Lemma bulk_search_outcome start_date end_date include_private (w : W) :
  wp (_fetch_contributions_bulk_search start_date end_date include_private)
     (fun c _ => reserved_empty c)
     (fun _ _ => PyTime.comparable start_date end_date = false) w.
Proof.
  unfold _fetch_contributions_bulk_search. apply wp_try.
  eapply wp_mono.
  - apply wp_returning with (Q := reserved_empty) (E := fun _ => True).
    eapply wp_mono;
      [apply (bulk_body_kept (fun _ => True) (fun _ => True) (fun _ => True)
                (fun _ _ _ _ _ => Forall_True _) (fun _ _ _ => I) (fun _ _ => I)
                reserved_empty)
      | | auto].
    + intros w0. eapply wp_mono; [apply conservative_outcome | auto | auto].
    + intros [c|] f H; [exact H | exact (proj2 (proj2 H))].
  - auto.
  - intros e w' _. apply conservative_outcome.
Qed.

Lemma graphql_batches_outcome repos start_date_str end_date_str (f : Frame W) :
  holds reserved_empty f ->
  wp (graphql_batches repos start_date_str end_date_str)
     (fun _ => holds reserved_empty) (fun _ _ => False) f.
Proof.
  intros Hf.
  assert (Hkept : holds (kept (fun _ => True) (fun _ => True)) f)
    by (repeat split; try apply Forall_True; apply Hf).
  eapply wp_mono;
    [apply (graphql_batches_kept (fun _ => True) (fun _ => True) (fun _ => True)
              (fun _ _ _ _ _ => proj2 (Forall_forall _ _) (fun _ _ => Forall_True _))
              (fun _ _ _ _ => I) (fun _ _ => I)
              repos start_date_str end_date_str (fun _ _ => False) f Hkept)
    | | auto].
  intros u s Hs. exact (proj2 (proj2 Hs)).
Qed.

Lemma graphql_outcome repos start_date end_date (w : W) :
  wp (_fetch_contributions_graphql repos start_date end_date)
     (fun c _ => reserved_empty c)
     (fun _ _ => PyTime.comparable start_date end_date = false) w.
Proof.
  unfold _fetch_contributions_graphql.
  apply wp_returning
    with (Q := reserved_empty)
         (E := fun _ => PyTime.comparable start_date end_date = false).
  apply wp_bind.
  eapply wp_mono; [apply graphql_batches_outcome; repeat split | | intros e s []].
  intros u s Hs. apply wp_bind, wp_read.
  destruct (commits (contributions s)); [|exact Hs].
  apply wp_bind, wp_in_world_exact.
  eapply wp_mono; [apply conservative_outcome | | auto].
  intros c w' Hc. exact Hc.
Qed.

Lemma enumeration_outcome start_date end_date repos (w : W) :
  wp (returning (for_each repos (enumerate_repo start_date end_date) ;;; ret None))
     (fun c _ => reserved_empty c) (fun _ _ => False) w.
Proof.
  eapply wp_mono;
    [apply (enumeration_kept (fun _ => True) (fun _ => True) (fun _ => True)
              (fun _ _ _ _ _ _ _ _ => Forall_True _) (fun _ _ _ => I) (fun _ => I))
    | | auto].
  intros c w' Hc. exact (proj2 (proj2 Hc)).
Qed.



(** X3. Whatever strategy is selected, the three reserved lists of a
    returned dictionary (pull requests, issues, reviews) are empty. *)
Theorem reserved_lists_stay_empty
  (start_date end_date : datetime) (include_private optimize : bool)
  (limit : option Z) (skip_reviews use_graphql use_bulk use_conservative : bool)
  (w : W) (c : Contributions) (w' : W) :
  get_contributions start_date end_date include_private optimize limit
    skip_reviews use_graphql use_bulk use_conservative w
  = Some (Ok c, w') ->
  pull_requests c = [] /\ issues c = [] /\ reviews c = [].
Proof.
  intros Hrun.
  pose proof (get_contributions_kept (fun _ => True) (fun _ => True)
                (fun _ => True) (fun _ => True)
                (fun _ _ _ _ _ => Forall_True _)
                (fun _ _ _ _ _ _ _ _ => Forall_True _)
                (fun _ _ _ _ _ => proj2 (Forall_forall _ _) (fun _ _ => Forall_True _))
                (fun _ _ _ => I) (fun _ _ _ => I) (fun _ _ _ _ => I)
                (fun _ => I) (fun _ _ => I)
                start_date end_date include_private optimize limit
                skip_reviews use_graphql use_bulk use_conservative w) as H.
  unfold wp in H. rewrite Hrun in H. exact (proj2 (proj2 H)).
Qed.

End Outcomes.


Lemma reserved_lists_stay_empty_witness :
  exists c w',
    get_contributions (LIB := Samples.lib) (GH := Samples.github Samples.usual)
      (Samples.utc 0) (Samples.utc 10) true true None true true false false 0%nat
    = Some (Ok c, w')
    /\ pull_requests c = [] /\ issues c = [] /\ reviews c = [].
Proof.
  eexists. eexists. split; [vm_compute; reflexivity|].
  eapply (reserved_lists_stay_empty
            (LIB := Samples.lib) (GH := Samples.github Samples.usual)
            (Samples.utc 0) (Samples.utc 10) true true None true true false false
            0%nat).
  vm_compute. reflexivity.
Defined.

(* ===================================================================== *)
(** * Batches and caps *)
(* ===================================================================== *)

Section Loops.

Context {S A : Type}.

Lemma for_each_app (l1 l2 : list A) (body : A -> M S unit) (s : S) :
  for_each (l1 +++ l2) body s = (for_each l1 body ;;; for_each l2 body) s.
Proof.
  revert s. induction l1 as [|x l1 IH]; intros s; simpl.
  - reflexivity.
  - unfold bind. destruct (body x s) as [[[u|e] s']|]; try reflexivity.
    rewrite IH. reflexivity.
Qed.

Lemma for_each_flat_map {B} (g : B -> list A) (l : list B)
  (body : A -> M S unit) (s : S) :
  for_each (flat_map g l) body s = for_each l (fun x => for_each (g x) body) s.
Proof.
  revert s. induction l as [|x l IH]; intros s; simpl; [reflexivity|].
  rewrite for_each_app. unfold bind.
  destruct (for_each (g x) body s) as [[[u|e] s']|]; try reflexivity.
  apply IH.
Qed.

End Loops.

Lemma batches_cover_from {A} (m : nat) :
  forall l : list A,
    (List.length l <= batch_size * m)%nat ->
    flat_map (fun i => firstn batch_size (skipn i l))
             (map (fun k => k * batch_size)%nat (seq 0 m))
    = l.
Proof.
  induction m as [|m IH]; intros l Hlen.
  - destruct l; [reflexivity | simpl in Hlen; lia].
  - rewrite <- cons_seq, <- seq_shift, map_cons, map_map.
    cbn [flat_map]. change (0 * batch_size)%nat with 0%nat. rewrite skipn_0.
    transitivity (firstn batch_size l +++ skipn batch_size l);
      [|apply firstn_skipn].
    f_equal.
    etransitivity;
      [|apply (IH (skipn batch_size l));
        rewrite length_skipn; unfold batch_size in *; lia].
    rewrite !flat_map_concat_map, !map_map. f_equal. apply map_ext. intros k.
    rewrite skipn_skipn. f_equal. f_equal. unfold batch_size. lia.
Qed.

Lemma batches_cover {A} (l : list A) :
  flat_map (fun i => firstn batch_size (skipn i l)) (batch_starts (List.length l)) = l.
Proof.
  unfold batch_starts. apply batches_cover_from. unfold batch_size.
  pose proof (Nat.div_mod_eq (List.length l + 5 - 1) 5).
  pose proof (Nat.mod_upper_bound (List.length l + 5 - 1) 5). lia.
Qed.

Section Caps.

Context {LIB : Library} {W : Type} {GH : GitHub W}.

(** X4. The batches of five are a matter of pacing only: the GraphQL
    strategy runs its per-repository body once for each repository of its
    list, in the order of the list. *)
Theorem graphql_batches_visit_each_repository_once
  (repos : list string) (start_date_str end_date_str : string) (f : Frame W) :
  graphql_batches repos start_date_str end_date_str f
  = for_each repos (graphql_repo start_date_str end_date_str) f.
Proof.
  unfold graphql_batches.
  rewrite <- for_each_flat_map, batches_cover. reflexivity.
Qed.

Lemma first_commits_adds repo interrupted rest :
  forall commit_count (f : Frame W),
    exists r f',
      first_commits repo rest interrupted commit_count f = Some (r, f')
      /\ world f' = world f
      /\ repositories (contributions f') = repositories (contributions f)
      /\ commits (contributions f')
         = commits (contributions f)
             +++ map (utc_commit_data (name repo)) (firstn (50 - commit_count) rest).
Proof.
  induction rest as [|commit rest IH]; intros commit_count f; cbn [first_commits].
  - rewrite firstn_nil. cbn [map]. rewrite app_nil_r.
    destruct interrupted; eexists; eexists; (split; [reflexivity|]); auto.
  - destruct (Nat.leb_spec 50 commit_count) as [Hfull|Hroom].
    + replace (50 - commit_count)%nat with 0%nat by lia.
      cbn [firstn map]. rewrite app_nil_r.
      eexists; eexists; (split; [reflexivity|]); auto.
    + unfold bind, update.
      destruct (IH (Datatypes.S commit_count)
                  (mkFrame (world f)
                     (append_commit (utc_commit_data (name repo) commit)
                        (contributions f))))
        as (r & f' & Hrun & Hworld & Hrepos & Hcommits).
      exists r, f'. split; [exact Hrun|]. split; [exact Hworld|].
      split; [exact Hrepos|]. rewrite Hcommits.
      replace (50 - commit_count)%nat with (Datatypes.S (50 - Datatypes.S commit_count))
        by lia.
      remember (50 - Datatypes.S commit_count)%nat as k.
      cbn [firstn map commits contributions append_commit].
      rewrite <- app_assoc. reflexivity.
Qed.

(** X5. The enumeration of [get_contributions] never raises on a repository
    and takes at most 50 commits and one repository record from it. *)
Theorem enumerate_repo_at_most_50
  (start_date end_date : datetime) (repo_name : string) (f : Frame W) :
  exists f',
    enumerate_repo start_date end_date repo_name f = Some (Ok tt, f')
    /\ (List.length (commits (contributions f'))
        <= List.length (commits (contributions f)) + 50)%nat
    /\ (List.length (repositories (contributions f'))
        <= List.length (repositories (contributions f)) + 1)%nat.
Proof.
  unfold enumerate_repo, try_except, bind, in_world, request.
  destruct (get_repo repo_name (world f)) as [[repo|e] w1]; simpl;
    [|eexists; split; [reflexivity|]; simpl; lia].
  destruct (get_commits repo start_date end_date 100 w1) as [[listing|e] w2]; simpl;
    [|eexists; split; [reflexivity|]; simpl; lia].
  destruct (totalCount listing) as [total|e];
    [|eexists; split; [reflexivity|]; simpl; lia].
  destruct (0 <? total)%nat.
  - destruct (first_commits_adds repo (broken listing) (items listing) 0
                (mkFrame w2 (contributions f)))
      as (r & f1 & Hrun & Hworld & Hrepos & Hcommits).
    rewrite Hrun.
    assert (Hlen : (List.length (commits (contributions f1))
                    <= List.length (commits (contributions f)) + 50)%nat).
    { rewrite Hcommits. cbn [contributions]. rewrite length_app, length_map.
      pose proof (firstn_le_length (50 - 0) (items listing)). lia. }
    cbn [contributions] in Hrepos.
    destruct r as [[]|e]; unfold update, ret; eexists; (split; [reflexivity|]);
      cbn [contributions append_repository commits repositories].
    + rewrite length_app, Hrepos. cbn [List.length]. lia.
    + rewrite Hrepos. lia.
  - unfold ret, update. eexists. split; [reflexivity|].
    cbn [contributions append_repository commits repositories].
    rewrite length_app. cbn [List.length]. lia.
Qed.

Lemma conservative_repo_adds current_date chunk_end repo_name (f : Frame W) :
  exists f',
    conservative_repo current_date chunk_end repo_name f = Some (Ok tt, f')
    /\ (List.length (repositories (contributions f'))
        <= List.length (repositories (contributions f)) + 1)%nat.
Proof.
  unfold conservative_repo, try_except, bind, in_world, request.
  destruct (get_repo repo_name (world f)) as [[repo|e] w1]; simpl;
    [|eexists; split; [reflexivity|]; simpl; lia].
  destruct (get_commits repo current_date chunk_end 30 w1) as [[listing|e] w2]; simpl;
    [|eexists; split; [reflexivity|]; simpl; lia].
  unfold for_paginated, bind. rewrite for_each_append_commit. simpl.
  destruct (broken listing); simpl; [eexists; split; [reflexivity|]; simpl; lia|].
  unfold read, bind. simpl.
  destruct (repo_exists _ _); simpl; eexists; (split; [reflexivity|]); simpl;
    [lia|].
  rewrite length_app. simpl. lia.
Qed.

Lemma conservative_repos_add current_date chunk_end (names : list string) :
  forall f : Frame W,
    exists f',
      for_each names (conservative_repo current_date chunk_end) f = Some (Ok tt, f')
      /\ (List.length (repositories (contributions f'))
          <= List.length (repositories (contributions f)) + List.length names)%nat.
Proof.
  induction names as [|n names IH]; intros f; simpl.
  - exists f. split; [reflexivity | lia].
  - destruct (conservative_repo_adds current_date chunk_end n f) as (f1 & Hrun & Hlen).
    unfold bind. rewrite Hrun.
    destruct (IH f1) as (f2 & Hrun2 & Hlen2).
    exists f2. split; [exact Hrun2 | lia].
Qed.

(** What one chunk adds to the repository list. *)
Lemma conservative_chunk_adds
  (current_date chunk_end : datetime) (include_private : bool) (f : Frame W) :
  exists f',
    conservative_chunk current_date chunk_end include_private f = Some (Ok tt, f')
    /\ (List.length (repositories (contributions f'))
        <= List.length (repositories (contributions f)) + 10)%nat.
Proof.
  unfold conservative_chunk, try_except, bind, in_world.
  pose proof (get_repos_with_contributions_ends
                current_date chunk_end include_private (world f)) as Hends.
  apply wp_inv in Hends. destruct Hends as (r & w1 & Hrun & _).
  rewrite Hrun. destruct r as [repos|e]; cbn beta iota;
    [|exists (mkFrame w1 (contributions f)); split; [reflexivity | simpl; lia]].
  destruct repos as [|n repos];
    [exists (mkFrame w1 (contributions f)); split; [reflexivity | simpl; lia]|].
  destruct (conservative_repos_add current_date chunk_end (firstn 10 (n :: repos))
              (mkFrame w1 (contributions f))) as (f' & Hrun' & Hlen).
  rewrite Hrun'. exists f'. split; [reflexivity|].
  pose proof (firstn_le_length 10 (n :: repos)).
  cbn [contributions] in Hlen. lia.
Qed.

(** X6. A chunk of the Conservative strategy never raises and adds at most
    ten repository records, however many repositories the discovery
    finds. *)
Theorem conservative_chunk_at_most_10_repositories
  (current_date chunk_end : datetime) (include_private : bool) (f : Frame W) :
  exists f',
    conservative_chunk current_date chunk_end include_private f = Some (Ok tt, f')
    /\ (List.length (repositories (contributions f'))
        <= List.length (repositories (contributions f)) + 10)%nat.
Proof.
  exact (conservative_chunk_adds current_date chunk_end include_private f).
Qed.

End Caps.

(* ===================================================================== *)
(** * Names, URLs and messages *)
(* ===================================================================== *)

Lemma split_nonempty sep s : PyStr.split sep s <> [].
Proof.
  destruct s as [|c s]; simpl; [discriminate|].
  destruct (Ascii.eqb c sep); [discriminate|].
  destruct (PyStr.split sep s); discriminate.
Qed.

(** A separator after a text that holds none: the text is the first part. *)
Lemma split_first sep a b :
  free_of sep a = true ->
  PyStr.split sep (a ++ String sep b) = a :: PyStr.split sep b.
Proof.
  induction a as [|c a IH]; simpl; intros Hfree.
  - rewrite Ascii.eqb_refl. reflexivity.
  - apply andb_true_iff in Hfree. destruct Hfree as [Hc Ha].
    apply negb_true_iff in Hc. rewrite Hc, (IH Ha). reflexivity.
Qed.

Lemma split1_first sep a b :
  free_of sep a = true ->
  PyStr.split1 sep (a ++ String sep b) = (a, Some b).
Proof.
  induction a as [|c a IH]; simpl; intros Hfree.
  - rewrite Ascii.eqb_refl. reflexivity.
  - apply andb_true_iff in Hfree. destruct Hfree as [Hc Ha].
    apply negb_true_iff in Hc. rewrite Hc, (IH Ha). reflexivity.
Qed.

Lemma split_parts_free sep s : Forall (fun part => free_of sep part = true) (PyStr.split sep s).
Proof.
  induction s as [|c s IH]; simpl.
  - repeat constructor.
  - destruct (Ascii.eqb c sep) eqn:Hc.
    + constructor; [reflexivity | exact IH].
    + destruct (PyStr.split sep s) as [|h t]; [repeat constructor; simpl; rewrite Hc; reflexivity|].
      inversion IH; subst. constructor; [|assumption].
      simpl. rewrite Hc. assumption.
Qed.

Lemma first_line_single message : free_of newline (first_line message) = true.
Proof.
  unfold first_line.
  pose proof (split_parts_free newline message) as Hparts.
  destruct (PyStr.split newline message) as [|h t]; [reflexivity|].
  inversion Hparts; assumption.
Qed.

(** X7. The repository name read off a commit URL of the platform is the
    owner and the repository of that URL, and splitting it at its first
    slash gives them back. *)
Theorem commit_url_names_its_repository (owner repo sha : string) :
  free_of slash owner = true ->
  free_of slash repo = true ->
  repo_name_of_url
    ("https://github.com/" ++ owner ++ "/" ++ repo ++ "/commit/" ++ sha)
  = Some (owner ++ "/" ++ repo)
  /\ PyStr.split1 slash (owner ++ "/" ++ repo) = (owner, Some repo).
Proof.
  intros Howner Hrepo. split.
  - unfold repo_name_of_url.
    change ("https://github.com/" ++ owner ++ "/" ++ repo ++ "/commit/" ++ sha)
      with ("https:" ++ String slash
              (EmptyString ++ String slash
                 ("github.com" ++ String slash
                    (owner ++ String slash (repo ++ String slash
                       ("commit" ++ String slash sha)))))).
    rewrite !split_first by (assumption || reflexivity).
    destruct (PyStr.split slash sha) as [|h t] eqn:Hsha;
      [exfalso; eapply split_nonempty; exact Hsha|].
    reflexivity.
  - apply (split1_first slash owner repo). exact Howner.
Qed.

Lemma commit_url_names_its_repository_witness :
  repo_name_of_url
    ("https://github.com/" ++ "alice" ++ "/" ++ "proj" ++ "/commit/" ++ Samples.hash1)
  = Some ("alice" ++ "/" ++ "proj")
  /\ PyStr.split1 slash ("alice" ++ "/" ++ "proj") = ("alice", Some "proj").
Proof.
  apply commit_url_names_its_repository; reflexivity.
Defined.

Section Messages.

Context {LIB : Library} {W : Type} {GH : GitHub W}.



End Messages.



(* ===================================================================== *)
(** * Repository discovery *)
(* ===================================================================== *)

Lemma set_mem_In x s : set_mem x s = true <-> In x s.
Proof.
  unfold set_mem. rewrite existsb_exists. split.
  - intros (y & Hy & Heq). apply String.eqb_eq in Heq. subst. exact Hy.
  - intros Hin. exists x. split; [exact Hin | apply String.eqb_refl].
Qed.

Lemma set_add_In y x s : In y (set_add x s) <-> y = x \/ In y s.
Proof.
  unfold set_add. destruct (set_mem x s) eqn:Hmem.
  - apply set_mem_In in Hmem. split; [auto | intros [->|]; assumption].
  - rewrite in_app_iff. simpl. intuition.
Qed.

Lemma set_add_NoDup x s : NoDup s -> NoDup (set_add x s).
Proof.
  intros Hnd. unfold set_add. destruct (set_mem x s) eqn:Hmem; [exact Hnd|].
  apply NoDup_app; [exact Hnd | repeat constructor; intros [] |].
  intros y Hy [<-|[]].
  apply set_mem_In in Hy. congruence.
Qed.

Lemma collect_repo_names_spec found :
  NoDup (collect_repo_names found)
  /\ forall n,
      In n (collect_repo_names found)
      <-> exists hit, In hit found /\ repo_name_of_url (gc_html_url hit) = Some n.
Proof.
  unfold collect_repo_names.
  assert (Hgen : forall acc,
             NoDup acc ->
             let r := fold_left
                        (fun repos commit =>
                           match repo_name_of_url (gc_html_url commit) with
                           | Some repo_name => set_add repo_name repos
                           | None => repos
                           end) found acc in
             NoDup r
             /\ forall n,
                 In n r <-> In n acc
                            \/ exists hit, In hit found
                                           /\ repo_name_of_url (gc_html_url hit) = Some n).
  { induction found as [|c found IH]; intros acc Hacc; simpl.
    - split; [exact Hacc|]. intros n. split; [auto|].
      intros [H|(hit & [] & _)]; exact H.
    - destruct (repo_name_of_url (gc_html_url c)) as [name|] eqn:Hname.
      + destruct (IH (set_add name acc) (set_add_NoDup _ _ Hacc)) as [Hnd Hin].
        split; [exact Hnd|]. intros n. rewrite Hin, set_add_In. split.
        * intros [[->|H]|(hit & Hhit & Hn)];
            [ right; exists c; split; [left; reflexivity | exact Hname]
            | left; exact H
            | right; exists hit; split; [right; exact Hhit | exact Hn] ].
        * intros [H|(hit & [<-|Hhit] & Hn)];
            [ left; right; exact H
            | left; left; congruence
            | right; exists hit; split; assumption ].
      + destruct (IH acc Hacc) as [Hnd Hin].
        split; [exact Hnd|]. intros n. rewrite Hin. split.
        * intros [H|(hit & Hhit & Hn)];
            [ left; exact H
            | right; exists hit; split; [right; exact Hhit | exact Hn] ].
        * intros [H|(hit & [<-|Hhit] & Hn)];
            [ left; exact H
            | congruence
            | right; exists hit; split; assumption ]. }
  destruct (Hgen [] (NoDup_nil _)) as [Hnd Hin].
  split; [exact Hnd|]. intros n. rewrite Hin. split; [|auto].
  intros [[]|H]; exact H.
Qed.

Section Discovery.

Context {LIB : Library} {W : Type} {GH : GitHub W}.

Lemma keep_public_subset names :
  forall filtered (w : W),
    NoDup filtered ->
    wp (keep_public names filtered)
       (fun kept_names _ =>
          NoDup kept_names
          /\ forall n, In n kept_names -> In n filtered \/ In n names)
       (fun _ _ => False) w.
Proof.
  induction names as [|name names IH]; intros filtered w Hnd; simpl.
  - split; [exact Hnd | auto].
  - apply wp_bind, wp_try, wp_bind, wp_request.
    assert (Hnext : forall filtered' w',
               NoDup filtered' ->
               (forall n, In n filtered' -> In n filtered \/ n = name) ->
               wp (keep_public names filtered')
                  (fun kept_names _ =>
                     NoDup kept_names
                     /\ forall n, In n kept_names ->
                                  In n filtered \/ In n (name :: names))
                  (fun _ _ => False) w').
    { intros filtered' w' Hnd' Hsub.
      eapply wp_mono; [apply IH; exact Hnd' | | auto].
      intros kept_names _ [Hk Hin]. split; [exact Hk|].
      intros n Hn. destruct (Hin n Hn) as [H|H].
      - destruct (Hsub n H) as [H'| ->]; [left; exact H' | right; left; reflexivity].
      - right. right. exact H. }
    destruct (get_repo name w) as [[repo|e] w1].
    + apply wp_ret. destruct (negb (private repo)).
      * apply Hnext; [apply set_add_NoDup; exact Hnd|].
        intros n Hn. apply set_add_In in Hn. intuition.
      * apply Hnext; [exact Hnd | auto].
    + apply wp_ret. apply Hnext; [exact Hnd | auto].
Qed.

(** X10. When the commit search answers, the discovery returns each
    repository at most once, every name it returns is read off the URL of a
    search hit, and with [include_private] every name read off a hit is
    returned. *)
Theorem discovery_returns_the_repositories_of_the_hits
  (start_date end_date : datetime) (include_private : bool) (w : W)
  (hits : PaginatedList GitCommit) (w1 : W) (total : nat) :
  search_commits
    (commit_query (strftime_date start_date) (strftime_date end_date)) w
  = (Ok hits, w1) ->
  totalCount hits = Ok total ->
  broken hits = None ->
  exists repos w',
    _get_repos_with_contributions start_date end_date include_private w
    = Some (Ok repos, w')
    /\ NoDup repos
    /\ (forall n,
          In n repos ->
          exists hit, In hit (items hits)
                      /\ repo_name_of_url (gc_html_url hit) = Some n)
    /\ (include_private = true ->
        forall hit n,
          In hit (items hits) ->
          repo_name_of_url (gc_html_url hit) = Some n ->
          In n repos).
Proof.
  intros Hsearch Htotal Hbroken.
  destruct (collect_repo_names_spec (items hits)) as [Hnd Hin].
  unfold _get_repos_with_contributions, try_except, bind at 1, request.
  rewrite Hsearch. unfold bind at 1, lift at 1. rewrite Htotal.
  unfold bind at 1, lift at 1, iterate. rewrite Hbroken.
  destruct include_private; cbn [negb].
  - eexists. eexists. split; [reflexivity|].
    split; [eapply Permutation_NoDup; [symmetry; apply set_order_perm | exact Hnd]|].
    split.
    + intros n Hn. apply Hin.
      eapply Permutation_in; [apply set_order_perm | exact Hn].
    + intros _ hit n Hhit Hn.
      eapply Permutation_in; [symmetry; apply set_order_perm|].
      apply Hin. eauto.
  - pose proof (keep_public_subset (set_order (collect_repo_names (items hits)))
                  [] w1 (NoDup_nil _)) as Hkeep.
    apply wp_inv in Hkeep.
    destruct Hkeep as ([kept_names|e] & w2 & Hrun & Hpost); [|contradiction].
    destruct Hpost as [Hk Hsub].
    unfold bind. rewrite Hrun.
    eexists. eexists. split; [reflexivity|].
    split; [eapply Permutation_NoDup; [symmetry; apply set_order_perm | exact Hk]|].
    split; [|discriminate].
    intros n Hn. apply Hin.
    apply (Permutation_in _ (set_order_perm _)) in Hn.
    destruct (Hsub n Hn) as [[]|Hn'].
    eapply Permutation_in; [apply set_order_perm | exact Hn'].
Qed.

(** X11. When the commit search raises, the discovery lists the
    repositories of the account instead, once and without retry: it returns
    their full names, the private ones left out unless [include_private],
    and a failure of that listing is raised to the caller. *)
Theorem discovery_falls_back_to_the_account
  (start_date end_date : datetime) (include_private : bool) (w : W)
  (e : Exn) (w1 : W) :
  search_commits
    (commit_query (strftime_date start_date) (strftime_date end_date)) w
  = (Raise e, w1) ->
  _get_repos_with_contributions start_date end_date include_private w
  = match get_repos w1 with
    | (Ok listing, w2) =>
        match broken listing with
        | None =>
            Some (Ok (map full_name
                        (if include_private then items listing
                         else filter (fun repo => negb (private repo))
                                     (items listing))), w2)
        | Some e' => Some (Raise e', w2)
        end
    | (Raise e', w2) => Some (Raise e', w2)
    end.
Proof.
  intros Hsearch.
  unfold _get_repos_with_contributions, try_except, bind at 1, request.
  rewrite Hsearch. unfold all_repo_names, bind, request, lift, iterate.
  destruct (get_repos w1) as [[listing|e'] w2]; [|reflexivity].
  destruct (broken listing); [reflexivity|].
  destruct include_private; reflexivity.
Qed.

End Discovery.

Lemma discovery_returns_the_repositories_of_the_hits_witness :
  exists repos w',
    _get_repos_with_contributions
      (LIB := Samples.lib) (GH := Samples.github Samples.usual)
      (Samples.utc 0) (Samples.utc 7) false 0%nat
    = Some (Ok repos, w')
    /\ NoDup repos.
Proof.
  destruct (discovery_returns_the_repositories_of_the_hits
              (LIB := Samples.lib) (GH := Samples.github Samples.usual)
              (Samples.utc 0) (Samples.utc 7) false 0%nat
              _ 1%nat 2%nat eq_refl eq_refl eq_refl)
    as (repos & w' & Hrun & Hnd & _).
  exists repos, w'. split; assumption.
Defined.

Lemma discovery_falls_back_to_the_account_witness :
  _get_repos_with_contributions
    (LIB := Samples.lib) (GH := Samples.github Samples.refused)
    (Samples.utc 0) (Samples.utc 7) false 0%nat
  = Some (Ok ["alice/proj"], 2%nat).
Proof.
  rewrite (discovery_falls_back_to_the_account
             (LIB := Samples.lib) (GH := Samples.github Samples.refused)
             (Samples.utc 0) (Samples.utc 7) false 0%nat
             (mkExn OtherError "403 API rate limit exceeded") 1%nat eq_refl).
  reflexivity.
Defined.

(* ===================================================================== *)
(** * Reports, prompt and dates of the command line *)
(* ===================================================================== *)

Section Joined.

Import StringFacts.

Lemma contains_app_r sub a b :
  PyStr.contains sub b = true -> PyStr.contains sub (a ++ b) = true.
Proof.
  intros H. apply contains_inv in H. destruct H as (x & y & ->).
  rewrite <- append_assoc. apply contains_intro.
Qed.

Lemma contains_app_l sub a b :
  PyStr.contains sub a = true -> PyStr.contains sub (a ++ b) = true.
Proof.
  intros H. apply contains_inv in H. destruct H as (x & y & ->).
  rewrite !append_assoc. apply contains_intro.
Qed.

Lemma contains_self s : PyStr.contains s s = true.
Proof.
  rewrite <- (append_nil_r s) at 2.
  change (s ++ EmptyString) with (EmptyString ++ s ++ EmptyString).
  apply contains_intro.
Qed.

Lemma join_cons sep x l :
  PyStr.join sep (x :: l)
  = match l with
    | [] => x
    | _ :: _ => x ++ sep ++ PyStr.join sep l
    end.
Proof. destruct l; reflexivity. Qed.

(** A line of a joined text is part of the text. *)
Lemma contains_line sep line lines :
  In line lines -> PyStr.contains line (PyStr.join sep lines) = true.
Proof.
  induction lines as [|x lines IH]; intros Hin; [contradiction|].
  rewrite join_cons. destruct Hin as [->|Hin].
  - destruct lines; [apply contains_self | apply contains_app_l, contains_self].
  - destruct lines as [|y lines]; [contradiction|].
    apply contains_app_r, contains_app_r, IH. exact Hin.
Qed.

(** A line that is not the last one is followed by the separator. *)
Lemma contains_line_sep sep line lines last_line :
  In line lines ->
  PyStr.contains (line ++ sep) (PyStr.join sep (lines +++ [last_line])) = true.
Proof.
  induction lines as [|x lines IH]; intros Hin; [contradiction|].
  change ((x :: lines) +++ [last_line]) with (x :: (lines +++ [last_line])).
  rewrite join_cons.
  assert (Hrest : exists y rest, lines +++ [last_line] = y :: rest)
    by (destruct lines; simpl; eauto).
  destruct Hrest as (y & rest & Hrest).
  destruct Hin as [->|Hin].
  - rewrite Hrest, <- append_assoc. apply contains_app_l, contains_self.
  - specialize (IH Hin). rewrite Hrest in *.
    apply contains_app_r, contains_app_r. exact IH.
Qed.

End Joined.

(** X12. Both formats of the summary state the number of commits and the
    number of repository records of the dictionary, each on a line of its
    own. *)
Theorem summary_states_the_counts (contributions : Contributions) :
  let total_commits := PyStr.of_nat (List.length (commits contributions)) in
  let total_repos := PyStr.of_nat (List.length (repositories contributions)) in
  PyStr.contains ("- **Total Commits**: " ++ total_commits ++ nl)
                 (Report.generate_summary contributions "markdown") = true
  /\ PyStr.contains ("- **Repositories with Contributions**: " ++ total_repos ++ nl)
                    (Report.generate_summary contributions "markdown") = true
  /\ PyStr.contains ("Total Commits: " ++ total_commits ++ nl)
                    (Report.generate_summary contributions "plain") = true
  /\ PyStr.contains ("Repositories with Contributions: " ++ total_repos ++ nl)
                    (Report.generate_summary contributions "plain") = true.
Proof.
  intros total_commits total_repos.
  unfold Report.generate_summary, Report.summary_lines.
  change (String.eqb "markdown" "markdown") with true.
  change (String.eqb "plain" "markdown") with false.
  cbv iota. fold total_commits total_repos.
  set (rest_md := Report.section (commits contributions) ["## Commits"]
                    Report.commit_line_markdown
                  +++ Report.section (repositories contributions)
                        ["## Repositories with Contributions"]
                        Report.repo_line_markdown).
  set (rest_plain := Report.section (commits contributions)
                       ["COMMITS"; PyStr.repeat "-" 10] Report.commit_line_plain
                     +++ Report.section (repositories contributions)
                           ["REPOSITORIES WITH CONTRIBUTIONS"; PyStr.repeat "-" 32]
                           Report.repo_line_plain).
  repeat split.
  - rewrite <- !append_assoc.
    change (["# GitHub Contributions Summary" ++ nl; "## Overview";
             "- **Total Commits**: " ++ total_commits;
             ("- **Repositories with Contributions**: " ++ total_repos) ++ nl]
            +++ rest_md)
      with (["# GitHub Contributions Summary" ++ nl; "## Overview";
             "- **Total Commits**: " ++ total_commits]
            +++ ((("- **Repositories with Contributions**: " ++ total_repos) ++ nl)
                   :: rest_md)).
    rewrite (app_removelast_last EmptyString
               (l := (("- **Repositories with Contributions**: " ++ total_repos) ++ nl)
                       :: rest_md)) by discriminate.
    rewrite app_assoc.
    apply contains_line_sep. apply in_or_app. left. right. right. left. reflexivity.
  - apply contains_line. right. right. right. left. reflexivity.
  - rewrite <- !append_assoc.
    change (["GITHUB CONTRIBUTIONS SUMMARY"; PyStr.repeat "=" 40; EmptyString;
             "OVERVIEW"; PyStr.repeat "-" 10;
             "Total Commits: " ++ total_commits;
             "Repositories with Contributions: " ++ total_repos;
             EmptyString] +++ rest_plain)
      with (["GITHUB CONTRIBUTIONS SUMMARY"; PyStr.repeat "=" 40; EmptyString;
             "OVERVIEW"; PyStr.repeat "-" 10;
             "Total Commits: " ++ total_commits;
             "Repositories with Contributions: " ++ total_repos]
            +++ (EmptyString :: rest_plain)).
    rewrite (app_removelast_last EmptyString (l := EmptyString :: rest_plain))
      by discriminate.
    rewrite app_assoc.
    apply contains_line_sep. apply in_or_app. left.
    do 5 right. left. reflexivity.
  - rewrite <- !append_assoc.
    change (["GITHUB CONTRIBUTIONS SUMMARY"; PyStr.repeat "=" 40; EmptyString;
             "OVERVIEW"; PyStr.repeat "-" 10;
             "Total Commits: " ++ total_commits;
             "Repositories with Contributions: " ++ total_repos;
             EmptyString] +++ rest_plain)
      with (["GITHUB CONTRIBUTIONS SUMMARY"; PyStr.repeat "=" 40; EmptyString;
             "OVERVIEW"; PyStr.repeat "-" 10;
             "Total Commits: " ++ total_commits;
             "Repositories with Contributions: " ++ total_repos]
            +++ (EmptyString :: rest_plain)).
    rewrite (app_removelast_last EmptyString (l := EmptyString :: rest_plain))
      by discriminate.
    rewrite app_assoc.
    apply contains_line_sep. apply in_or_app. left.
    do 6 right. left. reflexivity.
Qed.

(** The lines of the section: the header of a commit's repository and the
    commit's own line. *)
Lemma low_level_section_lines
  (contributions : Contributions) (commit : CommitRecord) :
  In commit (commits contributions) ->
  PyStr.contains ("  Repository: " ++ c_repo commit)
                 (Report._generate_low_level_tasks contributions) = true
  /\ PyStr.contains (Report.low_level_commit_line commit)
                    (Report._generate_low_level_tasks contributions) = true.
Proof.
  intros Hin. unfold Report._generate_low_level_tasks.
  destruct (commits contributions) as [|c0 cs] eqn:Hcs; [contradiction|].
  rewrite <- Hcs in *. clear Hcs c0 cs.
  set (repo_commits := Report.commits_by_repo (commits contributions)).
  assert (Hname : In (c_repo commit) (PyStr.sorted (map fst repo_commits))).
  { apply (Permutation_in _ (Permutation_sym (sorted_perm _))).
    apply (proj2 (commits_by_repo_keys _)). apply in_map. exact Hin. }
  split; apply contains_line; right; apply in_flat_map;
    exists (c_repo commit); (split; [exact Hname|]).
  - left. reflexivity.
  - right. apply in_or_app. left. apply in_map.
    unfold repo_commits. rewrite commits_by_repo_lookup.
    apply filter_In. split; [exact Hin | apply String.eqb_refl].
Qed.

(** X13. When the set has commits, every commit of it is listed in the
    low-level section: the section has the header line of the commit's
    repository and the line of the commit itself. *)
Theorem low_level_section_lists_every_commit
  (contributions : Contributions) (commit : CommitRecord) :
  In commit (commits contributions) ->
  PyStr.contains ("  Repository: " ++ c_repo commit)
                 (Report._generate_low_level_tasks contributions) = true
  /\ PyStr.contains (Report.low_level_commit_line commit)
                    (Report._generate_low_level_tasks contributions) = true.
Proof. exact (low_level_section_lines contributions commit). Qed.

Lemma low_level_section_lists_every_commit_witness :
  PyStr.contains "  Repository: alpha"
    (Report._generate_low_level_tasks Samples.sample_contributions) = true
  /\ PyStr.contains "    Commit: def5678 - Add a"
       (Report._generate_low_level_tasks Samples.sample_contributions) = true.
Proof.
  apply (low_level_section_lists_every_commit Samples.sample_contributions
           (mkCommit "alpha" "def5678" "Add a" (Samples.utc 2)
              "https://github.com/o/alpha/commit/def5678")).
  right. left. reflexivity.
Defined.

Section CommandLine.

Context {LIB : Library} {W : Type} {GH : GitHub W}.

(** The date [parse_date] returns has a zone. *)
Lemma parse_date_aware (date_str : string) :
  match parse_date date_str with
  | Ok d => PyTime.aware d = true
  | Raise e => exn_class e <> ValueError
  end.
Proof.
  unfold parse_date.
  destruct (date_parser_parse date_str) as [parsed|e].
  - destruct (PyTime.aware parsed) eqn:Haware; [exact Haware | reflexivity].
  - destruct (exn_class e) eqn:Hclass; simpl; congruence.
Qed.

(** X14. [parse_date] never returns a naive date and never lets a
    [ValueError] of the parser through. *)
Theorem parse_date_outcome (date_str : string) :
  match parse_date date_str with
  | Ok d => PyTime.aware d = true
  | Raise e => exn_class e <> ValueError
  end.
Proof. exact (parse_date_aware date_str). Qed.


End CommandLine.


Section Summarizer.

Context {LIB : Library} {B : Type} {BR : BedrockRuntime B}.

(** X16. A failure of the model service does not lose the report: the
    summarizer returns a text that carries the error message and, after the
    line [Original contributions:], the whole list it was given; an answer
    of the service is returned stripped.  It never raises. *)
Theorem summarizer_keeps_the_report_on_failure
  (self : BedrockSummarizer) (contributions_list : string) (b : B) :
  match invoke_model (region self) (model_id self) (max_tokens self)
          (create_summary_prompt contributions_list) b with
  | (Ok text, b') =>
      summarize_contributions self contributions_list b
      = Some (Ok (str_strip text), b')
  | (Raise e, b') =>
      exists summary,
        summarize_contributions self contributions_list b = Some (Ok summary, b')
        /\ summary = ("Error generating summary: " ++ exn_str e ++ nl ++ nl)
                       ++ ("Original contributions:" ++ nl) ++ contributions_list
        /\ PyStr.contains (exn_str e) summary = true
        /\ PyStr.contains contributions_list summary = true
  end.
Proof.
  unfold summarize_contributions, try_except, ret. cbv zeta.
  destruct (invoke_model (region self) (model_id self) (max_tokens self)
              (create_summary_prompt contributions_list) b) as [[text|e] b'];
    [reflexivity|].
  eexists. split; [reflexivity|]. unfold error_summary.
  split; [rewrite !append_assoc; reflexivity|]. split.
  - apply StringFacts.contains_intro.
  - do 6 apply contains_app_r. apply contains_self.
Qed.

(** X17. The prompt sent to the model holds the list of contributions
    unchanged, between the request and the template, and the template asks
    for the four sections [## Overview], [## High-Level Tasks Completed],
    [## Key Achievements] and [## Impact]. *)
Theorem prompt_holds_the_list_and_the_template (contributions_list : string) :
  PyStr.contains contributions_list (create_summary_prompt contributions_list) = true
  /\ PyStr.take (String.length prompt_head) (create_summary_prompt contributions_list)
     = prompt_head
  /\ PyStr.drop (String.length prompt_head + String.length contributions_list)
                (create_summary_prompt contributions_list)
     = prompt_tail
  /\ Forall (fun heading =>
               PyStr.contains heading (create_summary_prompt contributions_list)
               = true)
            [Report.overview_heading; Report.high_level_heading;
             "## Key Achievements"; "## Impact"].
Proof.
  unfold create_summary_prompt. split; [|split; [|split]].
  - apply StringFacts.contains_intro.
  - apply StringFacts.take_app.
  - rewrite <- append_assoc, <- StringFacts.length_append. apply StringFacts.drop_app.
  - repeat constructor; do 2 apply contains_app_r; vm_compute; reflexivity.
Qed.

End Summarizer.

Section FinalReport.

Import StringFacts.

Context {LIB : Library} {B : Type} {BR : BedrockRuntime B}.

Lemma contains_trans x y z :
  PyStr.contains x y = true -> PyStr.contains y z = true ->
  PyStr.contains x z = true.
Proof.
  intros Hxy Hyz. apply contains_inv in Hyz. destruct Hyz as (a & b & ->).
  apply contains_app_r, contains_app_l. exact Hxy.
Qed.

Lemma contains_cons sub c s :
  PyStr.contains sub s = true -> PyStr.contains sub (String c s) = true.
Proof. intros H. rewrite contains_unfold, H. apply orb_true_r. Qed.

(** Where [old] occurs, the replacement has [new]. *)
Lemma replace_has_new old new s :
  old <> EmptyString ->
  PyStr.contains old s = true ->
  PyStr.contains new (PyStr.replace old new s) = true.
Proof.
  intros Hold. unfold PyStr.replace.
  induction s as [|c s IH]; intros H.
  - rewrite contains_unfold in H. rewrite orb_false_r in H.
    apply prefix_inv in H. destruct H as [t Ht].
    destruct old; [contradiction | discriminate].
  - cbn [PyStr.replace_from].
    destruct (prefix old (String c s)) eqn:Hpre.
    + apply contains_app_l, contains_self.
    + rewrite contains_unfold, Hpre in H. simpl in H.
      apply contains_cons, IH, H.
Qed.

Lemma insertion_has_section (bedrock_summary low_level_section : string) :
  PyStr.contains low_level_section
    (Report.insert_low_level_tasks bedrock_summary low_level_section) = true.
Proof.
  unfold Report.insert_low_level_tasks.
  destruct (PyStr.contains Report.high_level_heading bedrock_summary) eqn:Hhigh.
  - eapply contains_trans;
      [|apply replace_has_new; [exact high_level_heading_nonempty | exact Hhigh]].
    apply contains_app_l, contains_self.
  - destruct (PyStr.contains Report.overview_heading bedrock_summary).
    + cbv zeta. destruct (_ =? -1)%Z.
      * do 3 apply contains_app_r. apply contains_self.
      * do 3 apply contains_app_r. apply contains_app_l, contains_self.
    + do 3 apply contains_app_r. apply contains_self.
Qed.


End FinalReport.

(* ===================================================================== *)
(** * The number of chunks *)
(* ===================================================================== *)

Section ChunkCount.

Context {LIB : Library} {W : Type} {GH : GitHub W}.

(** The number of chunks is the span divided by seven days, rounded up. *)
Lemma chunk_ranges_length end_date fuel :
  forall current_date,
    PyTime.comparable current_date end_date = true ->
    enough end_date fuel current_date ->
    List.length (chunk_ranges fuel current_date end_date)
    = Z.to_nat ((PyTime.instant end_date - PyTime.instant current_date
                 + chunk_size - 1) / chunk_size).
Proof.
  pose proof PyTimeFacts.chunk_size_pos as Hcs. fold chunk_size in Hcs.
  induction fuel as [|fuel IH]; intros current_date Hcmp Hen.
  - destruct Hen as [Hpos _]. lia.
  - rewrite chunk_ranges_step by exact Hcmp.
    destruct (Z.ltb_spec (PyTime.instant current_date) (PyTime.instant end_date))
      as [Hlt|Hge].
    + cbn [List.length].
      rewrite IH by (try apply next_end_comparable; try apply enough_next; assumption).
      rewrite next_end_instant.
      set (d := (PyTime.instant end_date - PyTime.instant current_date)%Z) in *.
      replace (d + chunk_size - 1)%Z with ((d - 1) + 1 * chunk_size)%Z by lia.
      rewrite Z.div_add by lia.
      assert (0 <= (d - 1) / chunk_size)%Z by (apply Z.div_pos; lia).
      destruct (Z.min_spec (PyTime.instant current_date + chunk_size)
                           (PyTime.instant end_date)) as [[Hm ->]|[Hm ->]].
      * replace (PyTime.instant end_date
                 - (PyTime.instant current_date + chunk_size) + chunk_size - 1)%Z
          with (d - 1)%Z by lia.
        lia.
      * replace (PyTime.instant end_date - PyTime.instant end_date + chunk_size - 1)%Z
          with (chunk_size - 1)%Z by lia.
        rewrite (Z.div_small (chunk_size - 1)) by lia.
        rewrite (Z.div_small (d - 1)) by lia. reflexivity.
    + assert ((PyTime.instant end_date - PyTime.instant current_date
               + chunk_size - 1) / chunk_size < 1)%Z
        by (apply Z.div_lt_upper_bound; lia).
      simpl. lia.
Qed.

Lemma conservative_chunks_add include_private
  (chunks : list (datetime * datetime)) :
  forall f : Frame W,
    exists f',
      for_each chunks
        (fun chunk => conservative_chunk (fst chunk) (snd chunk) include_private) f
      = Some (Ok tt, f')
      /\ (List.length (repositories (contributions f'))
          <= List.length (repositories (contributions f))
             + 10 * List.length chunks)%nat.
Proof.
  induction chunks as [|chunk chunks IH]; intros f.
  - exists f. split; [reflexivity | simpl; lia].
  - destruct (conservative_chunk_adds (fst chunk) (snd chunk) include_private f)
      as (f1 & Hrun & Hlen).
    destruct (IH f1) as (f2 & Hrun2 & Hlen2).
    exists f2. split.
    + cbn [for_each]. unfold bind. rewrite Hrun. exact Hrun2.
    + cbn [List.length]. lia.
Qed.


End ChunkCount.


(* ===================================================================== *)
(** * The bulk strategy when its search answers *)
(* ===================================================================== *)

Section BulkResult.

Context {LIB : Library} {W : Type} {GH : GitHub W}.

(** A name with a slash in it: what [owner, repo = name.split('/', 1)]
    accepts. *)
Lemma repo_name_unpacks u n :
  repo_name_of_url u = Some n ->
  exists owner, PyStr.split1 slash n = (owner, Some (repo_part n)).
Proof.
  unfold repo_name_of_url. cbv zeta.
  destruct (5 <=? List.length (PyStr.split slash u))%nat eqn:Hlen; [|discriminate].
  intros [= <-]. apply Nat.leb_le in Hlen.
  assert (Hfree : free_of slash (nth 3 (PyStr.split slash u) EmptyString) = true).
  { pose proof (split_parts_free slash u) as Hparts.
    rewrite Forall_forall in Hparts. apply Hparts, nth_In. lia. }
  exists (nth 3 (PyStr.split slash u) EmptyString).
  unfold repo_part.
  change (nth 3 (PyStr.split slash u) EmptyString ++ "/"
            ++ nth 4 (PyStr.split slash u) EmptyString)
    with (nth 3 (PyStr.split slash u) EmptyString
            ++ String slash (nth 4 (PyStr.split slash u) EmptyString)).
  rewrite (split1_first slash _ _ Hfree). reflexivity.
Qed.

Lemma group_by_repo_keys found n :
  In n (map fst (group_by_repo found)) ->
  exists hit, In hit found /\ repo_name_of_url (gc_html_url hit) = Some n.
Proof.
  unfold group_by_repo.
  assert (Hgen : forall acc,
             In n (map fst
                     (fold_left
                        (fun repo_commits commit =>
                           match repo_name_of_url (gc_html_url commit) with
                           | Some repo_name => group_append repo_name commit repo_commits
                           | None => repo_commits
                           end) found acc)) ->
             In n (map fst acc)
             \/ exists hit, In hit found
                            /\ repo_name_of_url (gc_html_url hit) = Some n).
  { induction found as [|c found IH]; intros acc Hin; simpl in Hin; [left; exact Hin|].
    destruct (IH _ Hin) as [Hacc|(hit & Hhit & Hn)].
    - destruct (repo_name_of_url (gc_html_url c)) as [name|] eqn:Hname;
        [|left; exact Hacc].
      apply group_append_keys in Hacc. destruct Hacc as [->|Hacc];
        [right; exists c; split; [left; reflexivity | exact Hname] | left; exact Hacc].
    - right. exists hit. split; [right; exact Hhit | exact Hn]. }
  intros Hin. destruct (Hgen [] Hin) as [[]|H]. exact H.
Qed.

Lemma group_key_unpacks found n :
  In n (map fst (group_by_repo found)) ->
  exists owner, PyStr.split1 slash n = (owner, Some (repo_part n)).
Proof.
  intros Hin. destruct (group_by_repo_keys found n Hin) as (hit & _ & Hn).
  exact (repo_name_unpacks _ _ Hn).
Qed.

(** The loop over the groups appends, group by group, the records of the
    first fifty commits. *)
Lemma bulk_groups_append (groups : list (string * list GitCommit)) :
  (forall n, In n (map fst groups) ->
             exists owner, PyStr.split1 slash n = (owner, Some (repo_part n))) ->
  forall f : Frame W,
    for_each groups
      (fun '(repo_name, repo_commit_list) =>
         '(_, repo) <- owner_repo repo_name ;;
         for_each (firstn 50 repo_commit_list)
           (fun commit =>
              update (append_commit
                        (mkCommit repo
                                  (PyStr.take 7 (gc_sha commit))
                                  (first_line (gc_message commit))
                                  (gc_author_date commit)
                                  (gc_html_url commit))))) f
    = Some (Ok tt,
            mkFrame (world f)
              (mkContributions
                 (commits (contributions f)
                    +++ flat_map (fun entry =>
                                    map (commit_data (repo_part (fst entry)))
                                        (firstn 50 (snd entry))) groups)
                 (pull_requests (contributions f)) (issues (contributions f))
                 (reviews (contributions f)) (repositories (contributions f)))).
Proof.
  induction groups as [|[name l] groups IH]; intros Hkeys [w c].
  - simpl. unfold ret. rewrite app_nil_r. destruct c; reflexivity.
  - destruct (Hkeys name (or_introl eq_refl)) as [owner Hsplit].
    cbn [for_each]. unfold bind at 1. unfold bind at 1, owner_repo.
    rewrite Hsplit. unfold ret at 1. cbv beta iota.
    pose proof (for_each_append_commit (commit_data (repo_part name)) (firstn 50 l)
                  (mkFrame w c)) as Happ.
    unfold commit_data at 1 in Happ. rewrite Happ. cbv beta iota.
    rewrite IH by (intros n Hn; apply Hkeys; right; exact Hn).
    cbn. rewrite <- app_assoc. reflexivity.
Qed.

(** The loop over the repository names appends one record per name. *)
Lemma bulk_repositories_append (names : list string) :
  (forall n, In n names ->
             exists owner, PyStr.split1 slash n = (owner, Some (repo_part n))) ->
  forall f : Frame W,
    for_each names
      (fun repo_name =>
         '(_, repo) <- owner_repo repo_name ;;
         update (append_repository
                   (mkRepo repo ("https://github.com/" ++ repo_name) false))) f
    = Some (Ok tt,
            mkFrame (world f)
              (mkContributions
                 (commits (contributions f))
                 (pull_requests (contributions f)) (issues (contributions f))
                 (reviews (contributions f))
                 (repositories (contributions f)
                    +++ map bulk_repository_record names))).
Proof.
  induction names as [|name names IH]; intros Hkeys [w c].
  - simpl. unfold ret. rewrite app_nil_r. destruct c; reflexivity.
  - destruct (Hkeys name (or_introl eq_refl)) as [owner Hsplit].
    cbn [for_each]. unfold bind at 1. unfold bind at 1, owner_repo.
    rewrite Hsplit. unfold ret at 1, update at 1. cbv beta iota.
    rewrite IH by (intros n Hn; apply Hkeys; right; exact Hn).
    cbn. rewrite <- app_assoc. reflexivity.
Qed.

(** X20. When the commit search of the bulk strategy answers and can be read
    to the end, the strategy returns without falling back, also on zero
    hits.  Its commit list is the first fifty hits of each repository,
    repository by repository, whatever [include_private] is: the visibility
    filter only selects which repositories get a record.  Every repository
    record is built from the name of a group of hits, and with
    [include_private] there is one record per group. *)
Theorem bulk_result_when_the_search_answers
  (start_date end_date : datetime) (include_private : bool) (w : W)
  (hits : PaginatedList GitCommit) (w1 : W) :
  search_commits
    (commit_query (strftime_date start_date) (strftime_date end_date)) w
  = (Ok hits, w1) ->
  broken hits = None ->
  exists c w' names,
    _fetch_contributions_bulk_search start_date end_date include_private w
    = Some (Ok c, w')
    /\ commits c = bulk_commit_records (items hits)
    /\ repositories c = map bulk_repository_record names
    /\ (forall n, In n names -> In n (map fst (group_by_repo (items hits))))
    /\ (include_private = true ->
        names = set_order (map fst (group_by_repo (items hits)))
        /\ w' = w1).
Proof.
  intros Hsearch Hbroken.
  set (keys := map fst (group_by_repo (items hits))).
  assert (Hkeys : forall n, In n keys ->
             exists owner, PyStr.split1 slash n = (owner, Some (repo_part n)))
    by (intros n Hn; exact (group_key_unpacks _ _ Hn)).
  assert (Hbody :
    exists f names,
      bulk_body start_date end_date include_private (mkFrame w empty_contributions)
      = Some (Ok None, f)
      /\ commits (contributions f) = bulk_commit_records (items hits)
      /\ repositories (contributions f) = map bulk_repository_record names
      /\ (forall n, In n names -> In n keys)
      /\ (include_private = true -> names = set_order keys /\ world f = w1)).
  { unfold bulk_body. cbv zeta.
    unfold bind at 1. unfold try_except at 1. unfold bind at 1.
    unfold in_world at 1, request at 1. cbn [world contributions].
    rewrite Hsearch. unfold ret at 1. cbv beta iota.
    unfold bind at 1, lift at 1, iterate. rewrite Hbroken. cbv beta iota.
    fold keys.
    unfold bind at 1.
    rewrite (bulk_groups_append (group_by_repo (items hits)) Hkeys).
    cbv beta iota. cbn [world contributions commits pull_requests issues reviews
                        repositories empty_contributions app].
    fold (bulk_commit_records (items hits)).
    destruct include_private; cbn [negb].
    - unfold bind at 1, ret at 1. cbv beta iota. unfold bind at 1.
      rewrite (bulk_repositories_append (set_order keys)).
      + cbn. eexists. exists (set_order keys). split; [reflexivity|].
        cbn. split; [reflexivity|]. split; [reflexivity|].
        split; [|intros _; split; reflexivity].
        intros n Hn. exact (Permutation_in _ (set_order_perm _) Hn).
      + intros n Hn. apply Hkeys. exact (Permutation_in _ (set_order_perm _) Hn).
    - pose proof (keep_public_subset (set_order keys) [] w1 (NoDup_nil _)) as Hkeep.
      apply wp_inv in Hkeep.
      destruct Hkeep as ([kept_names|e] & w2 & Hrun & Hpost); [|contradiction].
      destruct Hpost as [_ Hsub].
      assert (Hin : forall n, In n (set_order kept_names) -> In n keys).
      { intros n Hn. apply (Permutation_in _ (set_order_perm _)) in Hn.
        destruct (Hsub n Hn) as [[]|Hn'].
        exact (Permutation_in _ (set_order_perm _) Hn'). }
      unfold bind at 1, in_world at 1. cbn [world contributions].
      rewrite Hrun. cbv beta iota. unfold bind at 1.
      rewrite (bulk_repositories_append (set_order kept_names))
        by (intros n Hn; apply Hkeys, Hin, Hn).
      cbn. eexists. exists (set_order kept_names). split; [reflexivity|].
      cbn. split; [reflexivity|]. split; [reflexivity|].
      split; [exact Hin | discriminate]. }
  destruct Hbody as (f & names & Hrun & Hcommits & Hrepos & Hnames & Hall).
  exists (contributions f), (world f), names.
  split; [|repeat split; auto; apply Hall; assumption].
  unfold _fetch_contributions_bulk_search, try_except, returning.
  rewrite Hrun. reflexivity.
Qed.

End BulkResult.

(** The fork [bob/proj] is private: without [include_private] its commit is
    still in the commit list. *)
Lemma bulk_result_when_the_search_answers_witness :
  exists c w' names,
    @_fetch_contributions_bulk_search Samples.lib nat (Samples.github Samples.usual)
      (Samples.utc 0) (Samples.utc 10) false 0
    = Some (Ok c, w')
    /\ commits c
       = bulk_commit_records [Samples.commit_in Samples.usual "alice/proj";
                              Samples.commit_in Samples.usual "bob/proj"]
    /\ repositories c = map bulk_repository_record names
    /\ (forall n, In n names ->
                  In n (map fst (group_by_repo
                                   [Samples.commit_in Samples.usual "alice/proj";
                                    Samples.commit_in Samples.usual "bob/proj"])))
    /\ (false = true ->
        names = @set_order Samples.lib
                  (map fst (group_by_repo
                              [Samples.commit_in Samples.usual "alice/proj";
                               Samples.commit_in Samples.usual "bob/proj"]))
        /\ w' = 1%nat).
Proof.
  apply (bulk_result_when_the_search_answers (LIB := Samples.lib)
           (GH := Samples.github Samples.usual)
           (Samples.utc 0) (Samples.utc 10) false 0
           (Samples.page [Samples.commit_in Samples.usual "alice/proj";
                          Samples.commit_in Samples.usual "bob/proj"]) 1%nat);
    reflexivity.
Defined.

(* ===================================================================== *)
(** * The entry point and its flags *)
(* ===================================================================== *)

Section Flags.

Context {LIB : Library} {W : Type} {GH : GitHub W}.

(** X21. [get_contributions] lists the repositories before it looks at the
    strategy flags, so a failure of that step reaches the caller whatever
    strategy is selected: without optimisation when the listing of the
    account fails, with optimisation when the commit search fails and the
    listing of the account fails after it. *)
Theorem listing_failure_reaches_the_caller
  (start_date end_date : datetime) (include_private optimize : bool)
  (limit : option Z)
  (skip_reviews use_graphql use_bulk use_conservative : bool)
  (w w0 w1 : W) (e : Exn) :
  (if optimize
   then exists e0,
       search_commits
         (commit_query (strftime_date start_date) (strftime_date end_date)) w
       = (Raise e0, w0)
   else w0 = w) ->
  get_repos w0 = (Raise e, w1) ->
  get_contributions start_date end_date include_private optimize limit
    skip_reviews use_graphql use_bulk use_conservative w
  = Some (Raise e, w1).
Proof.
  intros Hfirst Hrepos. destruct optimize.
  - destruct Hfirst as [e0 Hsearch].
    unfold get_contributions, bind, _get_repos_with_contributions, try_except,
      bind, request.
    rewrite Hsearch. unfold all_repo_names, bind, request.
    rewrite Hrepos. reflexivity.
  - subst w0.
    unfold get_contributions, bind, all_repo_names, bind, request.
    rewrite Hrepos. reflexivity.
Qed.

(** X22. [skip_reviews] never changes the outcome; with [use_conservative]
    the outcome does not depend on [limit], [use_graphql] or [use_bulk];
    with [use_bulk] and without [use_conservative] it does not depend on
    [limit] or [use_graphql]. *)
Theorem flags_without_effect
  (start_date end_date : datetime) (include_private optimize : bool)
  (limit limit' : option Z)
  (skip_reviews skip_reviews' use_graphql use_graphql' use_bulk use_bulk'
     use_conservative : bool) (w : W) :
  get_contributions start_date end_date include_private optimize limit
    skip_reviews use_graphql use_bulk use_conservative w
  = get_contributions start_date end_date include_private optimize limit
      skip_reviews' use_graphql use_bulk use_conservative w
  /\ get_contributions start_date end_date include_private optimize limit
       skip_reviews use_graphql use_bulk true w
     = get_contributions start_date end_date include_private optimize limit'
         skip_reviews' use_graphql' use_bulk' true w
  /\ get_contributions start_date end_date include_private optimize limit
       skip_reviews use_graphql true use_conservative w
     = get_contributions start_date end_date include_private optimize limit'
         skip_reviews' use_graphql' true use_conservative w.
Proof.
  split; [reflexivity|]. split; [reflexivity|].
  destruct use_conservative; reflexivity.
Qed.

End Flags.

(** The search is refused and the account cannot be listed: also the
    Conservative strategy is not reached. *)
Lemma listing_failure_reaches_the_caller_witness :
  @get_contributions Samples.lib nat Samples.unlisted (Samples.utc 0) (Samples.utc 10)
    true true None true false false true 0%nat
  = Some (Raise Samples.forbidden, 2%nat).
Proof.
  apply (listing_failure_reaches_the_caller (LIB := Samples.lib)
           (GH := Samples.unlisted) (Samples.utc 0) (Samples.utc 10)
           true true None true false false true 0%nat 1%nat 2%nat).
  - exists Samples.forbidden. reflexivity.
  - reflexivity.
Defined.

(* ===================================================================== *)
(** * What the summaries list *)
(* ===================================================================== *)

Lemma section_has_line {A} (xs : list A) (header : list string)
  (line : A -> string) (x : A) :
  In x xs -> In (line x) (Report.section xs header line).
Proof.
  intros Hin. unfold Report.section. destruct xs as [|x0 xs0]; [contradiction|].
  apply in_or_app. right. apply in_or_app. left. apply in_map. exact Hin.
Qed.

(** X23. The summary lists every commit and every repository of the
    dictionary, in both formats: a commit with its repository, message and
    short hash, a repository with its name and visibility. *)
Theorem summary_lists_every_record
  (contributions : Contributions) (format_type : string) :
  (forall commit,
      In commit (commits contributions) ->
      PyStr.contains
        (if String.eqb format_type "markdown"
         then "- **" ++ c_repo commit ++ "**: " ++ c_message commit
                ++ " (" ++ c_sha commit ++ ")"
         else "- " ++ c_repo commit ++ ": " ++ c_message commit
                ++ " (" ++ c_sha commit ++ ")")
        (Report.generate_summary contributions format_type) = true)
  /\ (forall repo,
      In repo (repositories contributions) ->
      PyStr.contains
        (if String.eqb format_type "markdown"
         then "- **" ++ r_name repo ++ "** ("
                ++ (if r_private repo then Report.private_markdown
                    else Report.public_markdown) ++ ")"
         else "- " ++ r_name repo ++ " ("
                ++ (if r_private repo then "Private" else "Public") ++ ")")
        (Report.generate_summary contributions format_type) = true).
Proof.
  unfold Report.generate_summary, Report.summary_lines.
  split; intros x Hin; apply contains_line;
    destruct (String.eqb format_type "markdown");
    apply in_or_app; right; apply in_or_app.
  - left. apply (section_has_line _ _ Report.commit_line_markdown _ Hin).
  - left. apply (section_has_line _ _ Report.commit_line_plain _ Hin).
  - right. apply (section_has_line _ _ Report.repo_line_markdown _ Hin).
  - right. apply (section_has_line _ _ Report.repo_line_plain _ Hin).
Qed.

(** X24. The repositories-only summary states the number of repository
    records and lists each of them with its URL, in both formats; it shows
    no commit section. *)
Theorem repos_only_summary_lists_every_repository
  (contributions : Contributions) (format_type : string) :
  PyStr.contains
    (if String.eqb format_type "markdown"
     then "**Total Repositories**: "
            ++ PyStr.of_nat (List.length (repositories contributions)) ++ nl
     else "Total Repositories: "
            ++ PyStr.of_nat (List.length (repositories contributions)))
    (Report.generate_repos_only_summary contributions format_type) = true
  /\ (forall repo,
      In repo (repositories contributions) ->
      PyStr.contains
        ((if String.eqb format_type "markdown"
          then Report.repo_line_markdown repo
          else Report.repo_line_plain repo) ++ " - " ++ r_url repo)
        (Report.generate_repos_only_summary contributions format_type) = true)
  /\ Report.generate_repos_only_summary contributions format_type
     = Report.generate_repos_only_summary
         (mkContributions [] [] [] [] (repositories contributions)) format_type.
Proof.
  unfold Report.generate_repos_only_summary, Report.repos_only_lines.
  split; [|split; [|reflexivity]].
  - apply contains_line. destruct (String.eqb format_type "markdown").
    + right. left. reflexivity.
    + right. right. right. left. reflexivity.
  - intros repo Hin. apply contains_line.
    destruct (String.eqb format_type "markdown");
      apply in_or_app; right.
    + apply (section_has_line _ _ Report.repos_only_line_markdown _ Hin).
    + apply (section_has_line _ _ Report.repos_only_line_plain _ Hin).
Qed.

(* ===================================================================== *)
(** * The commits the GraphQL strategy collects *)
(* ===================================================================== *)

Section OwnCommits.

Context {LIB : Library} {W : Type} {GH : GitHub W}.

#[local] Abbreviation own := (holds (fun c => Forall own_node_record (commits c))).

Lemma graphql_node_own repo node (s : Frame W) :
  own s -> wp (graphql_node repo node) (fun _ => own) (fun _ => own) s.
Proof.
  intros Hs. unfold graphql_node.
  destruct (author_login node) as [author|] eqn:Hauthor; [|exact Hs].
  destruct (String.eqb author EmptyString); [exact Hs|].
  destruct (String.eqb_spec author login) as [->|Hother]; [|exact Hs].
  cbn [negb]. apply wp_bind, wp_lift.
  destruct (date_parser_parse (committedDate node)) as [date|e] eqn:Hdate;
    [|exact Hs].
  apply wp_update. unfold holds in *. cbn.
  apply Forall_app. split; [exact Hs|]. constructor; [|constructor].
  exists node, date. repeat split; assumption.
Qed.

Lemma graphql_commits_own repo d E (s : Frame W) :
  own s -> wp (graphql_commits repo d) (fun _ => own) E s.
Proof.
  intros Hs. unfold graphql_commits. apply wp_try.
  destruct d as [errs [[[[[[[nodes|]]|]]|]]|]]; simpl; try exact Hs.
  apply wp_bind.
  eapply wp_mono with (Q := fun _ => own) (E := fun _ => own).
  - apply wp_for_each; [|exact Hs].
    intros node s' _ Hs'. apply graphql_node_own. exact Hs'.
  - intros u s' Hs'. exact Hs'.
  - intros e s' Hs'. exact Hs'.
Qed.

Lemma graphql_repo_own start_date_str end_date_str repo_name E (s : Frame W) :
  own s -> wp (graphql_repo start_date_str end_date_str repo_name) (fun _ => own) E s.
Proof.
  intros Hs. unfold graphql_repo. apply wp_try.
  apply wp_bind, wp_owner_repo; [|intros e; exact Hs]. intros owner repo.
  apply wp_bind, wp_try, wp_bind, wp_remote.
  intros [r|e] w1 _; [|exact Hs].
  apply wp_ret. apply wp_bind.
  eapply wp_mono; [apply (unwrap_result_documents r own); exact Hs | |].
  2:{ intros e s' Hs'. exact Hs'. }
  intros [d|] s' [Hs' _]; [|exact Hs'].
  destruct (errors d); [exact Hs'|].
  apply wp_bind.
  eapply wp_mono with (E := fun _ => own);
    [apply graphql_commits_own; exact Hs' | |].
  - intros [|] s'' Hs''; [|exact Hs''].
    apply wp_update. exact Hs''.
  - intros e s'' Hs''. exact Hs''.
Qed.


End OwnCommits.
